(** * Voltcraft VC-830 / FS9922-DMM4 serial protocol decoder (vc830.c)

    A shallow embedding of the frame synchroniser [read14BytesPaket], the
    packet decoder [decodeFS9922Paket] and the helpers they call, followed by
    the properties of the protocol specification that were checked against
    them.

    Conventions.
    - A [byte] (unsigned char) is a [Z]; [&] is [Z.land], [<<] is [Z.shiftl].
    - The text held by a NUL-terminated C string is a [string]; a character
      array [char x[n]] is a [chars] value carrying its declared size [n].
    - A [double] is a binary64 primitive float.
    - Writing past the end of a character array, or through a null pointer,
      is undefined behaviour in C: the model stops with [Undefined]. *)

From Stdlib Require Import ZArith List Bool Lia Ascii String DecimalString.
From Stdlib Require Import PrimFloat FloatOps SpecFloat Uint63.
From Stdlib Require FloatAxioms DecimalFacts DecimalPos DecimalN.
Import ListNotations.

Open Scope string_scope.
Open Scope Z_scope.

#[local] Set Warnings "-inexact-float".

(** ** Outcomes of C code that may run into undefined behaviour *)

Inductive outcome (A : Type) : Type :=
| Done (a : A)
| Undefined.
Arguments Done {A} a.
Arguments Undefined {A}.

Definition bind {A B : Type} (m : outcome A) (k : A -> outcome B) : outcome B :=
  match m with
  | Done a => k a
  | Undefined => Undefined
  end.

Notation "x <- m ;; k" := (bind m (fun x => k))
  (at level 61, m at next level, right associativity).
Notation "' pat <- m ;; k" := (bind m (fun x => match x with pat => k end))
  (at level 61, pat pattern, m at next level, right associativity).

(** ** Bytes and frames *)

Definition byte := Z.

(** [buf[i]]: the callers always hand over the 100-byte [readBuffer], so the
    fourteen offsets the decoder reads are in range; the default is never
    observed on such a buffer. *)
Definition at_ (buf : list byte) (i : nat) : byte := nth i buf 0.

Definition char_of_byte (b : byte) : ascii := ascii_of_N (Z.to_N b).

(** [isdigit] of <ctype.h> on an unsigned char. *)
Definition isdigit (c : byte) : bool := (48 <=? c) && (c <=? 57).

(** ** Character arrays and the <string.h> calls the decoder makes *)

Definition BUFFER_LEN : nat := 100.
Definition END_OF_CAPTURE_FILE : Z := 142857.

Record chars := mkChars { size : nat; text : string }.

Definition strlen (s : string) : nat := String.length s.

(** [strcpy(dst, src)] writes [strlen src + 1] bytes into [dst]. *)
Definition strcpy (dst : chars) (src : string) : outcome chars :=
  if (strlen src + 1 <=? size dst)%nat
  then Done (mkChars (size dst) src)
  else Undefined.

(** [strcat(dst, src)] leaves [strlen dst + strlen src + 1] bytes in [dst]. *)
Definition strcat (dst : chars) (src : string) : outcome chars :=
  if (strlen (text dst) + strlen src + 1 <=? size dst)%nat
  then Done (mkChars (size dst) (text dst ++ src))
  else Undefined.

(** [strequal(s1, s2)], the macro over [strcmp]. *)
Definition strequal (s1 s2 : string) : bool := String.eqb s1 s2.

(** [strinsert]: the text is rebuilt in a heap block of the right size and
    copied back into [srcAndDest]; only the copy back can overrun. *)
Definition strinsert (srcAndDest : chars) (pos : nat) (toInsert : string)
  : outcome chars :=
  let s := text srcAndDest in
  if (pos <=? strlen s)%nat
  then strcpy srcAndDest
         (substring 0 pos s ++ toInsert ++ substring pos (strlen s - pos) s)
  else Undefined.

(** [checkInfo]: [out] is a nullable pointer to a character array; the second
    component of the result is the array after the call. *)
Definition checkInfo (buf : list byte) (statusByte statusBit : Z)
  (info : string) (out : option chars) : outcome (bool * option chars) :=
  if negb (Z.land (at_ buf (Z.to_nat (7 + statusByte - 1))) (Z.shiftl 1 statusBit) =? 0)
  then
    match out with
    | Some o =>
        o1 <- (if negb (strlen (text o) =? 0)%nat then strcat o " " else Done o) ;;
        o2 <- strcat o1 info ;;
        Done (true, Some o2)
    | None => Done (true, None)
    end
  else Done (false, out).

(** A call [checkInfo(buf, sb, bit, info, arr)] on a local array [arr]. *)
Definition checkInfoTo (buf : list byte) (statusByte statusBit : Z)
  (info : string) (arr : chars) : outcome (bool * chars) :=
  r <- checkInfo buf statusByte statusBit info (Some arr) ;;
  Done (fst r, match snd r with Some a => a | None => arr end).

(** [trimZeros]: the loop walks back from the terminator, so it is written
    over the reversed text. *)
Fixpoint trimZeros_rev (r : list ascii) : list ascii :=
  match r with
  | [] => []
  | c :: rest =>
      if negb (Ascii.eqb c "0") then r
      else match rest with
           | "."%char :: _ => r
           | _ => trimZeros_rev rest
           end
  end.

Definition trimZeros (s : chars) : chars :=
  mkChars (size s)
    (string_of_list_ascii (rev (trimZeros_rev (rev (list_ascii_of_string (text s)))))).

(** The loop that advances [vz] over leading zeros of [value]: it stops at a
    character other than 0, and at a 0 that is followed by the point. *)
Fixpoint skipZeros (vz : string) : string :=
  match vz with
  | String c rest =>
      if Ascii.eqb c "0" then
        match rest with
        | String "."%char _ => vz
        | _ => skipZeros rest
        end
      else vz
  | EmptyString => vz
  end.

(** ** Doubles: [atof] and the [%f] conversion *)

Definition double_of_Z (z : Z) : float :=
  if z <? 0 then PrimFloat.opp (of_uint63 (Uint63.of_Z (- z)))
  else of_uint63 (Uint63.of_Z z).

Definition digit_val (c : ascii) : option Z :=
  let n := Z.of_N (N_of_ascii c) in
  if isdigit n then Some (n - 48) else None.

(** [atof] on the texts [value] can hold: decimal digits with at most one
    point, or a text that starts no number, which converts to 0.0.  The
    digits are gathered into an integer mantissa and a power of ten; both are
    far below 2^53, hence exact doubles, and the one IEEE division rounds the
    quotient correctly, which is the double [strtod] returns. *)
Fixpoint atof_frac (s : string) (m scale : Z) : Z * Z :=
  match s with
  | String c r =>
      match digit_val c with
      | Some d => atof_frac r (10 * m + d) (10 * scale)
      | None => (m, scale)
      end
  | EmptyString => (m, scale)
  end.

Fixpoint atof_int (s : string) (m : Z) : Z * Z :=
  match s with
  | String c r =>
      match digit_val c with
      | Some d => atof_int r (10 * m + d)
      | None => if Ascii.eqb c "." then atof_frac r m 1 else (m, 1)
      end
  | EmptyString => (m, 1)
  end.

Definition atof (s : string) : float :=
  let '(m, scale) := atof_int s 0 in
  (double_of_Z m / double_of_Z scale)%float.

Definition dec (n : Z) : string := NilZero.string_of_uint (N.to_uint (Z.to_N n)).

Fixpoint zeros (n : nat) : string :=
  match n with
  | O => ""
  | S n' => String "0" (zeros n')
  end.

Definition pad6 (n : Z) : string :=
  let s := dec n in zeros (6 - strlen s) ++ s.

(** [n / d] rounded to the nearest integer, ties to even. *)
Definition round_half_even (n d : Z) : Z :=
  let q := n / d in
  let r := n mod d in
  if 2 * r <? d then q
  else if d <? 2 * r then q + 1
  else if Z.even q then q else q + 1.

(** The text [printf("%f", x)] produces: the exact value of the double,
    rounded to six decimals (to nearest, ties to even). *)
Definition printf_f (x : float) : string :=
  match Prim2SF x with
  | S754_nan => "nan"
  | S754_infinity s => (if s then "-" else "") ++ "inf"
  | S754_zero s => (if s then "-" else "") ++ "0.000000"
  | S754_finite s m e =>
      let n := if 0 <=? e then Zpos m * 10 ^ 6 * 2 ^ e
               else round_half_even (Zpos m * 10 ^ 6) (2 ^ (- e)) in
      (if s then "-" else "") ++ dec (n / 10 ^ 6) ++ "." ++ pad6 (n mod 10 ^ 6)
  end.

(** [snprintf(dst, sizeof(dst), "%f", x)]: at most [size dst - 1] characters
    are stored. *)
Definition snprintf_f (dst : chars) (x : float) : chars :=
  mkChars (size dst) (substring 0 (size dst - 1) (printf_f x)).

(** ** The output structure *)

Record timeval := mkTimeval { tv_sec : Z; tv_usec : Z }.

Record Vc830 := mkVc830 {
  receivedAt : timeval;
  rawRisplay : chars;
  sign : ascii;
  mode : chars;
  unit : chars;
  prefix : chars;
  fullUnit : chars;
  info : chars;
  barGraph : Z;
  barGraphIsShown : bool;
  batteryWarning : bool;
  autoRangeActive : bool;
  holdActive : bool;
  deltaActive : bool;
  overflow : bool;
  formatedValue : chars;
  formatedSiValue : chars
}.

(** The structure after the opening [memset] over all of it: every
    field zero, every character array empty, with the sizes the structure
    declares. *)
Definition Vc830_zero : Vc830 :=
  {| receivedAt := mkTimeval 0 0;
     rawRisplay := mkChars 6 "";
     sign := Ascii.zero;
     mode := mkChars BUFFER_LEN "";
     unit := mkChars BUFFER_LEN "";
     prefix := mkChars BUFFER_LEN "";
     fullUnit := mkChars BUFFER_LEN "";
     info := mkChars BUFFER_LEN "";
     barGraph := 0;
     barGraphIsShown := false;
     batteryWarning := false;
     autoRangeActive := false;
     holdActive := false;
     deltaActive := false;
     overflow := false;
     formatedValue := mkChars BUFFER_LEN "";
     formatedSiValue := mkChars BUFFER_LEN "" |}.

(** Assignments [vc830Data->member = v], one setter per member. *)
Definition set_receivedAt (v : timeval) (d : Vc830) : Vc830 :=
  mkVc830 v (rawRisplay d) (sign d) (mode d) (unit d) (prefix d) (fullUnit d)
    (info d) (barGraph d) (barGraphIsShown d) (batteryWarning d)
    (autoRangeActive d) (holdActive d) (deltaActive d) (overflow d)
    (formatedValue d) (formatedSiValue d).

Definition set_rawRisplay (v : chars) (d : Vc830) : Vc830 :=
  mkVc830 (receivedAt d) v (sign d) (mode d) (unit d) (prefix d) (fullUnit d)
    (info d) (barGraph d) (barGraphIsShown d) (batteryWarning d)
    (autoRangeActive d) (holdActive d) (deltaActive d) (overflow d)
    (formatedValue d) (formatedSiValue d).

Definition set_sign (v : ascii) (d : Vc830) : Vc830 :=
  mkVc830 (receivedAt d) (rawRisplay d) v (mode d) (unit d) (prefix d)
    (fullUnit d) (info d) (barGraph d) (barGraphIsShown d) (batteryWarning d)
    (autoRangeActive d) (holdActive d) (deltaActive d) (overflow d)
    (formatedValue d) (formatedSiValue d).

Definition set_mode (v : chars) (d : Vc830) : Vc830 :=
  mkVc830 (receivedAt d) (rawRisplay d) (sign d) v (unit d) (prefix d)
    (fullUnit d) (info d) (barGraph d) (barGraphIsShown d) (batteryWarning d)
    (autoRangeActive d) (holdActive d) (deltaActive d) (overflow d)
    (formatedValue d) (formatedSiValue d).

Definition set_unit (v : chars) (d : Vc830) : Vc830 :=
  mkVc830 (receivedAt d) (rawRisplay d) (sign d) (mode d) v (prefix d)
    (fullUnit d) (info d) (barGraph d) (barGraphIsShown d) (batteryWarning d)
    (autoRangeActive d) (holdActive d) (deltaActive d) (overflow d)
    (formatedValue d) (formatedSiValue d).

Definition set_prefix (v : chars) (d : Vc830) : Vc830 :=
  mkVc830 (receivedAt d) (rawRisplay d) (sign d) (mode d) (unit d) v
    (fullUnit d) (info d) (barGraph d) (barGraphIsShown d) (batteryWarning d)
    (autoRangeActive d) (holdActive d) (deltaActive d) (overflow d)
    (formatedValue d) (formatedSiValue d).

Definition set_fullUnit (v : chars) (d : Vc830) : Vc830 :=
  mkVc830 (receivedAt d) (rawRisplay d) (sign d) (mode d) (unit d) (prefix d)
    v (info d) (barGraph d) (barGraphIsShown d) (batteryWarning d)
    (autoRangeActive d) (holdActive d) (deltaActive d) (overflow d)
    (formatedValue d) (formatedSiValue d).

Definition set_info (v : chars) (d : Vc830) : Vc830 :=
  mkVc830 (receivedAt d) (rawRisplay d) (sign d) (mode d) (unit d) (prefix d)
    (fullUnit d) v (barGraph d) (barGraphIsShown d) (batteryWarning d)
    (autoRangeActive d) (holdActive d) (deltaActive d) (overflow d)
    (formatedValue d) (formatedSiValue d).

Definition set_barGraph (v : Z) (d : Vc830) : Vc830 :=
  mkVc830 (receivedAt d) (rawRisplay d) (sign d) (mode d) (unit d) (prefix d)
    (fullUnit d) (info d) v (barGraphIsShown d) (batteryWarning d)
    (autoRangeActive d) (holdActive d) (deltaActive d) (overflow d)
    (formatedValue d) (formatedSiValue d).

Definition set_barGraphIsShown (v : bool) (d : Vc830) : Vc830 :=
  mkVc830 (receivedAt d) (rawRisplay d) (sign d) (mode d) (unit d) (prefix d)
    (fullUnit d) (info d) (barGraph d) v (batteryWarning d)
    (autoRangeActive d) (holdActive d) (deltaActive d) (overflow d)
    (formatedValue d) (formatedSiValue d).

Definition set_batteryWarning (v : bool) (d : Vc830) : Vc830 :=
  mkVc830 (receivedAt d) (rawRisplay d) (sign d) (mode d) (unit d) (prefix d)
    (fullUnit d) (info d) (barGraph d) (barGraphIsShown d) v
    (autoRangeActive d) (holdActive d) (deltaActive d) (overflow d)
    (formatedValue d) (formatedSiValue d).

Definition set_autoRangeActive (v : bool) (d : Vc830) : Vc830 :=
  mkVc830 (receivedAt d) (rawRisplay d) (sign d) (mode d) (unit d) (prefix d)
    (fullUnit d) (info d) (barGraph d) (barGraphIsShown d) (batteryWarning d)
    v (holdActive d) (deltaActive d) (overflow d) (formatedValue d)
    (formatedSiValue d).

Definition set_holdActive (v : bool) (d : Vc830) : Vc830 :=
  mkVc830 (receivedAt d) (rawRisplay d) (sign d) (mode d) (unit d) (prefix d)
    (fullUnit d) (info d) (barGraph d) (barGraphIsShown d) (batteryWarning d)
    (autoRangeActive d) v (deltaActive d) (overflow d) (formatedValue d)
    (formatedSiValue d).

Definition set_deltaActive (v : bool) (d : Vc830) : Vc830 :=
  mkVc830 (receivedAt d) (rawRisplay d) (sign d) (mode d) (unit d) (prefix d)
    (fullUnit d) (info d) (barGraph d) (barGraphIsShown d) (batteryWarning d)
    (autoRangeActive d) (holdActive d) v (overflow d) (formatedValue d)
    (formatedSiValue d).

Definition set_overflow (v : bool) (d : Vc830) : Vc830 :=
  mkVc830 (receivedAt d) (rawRisplay d) (sign d) (mode d) (unit d) (prefix d)
    (fullUnit d) (info d) (barGraph d) (barGraphIsShown d) (batteryWarning d)
    (autoRangeActive d) (holdActive d) (deltaActive d) v (formatedValue d)
    (formatedSiValue d).

Definition set_formatedValue (v : chars) (d : Vc830) : Vc830 :=
  mkVc830 (receivedAt d) (rawRisplay d) (sign d) (mode d) (unit d) (prefix d)
    (fullUnit d) (info d) (barGraph d) (barGraphIsShown d) (batteryWarning d)
    (autoRangeActive d) (holdActive d) (deltaActive d) (overflow d) v
    (formatedSiValue d).

Definition set_formatedSiValue (v : chars) (d : Vc830) : Vc830 :=
  mkVc830 (receivedAt d) (rawRisplay d) (sign d) (mode d) (unit d) (prefix d)
    (fullUnit d) (info d) (barGraph d) (barGraphIsShown d) (batteryWarning d)
    (autoRangeActive d) (holdActive d) (deltaActive d) (overflow d)
    (formatedValue d) v.

(** ** [decodeFS9922Paket]

    The function body is embedded in four consecutive parts, in source order:
    [readValue] (the digits or the overflow mark, and the decimal point),
    [readStatus] (the four status bytes), [formatValues] (multiplier, bar
    graph, SI value and the two formatted texts) and [copyToOutput] (the
    block that copies the locals into the output structure). *)

(** The local variables as the function's disabled trace [printf] lists
    them, at the point where the copy to the output structure starts. *)
Record locals := mkLocals {
  l_value : chars;
  l_sign : Z;
  l_k : Z;
  l_mode : chars;
  l_prefix : chars;
  l_unit : chars;
  l_info : chars;
  l_bar : Z;
  l_vWithUnit : chars;
  l_vSi : float;
  l_vSiWithUnit : chars
}.

(** The [for] loop that checks and copies [buf[1 + i]], [i] from 0 to 3;
    [None] is the [return -3] inside it. *)
Fixpoint readDigits (buf : list byte) (i n : nat) (value : string) : option string :=
  match n with
  | O => Some value
  | S n' =>
      if negb (isdigit (at_ buf (1 + i))) then None
      else readDigits buf (S i) n'
             (value ++ String (char_of_byte (at_ buf (1 + i))) "")
  end.

Definition isOverflowMark (buf : list byte) : bool :=
  (at_ buf 1 =? 0x3f) && (at_ buf 2 =? 0x30) && (at_ buf 3 =? 0x3a) && (at_ buf 4 =? 0x3f).

(** "Check value/digits": [None] stands for [return -3]; otherwise the
    structure, [value] and [k] after the block. *)
Definition readValue (buf : list byte) (d : Vc830)
  : outcome (option (Vc830 * chars * Z)) :=
  let value := mkChars 6 "" in
  let k := -1 in
  if isOverflowMark buf then
    let d := set_overflow true d in
    value <- strcpy value "OVF" ;;
    Done (Some (d, value, k))
  else
    match readDigits buf 0 4 "" with
    | None => Done None
    | Some digits =>
        let value := mkChars 6 digits in
        let k := if at_ buf 6 =? 0x31 then 1 else k in
        let k := if at_ buf 6 =? 0x32 then 2 else k in
        let k := if at_ buf 6 =? 0x33 then 3 else k in
        let k := if at_ buf 6 =? 0x34 then 3 else k in
        value <- (if negb (k =? -1) then strinsert value (Z.to_nat k) "."
                  else Done value) ;;
        Done (Some (d, value, k))
    end.

(** "Check status bytes": the structure and the arrays [mode], [prefix],
    [unit] and [info] after the thirty calls of [checkInfo]. *)
Definition readStatus (buf : list byte) (d : Vc830)
  : outcome (Vc830 * chars * chars * chars * chars) :=
  let mode := mkChars BUFFER_LEN "" in
  let prefix := mkChars BUFFER_LEN "" in
  let unit := mkChars BUFFER_LEN "" in
  let info := mkChars BUFFER_LEN "" in
  (* Status byte SB1 *)
  '(b, info) <- checkInfoTo buf 1 5 "AUTO" info ;;
  let d := set_autoRangeActive b d in
  '(_, mode) <- checkInfoTo buf 1 4 "DC" mode ;;
  '(_, mode) <- checkInfoTo buf 1 3 "AC" mode ;;
  '(b, mode) <- checkInfoTo buf 1 2 "REL" mode ;;
  let d := set_deltaActive b d in
  '(b, mode) <- checkInfoTo buf 1 1 "HOLD" mode ;;
  let d := set_holdActive b d in
  '(b, _) <- checkInfo buf 1 0 "BPN" None ;;
  let d := set_barGraphIsShown b d in
  (* Status byte SB2 *)
  '(_, info) <- checkInfoTo buf 2 7 "Diode" info ;;
  '(_, info) <- checkInfoTo buf 2 6 "Z2" info ;;
  '(_, info) <- checkInfoTo buf 2 5 "MAX" info ;;
  '(_, info) <- checkInfoTo buf 2 4 "MIN" info ;;
  '(_, info) <- checkInfoTo buf 2 3 "APO" info ;;
  '(b, info) <- checkInfoTo buf 2 2 "Bat" info ;;
  let d := set_batteryWarning b d in
  '(_, prefix) <- checkInfoTo buf 2 1 "n" prefix ;;
  '(_, info) <- checkInfoTo buf 2 0 "Z3" info ;;
  (* Status byte SB3 *)
  '(_, prefix) <- checkInfoTo buf 3 7 "µ" prefix ;;
  '(_, prefix) <- checkInfoTo buf 3 6 "m" prefix ;;
  '(_, prefix) <- checkInfoTo buf 3 5 "k" prefix ;;
  '(_, prefix) <- checkInfoTo buf 3 4 "M" prefix ;;
  '(_, info) <- checkInfoTo buf 3 3 "Beep" info ;;
  '(_, info) <- checkInfoTo buf 3 2 "Diode" info ;;
  '(_, prefix) <- checkInfoTo buf 3 1 "%" prefix ;;
  '(_, info) <- checkInfoTo buf 3 0 "Z4" info ;;
  (* Status byte SB4 *)
  '(_, unit) <- checkInfoTo buf 4 7 "V" unit ;;
  '(_, unit) <- checkInfoTo buf 4 6 "A" unit ;;
  '(_, unit) <- checkInfoTo buf 4 5 "Ω" unit ;;
  '(_, unit) <- checkInfoTo buf 4 4 "hFE" unit ;;
  '(_, unit) <- checkInfoTo buf 4 3 "Hz" unit ;;
  '(_, unit) <- checkInfoTo buf 4 2 "F" unit ;;
  '(_, unit) <- checkInfoTo buf 4 1 "°C" unit ;;
  '(_, unit) <- checkInfoTo buf 4 0 "°F" unit ;;
  Done (d, mode, prefix, unit, info).

(** The chain of [if (strequal(prefix, ...)) multToSi = ...;] statements. *)
Definition multToSi (prefix : string) : float :=
  let m := 1%float in
  let m := if strequal prefix "n" then 0.000000001%float else m in
  let m := if strequal prefix "µ" then 0.000001%float else m in
  let m := if strequal prefix "m" then 0.001%float else m in
  let m := if strequal prefix "k" then 1000%float else m in
  let m := if strequal prefix "k" then 1000000%float else m in
  m.

(** From [double multToSi = 1;] to the last [strcat] into [vSiWithUnit]. *)
Definition formatValues (buf : list byte) (sign : Z) (value : chars) (k : Z)
  (mode prefix unit info : chars) : outcome locals :=
  let multToSi := multToSi (text prefix) in
  let bar := Z.land (at_ buf 11) 0x7f in
  let vSi := (atof (text value) * multToSi * double_of_Z sign)%float in
  let vWithUnit := mkChars 20 "" in
  let vSiWithUnit := mkChars 20 "" in
  vWithUnit <- (if sign =? -1 then strcat vWithUnit "-" else Done vWithUnit) ;;
  let vz := skipZeros (text value) in
  vWithUnit <- strcat vWithUnit vz ;;
  vWithUnit <- strcat vWithUnit " " ;;
  vWithUnit <- strcat vWithUnit (text prefix) ;;
  vWithUnit <- strcat vWithUnit (text unit) ;;
  let vSiWithUnit := snprintf_f vSiWithUnit vSi in
  let vSiWithUnit := trimZeros vSiWithUnit in
  vSiWithUnit <- strcat vSiWithUnit " " ;;
  vSiWithUnit <- strcat vSiWithUnit (text unit) ;;
  Done (mkLocals value sign k mode prefix unit info bar vWithUnit vSi vSiWithUnit).

(** "Copy to output structure". *)
Definition copyToOutput (l : locals) (d : Vc830) : outcome Vc830 :=
  let d := set_sign (if l_sign l =? 1 then "+"%char else "-"%char) d in
  let d := set_barGraph (l_bar l) d in
  c <- strcpy (rawRisplay d) (text (l_value l)) ;;
  let d := set_rawRisplay c d in
  c <- strcpy (mode d) (text (l_mode l)) ;;
  let d := set_mode c d in
  c <- strcpy (info d) (text (l_info l)) ;;
  let d := set_info c d in
  c <- strcpy (unit d) (text (l_unit l)) ;;
  let d := set_unit c d in
  c <- strcpy (prefix d) (text (l_prefix l)) ;;
  let d := set_prefix c d in
  c <- strcpy (fullUnit d) (text (l_prefix l)) ;;
  let d := set_fullUnit c d in
  c <- strcat (fullUnit d) (text (l_unit l)) ;;
  let d := set_fullUnit c d in
  c <- strcpy (formatedValue d) (text (l_vWithUnit l)) ;;
  let d := set_formatedValue c d in
  c <- strcpy (formatedSiValue d) (text (l_vSiWithUnit l)) ;;
  let d := set_formatedSiValue c d in
  Done d.

(** [decodeFS9922Paket(buf, vc830Data)] at time [now]: the value returned,
    the structure [vc830Data] points to afterwards, and, when the function
    runs to its end, its locals. *)
Definition decodeFS9922Paket (now : timeval) (buf : list byte) (vc830Data : Vc830)
  : outcome (Z * Vc830 * option locals) :=
  let d := Vc830_zero in
  let d := set_receivedAt now d in
  (* Check space and CRLF *)
  if negb (at_ buf 5 =? 0x20) || negb (at_ buf 12 =? 0x0d) || negb (at_ buf 13 =? 0x0a)
  then Done (-1, d, None)
  else
    (* Check sign *)
    let sign := 0 in
    let sign := if at_ buf 0 =? 0x2b then 1 else sign in
    let sign := if at_ buf 0 =? 0x2d then -1 else sign in
    if sign =? 0 then Done (-2, d, None)
    else
      v <- readValue buf d ;;
      match v with
      | None => Done (-3, d, None)
      | Some (d, value, k) =>
          '(d, mode, prefix, unit, info) <- readStatus buf d ;;
          l <- formatValues buf sign value k mode prefix unit info ;;
          d <- copyToOutput l d ;;
          Done (0, d, Some l)
      end.

(** ** [read14BytesPaket]

    What [select] and [read] answer is the environment's choice; one
    [io_event] is the answer to one iteration of the [while (1)] loop. *)

Inductive io_event : Type :=
| SelectFailed                 (* select returns -1 *)
| SelectTimeout                (* select returns 0: nothing within 100 ms *)
| ReadByte (b : byte)          (* read stores one byte and returns 1 *)
| ReadEof                      (* read returns 0 *)
| ReadFailed.                  (* read returns -1 *)

(** How a call ends: it returns [ret], leaving [readBuffer] and the events
    not yet consumed; or the events run out while it is still in its loop,
    which is the call waiting on a silent line. *)
Inductive read_result : Type :=
| Returned (ret : Z) (readBuffer : list byte) (rest : list io_event)
| Waiting (readBuffer : list byte) (bufIdx : nat).

(** [readBuffer[i] = b]. *)
Fixpoint upd (i : nat) (b : byte) (readBuffer : list byte) : list byte :=
  match readBuffer, i with
  | [], _ => []
  | _ :: t, O => b :: t
  | h :: t, S i' => h :: upd i' b t
  end.

Fixpoint read14BytesPaket_loop (evs : list io_event) (readBuffer : list byte)
  (bufIdx : nat) : read_result :=
  match evs with
  | [] => Waiting readBuffer bufIdx
  | SelectFailed :: rest => Returned (-1) readBuffer rest
  | SelectTimeout :: rest => read14BytesPaket_loop rest readBuffer 0
  | ReadEof :: rest => Returned END_OF_CAPTURE_FILE readBuffer rest
  | ReadByte b :: rest =>
      let readBuffer := upd bufIdx b readBuffer in
      let bufIdx := (bufIdx + 1)%nat in
      if (bufIdx =? 14)%nat then Returned 0 readBuffer rest
      else read14BytesPaket_loop rest readBuffer bufIdx
  | ReadFailed :: rest =>
      if (bufIdx =? 14)%nat then Returned 0 readBuffer rest
      else read14BytesPaket_loop rest readBuffer bufIdx
  end.

Definition read14BytesPaket (evs : list io_event) (readBuffer : list byte)
  : read_result :=
  read14BytesPaket_loop evs readBuffer 0.

(** [read14BytesPaket] called again and again, at most [count] times, each
    call on the buffer and the stream the call before has left: the frames
    (the first fourteen bytes of [readBuffer]) of the calls that return 0,
    up to the first call that returns something else or does not return.
    This is the synchroniser alone; what [main] does with a frame between
    two calls (decoding, printing, leaving the program) is in [mainLoop]. *)
Fixpoint sampleFrames (count : nat) (evs : list io_event) (readBuffer : list byte)
  : list (list byte) :=
  match count with
  | O => []
  | S count' =>
      match read14BytesPaket evs readBuffer with
      | Returned ret readBuffer' rest =>
          if ret =? END_OF_CAPTURE_FILE then []
          else if negb (ret =? 0) then []
          else firstn 14 readBuffer' :: sampleFrames count' rest readBuffer'
      | Waiting _ _ => []
      end
  end.

(** * Definitions used in the statements *)

(** ** The frame synchroniser *)

(** [store idx bs readBuffer]: the buffer after the bytes [bs] were read one
    by one, the first of them into [readBuffer[idx]]. *)
Fixpoint store (idx : nat) (bs : list byte) (readBuffer : list byte) : list byte :=
  match bs with
  | [] => readBuffer
  | b :: bs' => store (S idx) bs' (upd idx b readBuffer)
  end.

(** The stream of the scenario: [pre] arrives, the line is silent for
    [stall] timeouts, [post] arrives, and then the stream is exhausted as
    [ending] tells. *)
Definition stalled_stream (pre post : list byte) (stall : nat)
  (ending : list io_event) : list io_event :=
  (map ReadByte pre ++ repeat SelectTimeout stall ++ map ReadByte post
   ++ ending)%list.

(** The two ways a stream is exhausted: a capture file reaches its end, or
    the line stays silent. *)
Definition exhausted (ending : list io_event) : Prop :=
  ending = [ReadEof] \/ exists n, ending = repeat SelectTimeout n.

(** The scenario of C3 on concrete bytes: twenty bytes 1..20, one timeout,
    fourteen bytes 101..114. *)
Definition c3_pre : list byte := map Z.of_nat (seq 1 20).

Definition c3_post : list byte := map Z.of_nat (seq 101 14).

Definition c3_buffer : list byte := repeat 0 BUFFER_LEN.

(** ** The parts of the decoder in closed form *)

(** [buf[7 + statusByte - 1] & (1 << statusBit)], as a truth value. *)
Definition statusBitSet (buf : list byte) (statusByte statusBit : Z) : bool :=
  negb (Z.land (at_ buf (Z.to_nat (7 + statusByte - 1))) (Z.shiftl 1 statusBit) =? 0).

(** What a call of [checkInfo] leaves in the text of [out]. *)
Definition appendLabel (b : bool) (info : string) (s : string) : string :=
  if b then (if (strlen s =? 0)%nat then s else s ++ " ") ++ info else s.

(** The texts of [mode], [prefix], [unit] and [info] after the status part,
    written with [appendLabel]. *)
Definition modeText (buf : list byte) : string :=
  appendLabel (statusBitSet buf 1 1) "HOLD"
    (appendLabel (statusBitSet buf 1 2) "REL"
       (appendLabel (statusBitSet buf 1 3) "AC"
          (appendLabel (statusBitSet buf 1 4) "DC" ""))).

Definition prefixText (buf : list byte) : string :=
  appendLabel (statusBitSet buf 3 1) "%"
    (appendLabel (statusBitSet buf 3 4) "M"
       (appendLabel (statusBitSet buf 3 5) "k"
          (appendLabel (statusBitSet buf 3 6) "m"
             (appendLabel (statusBitSet buf 3 7) "µ"
                (appendLabel (statusBitSet buf 2 1) "n" ""))))).

Definition unitText (buf : list byte) : string :=
  appendLabel (statusBitSet buf 4 0) "°F"
    (appendLabel (statusBitSet buf 4 1) "°C"
       (appendLabel (statusBitSet buf 4 2) "F"
          (appendLabel (statusBitSet buf 4 3) "Hz"
             (appendLabel (statusBitSet buf 4 4) "hFE"
                (appendLabel (statusBitSet buf 4 5) "Ω"
                   (appendLabel (statusBitSet buf 4 6) "A"
                      (appendLabel (statusBitSet buf 4 7) "V" ""))))))).

Definition infoText (buf : list byte) : string :=
  appendLabel (statusBitSet buf 3 0) "Z4"
    (appendLabel (statusBitSet buf 3 2) "Diode"
       (appendLabel (statusBitSet buf 3 3) "Beep"
          (appendLabel (statusBitSet buf 2 0) "Z3"
             (appendLabel (statusBitSet buf 2 2) "Bat"
                (appendLabel (statusBitSet buf 2 3) "APO"
                   (appendLabel (statusBitSet buf 2 4) "MIN"
                      (appendLabel (statusBitSet buf 2 5) "MAX"
                         (appendLabel (statusBitSet buf 2 6) "Z2"
                            (appendLabel (statusBitSet buf 2 7) "Diode"
                               (appendLabel (statusBitSet buf 1 5) "AUTO" "")))))))))).

(** The five flag assignments of the status part. *)
Definition statusFlags (buf : list byte) (d : Vc830) : Vc830 :=
  set_batteryWarning (statusBitSet buf 2 2)
    (set_barGraphIsShown (statusBitSet buf 1 0)
       (set_holdActive (statusBitSet buf 1 1)
          (set_deltaActive (statusBitSet buf 1 2)
             (set_autoRangeActive (statusBitSet buf 1 5) d)))).

(** The value [sign] holds after "Check sign". *)
Definition signOf (buf : list byte) : Z :=
  let sign := 0 in
  let sign := if at_ buf 0 =? 0x2b then 1 else sign in
  let sign := if at_ buf 0 =? 0x2d then -1 else sign in
  sign.

Definition framingOk (buf : list byte) : bool :=
  (at_ buf 5 =? 0x20) && (at_ buf 12 =? 0x0d) && (at_ buf 13 =? 0x0a).

Definition digitsOk (buf : list byte) : bool :=
  isdigit (at_ buf 1) && isdigit (at_ buf 2) && isdigit (at_ buf 3)
  && isdigit (at_ buf 4).

(** The four digit characters of the frame, in order. *)
Definition digitChars (buf : list byte) : string :=
  String (char_of_byte (at_ buf 1))
    (String (char_of_byte (at_ buf 2))
       (String (char_of_byte (at_ buf 3))
          (String (char_of_byte (at_ buf 4)) ""))).

(** The placement rule in the specification's words: code 0x31 puts the
    point after digit 1, 0x32 after digit 2, 0x33 and 0x34 after digit 3,
    any other code puts none. *)
Definition spec_pointPosition (b6 : byte) : option nat :=
  if b6 =? 0x31 then Some 1%nat
  else if b6 =? 0x32 then Some 2%nat
  else if (b6 =? 0x33) || (b6 =? 0x34) then Some 3%nat
  else None.

Definition spec_insertPoint (b6 : byte) (digits : string) : string :=
  match spec_pointPosition b6 with
  | Some n => substring 0 n digits ++ "." ++ substring n (4 - n) digits
  | None => digits
  end.

(** The text left in [value]. *)
Definition valueText (buf : list byte) : string :=
  if isOverflowMark buf then "OVF"
  else spec_insertPoint (at_ buf 6) (digitChars buf).

Definition kOf (buf : list byte) : Z :=
  if isOverflowMark buf then -1
  else match spec_pointPosition (at_ buf 6) with
       | Some n => Z.of_nat n
       | None => -1
       end.

(** The two formatted texts, as the decoder builds them. *)
Definition vWithUnitText (sign : Z) (value prefix unit : string) : string :=
  (if sign =? -1 then "-" else "") ++ skipZeros value ++ " " ++ prefix ++ unit.

Definition vSiText (vSi : float) : string :=
  text (trimZeros (snprintf_f (mkChars 20 "") vSi)).

Definition vSiWithUnitText (vSi : float) (unit : string) : string :=
  vSiText vSi ++ " " ++ unit.

Definition vSiOf (sign : Z) (value prefix : string) : float :=
  (atof value * multToSi prefix * double_of_Z sign)%float.

(** The character arrays of the structure have their declared sizes. *)
Definition declaredSizes (d : Vc830) : Prop :=
  size (rawRisplay d) = 6%nat /\ size (mode d) = BUFFER_LEN
  /\ size (unit d) = BUFFER_LEN /\ size (prefix d) = BUFFER_LEN
  /\ size (fullUnit d) = BUFFER_LEN /\ size (info d) = BUFFER_LEN
  /\ size (formatedValue d) = BUFFER_LEN /\ size (formatedSiValue d) = BUFFER_LEN.

(** The structure after the copy block, given the structure before it. *)
Definition copied (l : locals) (d : Vc830) : Vc830 :=
  {| receivedAt := receivedAt d;
     rawRisplay := mkChars 6 (text (l_value l));
     sign := if l_sign l =? 1 then "+"%char else "-"%char;
     mode := mkChars BUFFER_LEN (text (l_mode l));
     unit := mkChars BUFFER_LEN (text (l_unit l));
     prefix := mkChars BUFFER_LEN (text (l_prefix l));
     fullUnit := mkChars BUFFER_LEN (text (l_prefix l) ++ text (l_unit l));
     info := mkChars BUFFER_LEN (text (l_info l));
     barGraph := l_bar l;
     barGraphIsShown := barGraphIsShown d;
     batteryWarning := batteryWarning d;
     autoRangeActive := autoRangeActive d;
     holdActive := holdActive d;
     deltaActive := deltaActive d;
     overflow := overflow d;
     formatedValue := mkChars BUFFER_LEN (text (l_vWithUnit l));
     formatedSiValue := mkChars BUFFER_LEN (text (l_vSiWithUnit l)) |}.

Definition decodedLocals (buf : list byte) : locals :=
  let vSi := vSiOf (signOf buf) (valueText buf) (prefixText buf) in
  {| l_value := mkChars 6 (valueText buf);
     l_sign := signOf buf;
     l_k := kOf buf;
     l_mode := mkChars BUFFER_LEN (modeText buf);
     l_prefix := mkChars BUFFER_LEN (prefixText buf);
     l_unit := mkChars BUFFER_LEN (unitText buf);
     l_info := mkChars BUFFER_LEN (infoText buf);
     l_bar := Z.land (at_ buf 11) 0x7f;
     l_vWithUnit :=
       mkChars 20 (vWithUnitText (signOf buf) (valueText buf) (prefixText buf)
                     (unitText buf));
     l_vSi := vSi;
     l_vSiWithUnit := mkChars 20 (vSiWithUnitText vSi (unitText buf)) |}.

Definition decodedRecord (now : timeval) (buf : list byte) : Vc830 :=
  copied (decodedLocals buf)
    (statusFlags buf
       (set_overflow (isOverflowMark buf) (set_receivedAt now Vc830_zero))).

(** Both formatted texts, with their terminators, fit the 20-byte arrays
    [vWithUnit] and [vSiWithUnit]. *)
Definition textsFit (buf : list byte) : bool :=
  (strlen (vWithUnitText (signOf buf) (valueText buf) (prefixText buf)
             (unitText buf)) + 1 <=? 20)%nat
  && (strlen (vSiWithUnitText
                (vSiOf (signOf buf) (valueText buf) (prefixText buf))
                (unitText buf)) + 1 <=? 20)%nat.

Definition startsWithPoint (s : string) : bool :=
  match s with
  | String b _ => Ascii.eqb b "."
  | EmptyString => false
  end.

(** ** Example frames *)

(** The wire format: sign, four digit bytes, a space, the point code, four
    status bytes, the bar graph byte, CR and LF. *)
Definition frame (b0 b1 b2 b3 b4 b6 sb1 sb2 sb3 sb4 b11 : byte) : list byte :=
  [b0; b1; b2; b3; b4; 0x20; b6; sb1; sb2; sb3; sb4; b11; 0x0d; 0x0a].

Definition t0 : timeval := mkTimeval 0 0.

Definition t1 : timeval := mkTimeval 1635724800 250000.

(** "+1234", point code 0x33, DC and AUTO in SB1, V in SB4. *)
Definition frame_example : list byte :=
  frame 0x2b 0x31 0x32 0x33 0x34 0x33 0x30 0 0 0x80 0.

(** The same frame with 0x21 in place of the space at offset 5. *)
Definition frame_bad_space : list byte :=
  [0x2b; 0x31; 0x32; 0x33; 0x34; 0x21; 0x33; 0x30; 0; 0; 0x80; 0; 0x0d; 0x0a].

(** "+1234", no point, only prefix bit k (SB3 bit 5), V. *)
Definition frame_k : list byte :=
  frame 0x2b 0x31 0x32 0x33 0x34 0x30 0 0 0x20 0x80 0.

(** "+0000", no point, V. *)
Definition frame_zero : list byte :=
  frame 0x2b 0x30 0x30 0x30 0x30 0x30 0 0 0 0x80 0.

(** "+1234", point code 0x34, V, bar graph byte 0xCB (bit 7 and 75). *)
Definition frame_bar : list byte :=
  frame 0x2b 0x31 0x32 0x33 0x34 0x34 0 0 0 0x80 0xcb.

(** The overflow mark, every unit bit of SB4 set. *)
Definition frame_ovf_units : list byte :=
  frame 0x2b 0x3f 0x30 0x3a 0x3f 0x30 0 0 0 0xff 0.

(** "+1234", no point, every unit bit of SB4 set. *)
Definition frame_units : list byte :=
  frame 0x2b 0x31 0x32 0x33 0x34 0x30 0 0 0 0xff 0.

(** The overflow mark with a minus sign, AUTO and DC, prefix k, six unit
    bits of SB4 set. *)
Definition frame_ovf_neg : list byte :=
  frame 0x2d 0x3f 0x30 0x3a 0x3f 0x30 0x30 0 0x20 0x3f 0.

(** The record a caller holds after the example frame was decoded. *)
Definition previous_record : Vc830 := decodedRecord t0 frame_example.

(** * The rest of the program *)

(** ** [to_binary] *)

(** The loop [for (z = 128; z > 0; z >>= 1)] that writes one character per
    round; [fuel] bounds the rounds, and nine are enough for [z] to reach 0. *)
Fixpoint to_binary_loop (fuel : nat) (x z : Z) : string :=
  match fuel with
  | O => ""
  | S fuel' =>
      if 0 <? z
      then String (if Z.land x z =? z then "1"%char else "0"%char)
             (to_binary_loop fuel' x (Z.shiftr z 1))
      else ""
  end.

Definition to_binary (x : byte) : string := to_binary_loop 9 x 128.

(** ** Texts written to the terminal *)

Definition nl : string := String (ascii_of_nat 10) "".
Definition tab : string := String (ascii_of_nat 9) "".
Definition dquote : string := String (ascii_of_nat 34) "".

(** The conversions [%d] and [%ld]. *)
Definition printf_d (n : Z) : string :=
  if n <? 0 then "-" ++ dec (- n) else dec n.

Definition VERSION : string := "1.0.0".

(** The end of the process: what the call wrote to stderr before it called
    [exit(status)]. *)
Record exit := mkExit { exit_stderr : string; exit_status : Z }.

Definition exitWithError (message : string) : exit :=
  mkExit ("Error: Program exit with: " ++ message) (-1).

Definition showUsageAndExit (message : string) : exit :=
  mkExit
    ((if negb (strlen message =? 0)%nat then "Error: " ++ message ++ nl else "")
     ++ "vc830: Reads serial data from a RS232 device for Voltcraft VC830 DMM. (c) 2021 version "
     ++ VERSION ++ ", Thomas Welsch (ttww@gmx.de)" ++ nl
     ++ "Usage: vc830 [-f output-format] [-t time-format] [-c count] <tty device where the VC830 is connected>." ++ nl
     ++ "              -f   output-format  keyvalue, json, human, si.           Default = human" ++ nl
     ++ "              -t   time-format    iso, local, epochsecms, human, none  Default = none" ++ nl
     ++ "              -c   count          number of samples                    Default = endless" ++ nl)
    (-1).

(** ** Time stamps and the four renderers *)

(** [snprintf(ret, 64, "%ld.%ld", ...)]: at most 63 characters are kept. *)
Definition getEpochSecMsTime (t : timeval) : string :=
  substring 0 63 (printf_d (tv_sec t) ++ "." ++ printf_d (tv_usec t)).

Section Rendering.

(** The three formats that go through [localtime] and [strftime] depend on
    the time zone of the process; they are left to the environment. *)
Variables getIso8601Time getLocalDateTime getLocalTime : timeval -> string.

Definition outputJsonString (key value : string) : string :=
  tab ++ dquote ++ key ++ dquote ++ ": " ++ dquote ++ value ++ dquote.

Definition outputJsonChar (key : string) (value : ascii) : string :=
  tab ++ dquote ++ key ++ dquote ++ ": " ++ dquote ++ String value "" ++ dquote.

Definition outputJsonInt (key : string) (value : Z) : string :=
  tab ++ dquote ++ key ++ dquote ++ ": " ++ printf_d value.

Definition outputJsonBool (key : string) (value : bool) : string :=
  tab ++ dquote ++ key ++ dquote ++ ": " ++ (if value then "true" else "false").

Definition outputJsonTimestamp (key : string) (value : timeval) : string :=
  tab ++ dquote ++ key ++ dquote ++ ": " ++ dquote ++ getIso8601Time value ++ dquote.

Definition outputJsonNLSEP : string := "," ++ nl.

Definition outputJsonNL : string := nl.

Definition outputKvString (key value : string) : string :=
  key ++ "=" ++ value ++ nl.

Definition outputKvChar (key : string) (value : ascii) : string :=
  key ++ "=" ++ String value "" ++ nl.

Definition outputKvInt (key : string) (value : Z) : string :=
  key ++ "=" ++ printf_d value ++ nl.

Definition outputKvBool (key : string) (value : bool) : string :=
  key ++ "=" ++ (if value then "true" else "false") ++ nl.

Definition outputKvTimestamp (key : string) (value : timeval) : string :=
  key ++ "=" ++ getIso8601Time value ++ nl.

Definition showDataKeyValue (vc830Data : Vc830) (timeText : string) : string :=
  outputKvTimestamp "receivedAt" (receivedAt vc830Data)
  ++ (if negb (strlen timeText =? 0)%nat
      then outputKvString "receivedAtFormated" timeText else "")
  ++ outputKvChar "sign" (sign vc830Data)
  ++ outputKvString "mode" (text (mode vc830Data))
  ++ outputKvString "unit" (text (unit vc830Data))
  ++ outputKvString "prefix" (text (prefix vc830Data))
  ++ outputKvString "fullUnit" (text (fullUnit vc830Data))
  ++ outputKvString "info" (text (info vc830Data))
  ++ outputKvInt "barGraph" (barGraph vc830Data)
  ++ outputKvBool "barGraphIsShown" (barGraphIsShown vc830Data)
  ++ outputKvBool "batteryWarning" (batteryWarning vc830Data)
  ++ outputKvBool "autoRangeActive" (autoRangeActive vc830Data)
  ++ outputKvBool "holdActive" (holdActive vc830Data)
  ++ outputKvBool "deltaActive" (deltaActive vc830Data)
  ++ outputKvBool "overflow" (overflow vc830Data)
  ++ outputKvString "rawRisplay" (text (rawRisplay vc830Data))
  ++ outputKvString "formatedValue" (text (formatedValue vc830Data))
  ++ outputKvString "formatedSiValue" (text (formatedSiValue vc830Data)).

Definition showDataJson (vc830Data : Vc830) (timeText : string) : string :=
  "{" ++ nl
  ++ outputJsonTimestamp "receivedAt" (receivedAt vc830Data) ++ outputJsonNLSEP
  ++ (if negb (strlen timeText =? 0)%nat
      then outputJsonString "receivedAtFormated" timeText ++ outputJsonNLSEP
      else "")
  ++ outputJsonChar "sign" (sign vc830Data) ++ outputJsonNLSEP
  ++ outputJsonString "mode" (text (mode vc830Data)) ++ outputJsonNLSEP
  ++ outputJsonString "unit" (text (unit vc830Data)) ++ outputJsonNLSEP
  ++ outputJsonString "prefix" (text (prefix vc830Data)) ++ outputJsonNLSEP
  ++ outputJsonString "fullUnit" (text (fullUnit vc830Data)) ++ outputJsonNLSEP
  ++ outputJsonString "info" (text (info vc830Data)) ++ outputJsonNLSEP
  ++ outputJsonInt "barGraph" (barGraph vc830Data) ++ outputJsonNLSEP
  ++ outputJsonBool "barGraphIsShown" (barGraphIsShown vc830Data) ++ outputJsonNLSEP
  ++ outputJsonBool "batteryWarning" (batteryWarning vc830Data) ++ outputJsonNLSEP
  ++ outputJsonBool "autoRangeActive" (autoRangeActive vc830Data) ++ outputJsonNLSEP
  ++ outputJsonBool "holdActive" (holdActive vc830Data) ++ outputJsonNLSEP
  ++ outputJsonBool "deltaActive" (deltaActive vc830Data) ++ outputJsonNLSEP
  ++ outputJsonBool "overflow" (overflow vc830Data) ++ outputJsonNLSEP
  ++ outputJsonString "rawRisplay" (text (rawRisplay vc830Data)) ++ outputJsonNLSEP
  ++ outputJsonString "formatedValue" (text (formatedValue vc830Data))
  ++ outputJsonNLSEP
  ++ outputJsonString "formatedSiValue" (text (formatedSiValue vc830Data))
  ++ outputJsonNL
  ++ "}" ++ nl.

Definition showDataHuman (vc830Data : Vc830) (timeText : string) : string :=
  timeText ++ (if negb (strlen timeText =? 0)%nat then tab ++ tab else "")
  ++ text (formatedValue vc830Data) ++ tab ++ tab ++ text (mode vc830Data)
  ++ tab ++ text (info vc830Data) ++ nl.

Definition showDataSi (vc830Data : Vc830) (timeText : string) : string :=
  timeText ++ (if negb (strlen timeText =? 0)%nat then tab ++ tab else "")
  ++ text (formatedSiValue vc830Data) ++ tab ++ tab ++ text (mode vc830Data)
  ++ tab ++ text (info vc830Data) ++ nl.

(** What a call of [showData] does: it returns after writing [stdout], or
    it ends the process. *)
Inductive shown : Type :=
| Printed (stdout : string)
| Exited (e : exit).

(** [showData]: [timeText] is a nullable pointer, [None] while no time
    format has matched. *)
Definition showData (vc830Data : Vc830) (outputFormat timeFormat : string)
  : shown :=
  let timeText : option string := None in
  let timeText := if strequal timeFormat "iso"
                  then Some (getIso8601Time (receivedAt vc830Data)) else timeText in
  let timeText := if strequal timeFormat "local"
                  then Some (getLocalDateTime (receivedAt vc830Data)) else timeText in
  let timeText := if strequal timeFormat "human"
                  then Some (getLocalTime (receivedAt vc830Data)) else timeText in
  let timeText := if strequal timeFormat "epochsecms"
                  then Some (getEpochSecMsTime (receivedAt vc830Data)) else timeText in
  let timeText := if strequal timeFormat "none" then Some "" else timeText in
  match timeText with
  | None => Exited (showUsageAndExit "Unknown time format.")
  | Some timeText =>
      if strequal outputFormat "keyvalue"
      then Printed (showDataKeyValue vc830Data timeText)
      else if strequal outputFormat "json"
      then Printed (showDataJson vc830Data timeText)
      else if strequal outputFormat "human"
      then Printed (showDataHuman vc830Data timeText)
      else if strequal outputFormat "si"
      then Printed (showDataSi vc830Data timeText)
      else Printed ""
  end.

(** ** The sampling loop of [main] with its output *)

(** How the program ends: with [exit(status)], or never, waiting on a line
    that stays silent. *)
Inductive ending : Type :=
| ExitStatus (status : Z)
| Blocked.

(** The time [gettimeofday] reports in round [loop], and the line [perror]
    writes for the failure of [select], are the environment's. *)
Variable gettimeofday : Z -> timeval.
Variable perror : string -> string.

(** From [while (loop < count)] to [exit(0)]: what has been written to
    stdout and stderr, and how the program ends.  [rounds] is the number of
    rounds [loop < count] still allows. *)
Fixpoint mainLoop (outputFormat timeFormat : string) (rounds : nat) (loop : Z)
  (evs : list io_event) (readBuffer : list byte) (vc830Data : Vc830)
  (stdout stderr : string) : outcome (string * string * ending) :=
  match rounds with
  | O => Done (stdout, stderr, ExitStatus 0)
  | S rounds' =>
      let loop := loop + 1 in
      match read14BytesPaket evs readBuffer with
      | Waiting _ _ => Done (stdout, stderr, Blocked)
      | Returned ret readBuffer evs =>
          if ret =? END_OF_CAPTURE_FILE then Done (stdout, stderr, ExitStatus 0)
          else if negb (ret =? 0) then
            let e := exitWithError "Read failed" in
            Done (stdout, stderr ++ perror "select failed" ++ exit_stderr e,
                  ExitStatus (exit_status e))
          else
            '(ret, vc830Data, _) <-
               decodeFS9922Paket (gettimeofday loop) readBuffer vc830Data ;;
            if negb (ret =? 0) then
              mainLoop outputFormat timeFormat rounds' loop evs readBuffer vc830Data
                stdout
                (stderr ++ "VC-830 data paket parsing failed with "
                 ++ printf_d ret ++ nl)
            else
              match showData vc830Data outputFormat timeFormat with
              | Printed s =>
                  mainLoop outputFormat timeFormat rounds' loop evs readBuffer
                    vc830Data (stdout ++ s) stderr
              | Exited e =>
                  Done (stdout, stderr ++ exit_stderr e, ExitStatus (exit_status e))
              end
      end
  end.

End Rendering.

(** ** The argument loop of [main] *)



Section Arguments.

(** [PATH_MAX] and [LONG_MAX] of <limits.h>, [atol] of <stdlib.h>. *)
Variable PATH_MAX : nat.
Variable LONG_MAX : Z.
Variable atol : string -> Z.




End Arguments.

(** * Definitions used in the further properties *)

(** ** Capture files and runs of bytes *)

(** A capture file: every byte is there to be read, then [read] returns 0. *)
Definition capture (bs : list byte) : list io_event :=
  (map ReadByte bs ++ [ReadEof])%list.


Definition bufferOf (r : read_result) : list byte :=
  match r with
  | Returned _ readBuffer _ => readBuffer
  | Waiting readBuffer _ => readBuffer
  end.

(** The bytes a run of events delivers. *)
Definition bytesOf (evs : list io_event) : list byte :=
  flat_map (fun e => match e with ReadByte b => [b] | _ => [] end) evs.

(** An iteration in which [read] was called and did not report the end. *)
Definition readAttempt (e : io_event) : bool :=
  match e with
  | ReadByte _ | ReadFailed => true
  | _ => false
  end.

(** ** The label tables *)

(** The calls of [checkInfo] that write to one array, in program order:
    status byte, bit, label. *)
Definition modeTable : list (Z * Z * string) :=
  [(1, 4, "DC"); (1, 3, "AC"); (1, 2, "REL"); (1, 1, "HOLD")].

Definition prefixTable : list (Z * Z * string) :=
  [(2, 1, "n"); (3, 7, "µ"); (3, 6, "m"); (3, 5, "k"); (3, 4, "M"); (3, 1, "%")].

Definition unitTable : list (Z * Z * string) :=
  [(4, 7, "V"); (4, 6, "A"); (4, 5, "Ω"); (4, 4, "hFE"); (4, 3, "Hz");
   (4, 2, "F"); (4, 1, "°C"); (4, 0, "°F")].

Definition infoTable : list (Z * Z * string) :=
  [(1, 5, "AUTO"); (2, 7, "Diode"); (2, 6, "Z2"); (2, 5, "MAX"); (2, 4, "MIN");
   (2, 3, "APO"); (2, 2, "Bat"); (2, 0, "Z3"); (3, 3, "Beep"); (3, 2, "Diode");
   (3, 0, "Z4")].

(** The labels of a table whose bit is set in the frame, in table order. *)
Definition labelsOf (table : list (Z * Z * string)) (buf : list byte)
  : list string :=
  map snd (filter (fun e => statusBitSet buf (fst (fst e)) (snd (fst e))) table).

Definition joined (labels : list string) : string := String.concat " " labels.

(** ** Binary digits *)

(** The number a text of binary digits denotes, most significant first. *)
Definition binaryValue (s : string) : Z :=
  fold_left (fun acc c => 2 * acc + (if Ascii.eqb c "1" then 1 else 0))
    (list_ascii_of_string s) 0.

(** A text of at least one character. *)
Definition nonempty (s : string) : Prop := strlen s <> 0%nat.

(** ** Reversed texts *)

(** The first character of a reversed text, the last of the text, is the
    point. *)
Definition startsWithPointL (r : list ascii) : bool :=
  match r with
  | c :: _ => Ascii.eqb c "."
  | [] => false
  end.

(** ** More example frames *)

(** "+1234" in megaohm: prefix bit M (SB3 bit 4), unit bit 5 of SB4. *)
Definition frame_mega : list byte :=
  frame 0x2b 0x31 0x32 0x33 0x34 0x30 0 0 0x10 0x20 0.

(** "+12.34" in nanofarad: prefix bit n (SB2 bit 1), unit F (SB4 bit 2). *)
Definition frame_nano : list byte :=
  frame 0x2b 0x31 0x32 0x33 0x34 0x32 0 0x02 0 0x04 0.

(** "-12.34", AUTO, DC and HOLD in SB1, Bat in SB2, prefix m, unit V, bar
    graph 12. *)
Definition frame_hold : list byte :=
  frame 0x2d 0x31 0x32 0x33 0x34 0x32 0x32 0x04 0x40 0x80 0x0c.

(** ** Texts that can stand between double quotes *)

(** A character that a JSON string may hold as it is: no control character,
    no double quote, no backslash. *)
Definition jsonSafeChar (c : ascii) : bool :=
  let n := Z.of_N (N_of_ascii c) in
  (32 <=? n) && negb (n =? 34) && negb (n =? 92).

Fixpoint jsonSafe (s : string) : bool :=
  match s with
  | EmptyString => true
  | String c r => jsonSafeChar c && jsonSafe r
  end.

(** ** The shape of the SI number *)

Definition isDigitChar (c : ascii) : bool := isdigit (Z.of_N (N_of_ascii c)).

Fixpoint allDigits (s : string) : bool :=
  match s with
  | EmptyString => true
  | String c r => isDigitChar c && allDigits r
  end.

Fixpoint endsWithZero (s : string) : bool :=
  match s with
  | EmptyString => false
  | String c EmptyString => Ascii.eqb c "0"
  | String _ r => endsWithZero r
  end.

(** What is left of a text after its leading digits. *)
Fixpoint dropDigits (s : string) : string :=
  match s with
  | String c r => if isDigitChar c then dropDigits r else s
  | EmptyString => s
  end.

(** One to six digits, the last of which is not 0 unless it is the only
    one. *)
Definition decimalsOk (f : string) : bool :=
  (1 <=? strlen f)%nat && (strlen f <=? 6)%nat && allDigits f
  && (String.eqb f "0" || negb (endsWithZero f)).

(** One digit or more, a point, and decimals. *)
Definition unsignedDecimal (s : string) : bool :=
  match s with
  | String c r =>
      isDigitChar c
      && match dropDigits r with
         | String "."%char f => decimalsOk f
         | _ => false
         end
  | EmptyString => false
  end.

Definition siNumber (s : string) : bool :=
  match s with
  | String "-"%char r => unsignedDecimal r
  | _ => unsignedDecimal s
  end.

(** ** Every reading a frame of digits can carry

    There are 10^4 digit texts, four placements of the point, five
    multipliers and two signs; the doubles they give are checked one by
    one. *)

(** [trimZeros] on a text alone. *)
Definition trimmed (t : string) : string :=
  string_of_list_ascii (rev (trimZeros_rev (rev (list_ascii_of_string t)))).

Definition digitBytes : list byte := [48; 49; 50; 51; 52; 53; 54; 55; 56; 57].

Definition digitsText (b1 b2 b3 b4 : byte) : string :=
  String (char_of_byte b1)
    (String (char_of_byte b2)
       (String (char_of_byte b3)
          (String (char_of_byte b4) ""))).

(** One point code for each placement, one prefix text for each multiplier. *)
Definition pointRep (b6 : byte) : byte :=
  if b6 =? 0x31 then 0x31
  else if b6 =? 0x32 then 0x32
  else if (b6 =? 0x33) || (b6 =? 0x34) then 0x33
  else 0x30.

Definition prefixRep (p : string) : string :=
  if strequal p "n" then "n"
  else if strequal p "µ" then "µ"
  else if strequal p "m" then "m"
  else if strequal p "k" then "k"
  else "".

(** The two integers [atof] gathers from the digits: all four digits as one
    number, and the power of ten that stands for the digits behind the
    point. *)
Definition mantissaOf (b1 b2 b3 b4 : byte) : Z :=
  10 * (10 * (10 * (10 * 0 + (b1 - 48)) + (b2 - 48)) + (b3 - 48)) + (b4 - 48).

Definition scaleOf (b6 : byte) : Z :=
  if b6 =? 0x31 then 10 * (10 * (10 * 1))
  else if b6 =? 0x32 then 10 * (10 * 1)
  else if (b6 =? 0x33) || (b6 =? 0x34) then 10 * 1
  else 1.

(** The SI value computed from them. *)
Definition reading (s M S : Z) (mult : float) : float :=
  (double_of_Z M / double_of_Z S * mult * double_of_Z s)%float.

(** [m / 2 ^ k] is nearer than half a millionth to the integer [N]. *)
Definition roundsTo (m : positive) (k N : Z) : bool :=
  2000000 * Z.abs (Zpos m - Z.shiftl N k) <? Z.shiftl 1 k.

(** With the multiplier 1000000 the value must come out as the whole number
    [M * (1000000 / S)], up to less than half a millionth. *)
Definition kiloOk (M S : Z) (x : float) : bool :=
  match Prim2SF x with
  | S754_zero _ => true
  | S754_finite _ m e => (e <? 0) && roundsTo m (- e) (M * (1000000 / S))
  | _ => false
  end.

(** 2^-22, less than half a millionth. *)
Definition tiny : float := 0x1p-22%float.

(** What is checked of one reading: with the prefix k that it is a whole
    number; in nano with fewer than three digits before the point that it
    is below [tiny]; otherwise that it is at most 9999. *)
Definition readingOk (b6 : byte) (p : string) (M S : Z) (x : float) : bool :=
  if strequal p "k" then kiloOk M S x
  else if strequal p "n" && ((b6 =? 0x31) || (b6 =? 0x32))
       then (abs x <=? tiny)%float
       else (abs x <=? 9999)%float.

Definition allReadingsOf (P : byte -> string -> Z -> Z -> float -> bool) : bool :=
  forallb (fun b1 => forallb (fun b2 => forallb (fun b3 => forallb (fun b4 =>
  forallb (fun b6 => forallb (fun p => forallb (fun s =>
    P b6 p (mantissaOf b1 b2 b3 b4) (scaleOf b6)
      (reading s (mantissaOf b1 b2 b3 b4) (scaleOf b6) (multToSi p)))
  [1; -1]) [""; "n"; "µ"; "m"; "k"]) [0x30; 0x31; 0x32; 0x33])
  digitBytes) digitBytes) digitBytes) digitBytes.

(** The number [printf_f] prints for a finite double, in millionths. *)
Definition millionths (m : positive) (e : Z) : Z :=
  if 0 <=? e then Zpos m * 10 ^ 6 * 2 ^ e
  else round_half_even (Zpos m * 10 ^ 6) (2 ^ (- e)).

(** [printf_f x] is the text of [n] millionths, with or without a minus
    sign. *)
Definition printedAs (x : float) (n : Z) : Prop :=
  exists sg : bool,
    printf_f x
    = (if sg then "-" else "") ++ dec (n / 10 ^ 6) ++ "." ++ pad6 (n mod 10 ^ 6).

(** ** All byte values *)

Definition allBytes : list byte := map Z.of_nat (seq 0 256).

Fixpoint allBits (s : string) : bool :=
  match s with
  | EmptyString => true
  | String c r => (Ascii.eqb c "0" || Ascii.eqb c "1") && allBits r
  end.

Definition binaryOk (x : byte) : bool :=
  (strlen (to_binary x) =? 8)%nat && allBits (to_binary x)
  && (binaryValue (to_binary x) =? x).

(** ** Formats and replayed captures *)

Definition knownTimeFormat (timeFormat : string) : bool :=
  existsb (String.eqb timeFormat) ["iso"; "local"; "human"; "epochsecms"; "none"].

Definition knownOutputFormat (outputFormat : string) : bool :=
  existsb (String.eqb outputFormat) ["keyvalue"; "json"; "human"; "si"].

Section Replay.

Variables getIso8601Time getLocalDateTime getLocalTime : timeval -> string.
Variable gettimeofday : Z -> timeval.


End Replay.

(** ** Command lines *)







(** An iteration that delivers nothing: a timeout of [select], or a [read]
    that fails. *)
Definition quiet (e : io_event) : bool :=
  match e with
  | SelectTimeout | ReadFailed => true
  | _ => false
  end.

(** * Properties *)

(** ** The frame synchroniser *)

Section Synchroniser.
Local Open Scope list_scope.

Lemma upd_length (i : nat) (b : byte) (l : list byte) :
  List.length (upd i b l) = List.length l.
Proof.
  revert i; induction l as [|h t IH]; intros [|i]; simpl; auto.
Qed.

Lemma firstn_upd (i : nat) (b : byte) (l : list byte) :
  (i < List.length l)%nat -> firstn (S i) (upd i b l) = firstn i l ++ [b].
Proof.
  revert i; induction l as [|h t IH]; intros [|i] Hi; simpl in *; try lia.
  - reflexivity.
  - f_equal. apply IH. lia.
Qed.

Lemma firstn_store (bs : list byte) (idx : nat) (l : list byte) :
  (idx + List.length bs <= List.length l)%nat ->
  firstn (idx + List.length bs) (store idx bs l) = firstn idx l ++ bs.
Proof.
  revert idx l; induction bs as [|b bs IH]; intros idx l Hl; simpl in *.
  - rewrite Nat.add_0_r, app_nil_r. reflexivity.
  - replace (idx + S (List.length bs))%nat with (S idx + List.length bs)%nat by lia.
    rewrite IH by (rewrite upd_length; lia).
    rewrite firstn_upd by lia.
    rewrite <- app_assoc. reflexivity.
Qed.

Lemma store_length (bs : list byte) (idx : nat) (l : list byte) :
  List.length (store idx bs l) = List.length l.
Proof.
  revert idx l; induction bs as [|b bs IH]; intros idx l; simpl.
  - reflexivity.
  - rewrite IH. apply upd_length.
Qed.

(** Bytes that arrive without a pause are stored one after the other while
    fewer than fourteen are held. *)
Lemma loop_bytes (bs : list byte) (rest : list io_event) (buf : list byte) (idx : nat) :
  (idx + List.length bs < 14)%nat ->
  read14BytesPaket_loop (map ReadByte bs ++ rest) buf idx
  = read14BytesPaket_loop rest (store idx bs buf) (idx + List.length bs).
Proof.
  revert buf idx; induction bs as [|b bs IH]; intros buf idx Hlt; simpl in *.
  - rewrite Nat.add_0_r. reflexivity.
  - destruct (Nat.eqb_spec (idx + 1) 14) as [E|_]; [exfalso; lia|].
    rewrite Nat.add_1_r. rewrite IH by lia. f_equal; lia.
Qed.

(** The byte that completes fourteen makes the call return 0. *)
Lemma loop_bytes_full (bs : list byte) (rest : list io_event) (buf : list byte) (idx : nat) :
  bs <> [] -> (idx + List.length bs = 14)%nat ->
  read14BytesPaket_loop (map ReadByte bs ++ rest) buf idx
  = Returned 0 (store idx bs buf) rest.
Proof.
  revert buf idx; induction bs as [|b bs IH]; intros buf idx Hne Hlen; [congruence|].
  simpl in *.
  destruct (Nat.eqb_spec (idx + 1) 14) as [E|NE].
  - destruct bs; simpl in *; [reflexivity | exfalso; lia].
  - rewrite Nat.add_1_r. apply IH; [destruct bs; simpl in *; [exfalso; lia|congruence] | lia].
Qed.

(** A pause of one timeout or more throws away what was held. *)
Lemma loop_timeouts (n : nat) (rest : list io_event) (buf : list byte) (idx : nat) :
  read14BytesPaket_loop (repeat SelectTimeout (S n) ++ rest) buf idx
  = read14BytesPaket_loop rest buf 0.
Proof.
  revert idx; induction n as [|n IH]; intros idx.
  - reflexivity.
  - change (repeat SelectTimeout (S (S n)) ++ rest)
      with (SelectTimeout :: (repeat SelectTimeout (S n) ++ rest)).
    simpl read14BytesPaket_loop at 1. apply (IH 0%nat).
Qed.

(** A line that only times out never lets the call return. *)
Lemma loop_silent (n : nat) (buf : list byte) (idx : nat) :
  exists idx', read14BytesPaket_loop (repeat SelectTimeout n) buf idx
               = Waiting buf idx'.
Proof.
  revert idx; induction n as [|n IH]; intros idx; simpl.
  - exists idx. reflexivity.
  - apply IH.
Qed.

Lemma exhausted_no_frame (count : nat) (ending : list io_event) (buf : list byte) :
  exhausted ending -> sampleFrames count ending buf = [].
Proof.
  intros [-> | [n ->]]; destruct count as [|count]; try reflexivity.
  cbn [sampleFrames]. unfold read14BytesPaket.
  destruct (loop_silent n buf 0) as [idx' ->]. reflexivity.
Qed.

End Synchroniser.

(** ** Strings, and sequences of calls that complete *)

Lemma append_assoc (s1 s2 s3 : string) : (s1 ++ s2) ++ s3 = s1 ++ (s2 ++ s3).
Proof.
  induction s1 as [|c s1 IH]; simpl; [reflexivity | now rewrite IH].
Qed.

Lemma append_length (s1 s2 : string) :
  strlen (s1 ++ s2) = (strlen s1 + strlen s2)%nat.
Proof.
  unfold strlen. induction s1 as [|c s1 IH]; simpl; [reflexivity | now rewrite IH].
Qed.

Lemma bind_Done_intro {A B : Type} (m : outcome A) (k : A -> outcome B)
  (a : A) (b : B) :
  m = Done a -> k a = Done b -> bind m k = Done b.
Proof. intros -> H. exact H. Qed.

Lemma bind_Done {A B : Type} (m : outcome A) (k : A -> outcome B) (b : B) :
  bind m k = Done b -> exists a, m = Done a /\ k a = Done b.
Proof.
  destruct m as [a|]; simpl; intros H; [eauto | discriminate].
Qed.

Lemma strcat_Done (dst : chars) (src : string) (c : chars) :
  strcat dst src = Done c ->
  c = mkChars (size dst) (text dst ++ src)
  /\ (strlen (text dst) + strlen src + 1 <= size dst)%nat.
Proof.
  unfold strcat.
  destruct (Nat.leb_spec (strlen (text dst) + strlen src + 1) (size dst))
    as [Hle|Hgt]; intros H.
  - inversion H. auto.
  - discriminate.
Qed.

Lemma strcpy_fits (dst : chars) (src : string) :
  (strlen src + 1 <= size dst)%nat ->
  strcpy dst src = Done (mkChars (size dst) src).
Proof.
  intros Hfit. unfold strcpy.
  destruct (Nat.leb_spec (strlen src + 1) (size dst)); [reflexivity | exfalso; lia].
Qed.

Lemma strcat_fits (dst : chars) (src : string) :
  (strlen (text dst) + strlen src + 1 <= size dst)%nat ->
  strcat dst src = Done (mkChars (size dst) (text dst ++ src)).
Proof.
  intros Hfit. unfold strcat.
  destruct (Nat.leb_spec (strlen (text dst) + strlen src + 1) (size dst));
    [reflexivity | exfalso; lia].
Qed.

(** ** The formatted texts and the 20-byte arrays *)

Lemma formatValues_Done (buf : list byte) (sign : Z) (value : chars) (k : Z)
  (mode prefix unit info : chars) (l : locals) :
  formatValues buf sign value k mode prefix unit info = Done l ->
  l = mkLocals value sign k mode prefix unit info (Z.land (at_ buf 11) 0x7f)
        (mkChars 20 (vWithUnitText sign (text value) (text prefix) (text unit)))
        (vSiOf sign (text value) (text prefix))
        (mkChars 20 (vSiWithUnitText (vSiOf sign (text value) (text prefix)) (text unit)))
  /\ (strlen (vWithUnitText sign (text value) (text prefix) (text unit)) + 1 <= 20)%nat
  /\ (strlen (vSiWithUnitText (vSiOf sign (text value) (text prefix)) (text unit)) + 1
      <= 20)%nat.
Proof.
  unfold formatValues. intros H.
  apply bind_Done in H. destruct H as [v1 [E1 H]].
  apply bind_Done in H. destruct H as [v2 [E2 H]].
  apply bind_Done in H. destruct H as [v3 [E3 H]].
  apply bind_Done in H. destruct H as [v4 [E4 H]].
  apply bind_Done in H. destruct H as [v5 [E5 H]].
  apply bind_Done in H. destruct H as [s1 [F1 H]].
  apply bind_Done in H. destruct H as [s2 [F2 H]].
  inversion H; subst l; clear H.
  assert (T1 : v1 = mkChars 20 (if sign =? -1 then "-" else "")).
  { destruct (sign =? -1).
    - apply strcat_Done in E1. destruct E1 as [-> _]. reflexivity.
    - inversion E1. reflexivity. }
  subst v1.
  apply strcat_Done in E2. destruct E2 as [-> _].
  apply strcat_Done in E3. destruct E3 as [-> _].
  apply strcat_Done in E4. destruct E4 as [-> _].
  apply strcat_Done in E5. destruct E5 as [-> B5].
  apply strcat_Done in F1. destruct F1 as [-> _].
  apply strcat_Done in F2. destruct F2 as [-> B6].
  cbn [text size] in *.
  rewrite <- append_length in B5, B6.
  rewrite !append_assoc in B5. rewrite !append_assoc in B6.
  rewrite !append_assoc.
  fold (vSiOf sign (text value) (text prefix)) in *.
  fold (vSiText (vSiOf sign (text value) (text prefix))) in *.
  unfold vWithUnitText, vSiWithUnitText.
  repeat split; assumption.
Qed.

Lemma formatValues_fits (buf : list byte) (sign : Z) (value : chars) (k : Z)
  (mode prefix unit info : chars) :
  (strlen (vWithUnitText sign (text value) (text prefix) (text unit)) + 1 <= 20)%nat ->
  (strlen (vSiWithUnitText (vSiOf sign (text value) (text prefix)) (text unit)) + 1
   <= 20)%nat ->
  formatValues buf sign value k mode prefix unit info
  = Done (mkLocals value sign k mode prefix unit info (Z.land (at_ buf 11) 0x7f)
        (mkChars 20 (vWithUnitText sign (text value) (text prefix) (text unit)))
        (vSiOf sign (text value) (text prefix))
        (mkChars 20 (vSiWithUnitText (vSiOf sign (text value) (text prefix)) (text unit)))).
Proof.
  unfold vWithUnitText, vSiWithUnitText, vSiText.
  intros B1 B2.
  repeat rewrite append_length in B1. repeat rewrite append_length in B2.
  unfold formatValues.
  fold (vSiOf sign (text value) (text prefix)).
  set (sg := if sign =? -1 then "-" else "") in *.
  assert (E1 : (if sign =? -1 then strcat (mkChars 20 "") "-" else Done (mkChars 20 ""))
               = Done (mkChars 20 sg)).
  { unfold sg. destruct (sign =? -1); reflexivity. }
  rewrite E1. cbn [bind].
  change (strlen " ") with 1%nat in *.
  change (trimZeros (snprintf_f (mkChars 20 "") (vSiOf sign (text value) (text prefix))))
    with (mkChars 20 (vSiText (vSiOf sign (text value) (text prefix)))).
  fold (vSiText (vSiOf sign (text value) (text prefix))) in B2.
  repeat (rewrite strcat_fits;
          [ cbn [bind text size]
          | cbn [text size]; repeat rewrite append_length;
            change (strlen " ") with 1%nat; lia ]).
  rewrite !append_assoc. reflexivity.
Qed.

(** ** The label arrays never overrun *)

Lemma checkInfo_null (buf : list byte) (sb bit : Z) (info : string) :
  checkInfo buf sb bit info None = Done (statusBitSet buf sb bit, None).
Proof.
  unfold checkInfo, statusBitSet. destruct (negb (Z.land _ _ =? 0)); reflexivity.
Qed.

Lemma appendLabel_length (b : bool) (info s : string) :
  (strlen (appendLabel b info s) <= strlen s + 1 + strlen info)%nat.
Proof.
  unfold appendLabel. destruct b; [|lia].
  destruct (strlen s =? 0)%nat; rewrite !append_length; cbn [strlen String.length]; lia.
Qed.

Lemma checkInfoTo_fits (buf : list byte) (sb bit : Z) (info : string) (arr : chars) :
  (strlen (text arr) + 1 + strlen info + 1 <= size arr)%nat ->
  checkInfoTo buf sb bit info arr
  = Done (statusBitSet buf sb bit,
          mkChars (size arr) (appendLabel (statusBitSet buf sb bit) info (text arr))).
Proof.
  intros Hfit.
  unfold checkInfoTo, checkInfo, appendLabel. fold (statusBitSet buf sb bit).
  destruct (statusBitSet buf sb bit); [|destruct arr; reflexivity].
  destruct (strlen (text arr) =? 0)%nat eqn:E0; cbn [negb bind].
  - unfold strcat.
    destruct (Nat.leb_spec (strlen (text arr) + strlen info + 1) (size arr));
      [reflexivity | exfalso; lia].
  - assert (E1 : strcat arr " " = Done (mkChars (size arr) (text arr ++ " "))).
    { unfold strcat. cbn [strlen String.length].
      destruct (Nat.leb_spec (strlen (text arr) + 1 + 1) (size arr));
        [reflexivity | exfalso; lia]. }
    rewrite E1. cbn [bind]. unfold strcat. cbn [text size].
    rewrite append_length. cbn [strlen String.length].
    destruct (Nat.leb_spec (strlen (text arr) + 1 + strlen info + 1) (size arr))
      as [_|Hgt]; [reflexivity | exfalso; lia].
Qed.

Ltac label_bounds t :=
  lazymatch t with
  | appendLabel ?b ?i ?s =>
      label_bounds s;
      let H := fresh "B" in
      pose proof (appendLabel_length b i s) as H;
      unfold strlen in H; cbn [String.length] in H
  | _ => idtac
  end.

Ltac fits :=
  cbn [text size]; unfold strlen; cbn [String.length];
  try match goal with
      | |- (String.length ?t + _ + _ + _ <= _)%nat => label_bounds t
      end;
  unfold BUFFER_LEN; lia.

Local Opaque appendLabel.

Ltac text_length :=
  match goal with
  | |- (strlen ?t <= _)%nat =>
      let t' := eval unfold modeText, prefixText, unitText, infoText in t in
      change t with t'; label_bounds t'
  end;
  unfold strlen; lia.

Lemma modeText_length (buf : list byte) : (strlen (modeText buf) <= 15)%nat.
Proof. text_length. Qed.

Lemma prefixText_length (buf : list byte) : (strlen (prefixText buf) <= 13)%nat.
Proof. text_length. Qed.

Lemma unitText_length (buf : list byte) : (strlen (unitText buf) <= 24)%nat.
Proof. text_length. Qed.

Lemma infoText_length (buf : list byte) : (strlen (infoText buf) <= 47)%nat.
Proof. text_length. Qed.

(** The status part always completes: the 100-byte arrays hold every
    combination of labels. *)
Lemma readStatus_total (buf : list byte) (d : Vc830) :
  readStatus buf d
  = Done (statusFlags buf d,
          mkChars BUFFER_LEN (modeText buf), mkChars BUFFER_LEN (prefixText buf),
          mkChars BUFFER_LEN (unitText buf), mkChars BUFFER_LEN (infoText buf)).
Proof.
  unfold readStatus.
  repeat (eapply bind_Done_intro;
          [ first [apply checkInfo_null | apply checkInfoTo_fits; fits]
          | cbv beta iota; cbn [text size] ]).
  reflexivity.
Qed.

(** ** The copy to the output structure *)

Ltac record_fields :=
  cbv [set_receivedAt set_rawRisplay set_sign set_mode set_unit
       set_prefix set_fullUnit set_info set_barGraph set_barGraphIsShown
       set_batteryWarning set_autoRangeActive set_holdActive set_deltaActive
       set_overflow set_formatedValue set_formatedSiValue
       receivedAt rawRisplay sign mode unit prefix fullUnit info barGraph
       barGraphIsShown batteryWarning autoRangeActive holdActive deltaActive
       overflow formatedValue formatedSiValue];
  cbn [text size].

Lemma copyToOutput_fits (l : locals) (d : Vc830) :
  declaredSizes d ->
  (strlen (text (l_value l)) + 1 <= 6)%nat ->
  (strlen (text (l_mode l)) + 1 <= BUFFER_LEN)%nat ->
  (strlen (text (l_info l)) + 1 <= BUFFER_LEN)%nat ->
  (strlen (text (l_prefix l)) + strlen (text (l_unit l)) + 1 <= BUFFER_LEN)%nat ->
  (strlen (text (l_vWithUnit l)) + 1 <= BUFFER_LEN)%nat ->
  (strlen (text (l_vSiWithUnit l)) + 1 <= BUFFER_LEN)%nat ->
  copyToOutput l d = Done (copied l d).
Proof.
  intros (S1 & S2 & S3 & S4 & S5 & S6 & S7 & S8) B1 B2 B3 B4 B5 B6.
  destruct d. cbn [rawRisplay mode unit prefix fullUnit info formatedValue
                   formatedSiValue] in *.
  unfold copyToOutput, copied.
  repeat (first [rewrite strcpy_fits | rewrite strcat_fits];
          [ cbn [bind] | record_fields; lia ]).
  record_fields. rewrite S1, S2, S3, S4, S5, S6, S7, S8. reflexivity.
Qed.

(** ** The digits and the decimal point *)

Lemma readDigits_4 (buf : list byte) :
  readDigits buf 0 4 "" = if digitsOk buf then Some (digitChars buf) else None.
Proof.
  unfold digitsOk, digitChars. cbn [readDigits Nat.add].
  destruct (isdigit (at_ buf 1)); cbn [negb andb]; [|reflexivity].
  destruct (isdigit (at_ buf 2)); cbn [negb andb]; [|reflexivity].
  destruct (isdigit (at_ buf 3)); cbn [negb andb]; [|reflexivity].
  destruct (isdigit (at_ buf 4)); cbn [negb andb]; reflexivity.
Qed.

Lemma readValue_overflow (buf : list byte) (d : Vc830) :
  isOverflowMark buf = true ->
  readValue buf d = Done (Some (set_overflow true d, mkChars 6 "OVF", -1)).
Proof.
  intros H. unfold readValue. rewrite H. reflexivity.
Qed.

Lemma readValue_digits (buf : list byte) (d : Vc830) :
  isOverflowMark buf = false ->
  readValue buf d =
  if digitsOk buf
  then Done (Some (d, mkChars 6 (spec_insertPoint (at_ buf 6) (digitChars buf)),
                   match spec_pointPosition (at_ buf 6) with
                   | Some n => Z.of_nat n
                   | None => -1
                   end))
  else Done None.
Proof.
  intros H. unfold readValue. rewrite H, readDigits_4.
  destruct (digitsOk buf); [|reflexivity].
  unfold spec_insertPoint, spec_pointPosition.
  destruct (Z.eqb_spec (at_ buf 6) 0x31) as [E1|N1];
    destruct (Z.eqb_spec (at_ buf 6) 0x32) as [E2|N2];
    destruct (Z.eqb_spec (at_ buf 6) 0x33) as [E3|N3];
    destruct (Z.eqb_spec (at_ buf 6) 0x34) as [E4|N4];
    try (exfalso; congruence); reflexivity.
Qed.

Lemma valueText_length (buf : list byte) : (strlen (valueText buf) <= 5)%nat.
Proof.
  unfold valueText, spec_insertPoint, spec_pointPosition, digitChars.
  destruct (isOverflowMark buf); [cbn; lia|].
  destruct (at_ buf 6 =? 49); [cbn; lia|].
  destruct (at_ buf 6 =? 50); [cbn; lia|].
  destruct ((at_ buf 6 =? 51) || (at_ buf 6 =? 52)); cbn; lia.
Qed.

Lemma readValue_closed_form (buf : list byte) (d : Vc830) :
  readValue buf d =
  if isOverflowMark buf || digitsOk buf
  then Done (Some (set_overflow (isOverflowMark buf || overflow d) d,
                   mkChars 6 (valueText buf), kOf buf))
  else Done None.
Proof.
  unfold valueText, kOf.
  destruct (isOverflowMark buf) eqn:Hm; cbn [orb].
  - apply readValue_overflow. assumption.
  - rewrite readValue_digits by assumption.
    destruct (digitsOk buf); [|reflexivity].
    destruct d; reflexivity.
Qed.

(** The placement rule of [spec_insertPoint], case by case. *)
Lemma spec_insertPoint_cases (b6 : byte) (c1 c2 c3 c4 : ascii) :
  let digits := String c1 (String c2 (String c3 (String c4 ""))) in
  (b6 = 0x31 ->
   spec_insertPoint b6 digits = String c1 (String "." (String c2 (String c3 (String c4 "")))))
  /\ (b6 = 0x32 ->
      spec_insertPoint b6 digits = String c1 (String c2 (String "." (String c3 (String c4 "")))))
  /\ (b6 = 0x33 \/ b6 = 0x34 ->
      spec_insertPoint b6 digits = String c1 (String c2 (String c3 (String "." (String c4 "")))))
  /\ (b6 <> 0x31 -> b6 <> 0x32 -> b6 <> 0x33 -> b6 <> 0x34 ->
      spec_insertPoint b6 digits = digits).
Proof.
  cbv zeta. unfold spec_insertPoint, spec_pointPosition.
  repeat split.
  - intros ->. reflexivity.
  - intros ->. reflexivity.
  - intros [-> | ->]; reflexivity.
  - intros N1 N2 N3 N4.
    destruct (Z.eqb_spec b6 0x31); [contradiction|].
    destruct (Z.eqb_spec b6 0x32); [contradiction|].
    destruct (Z.eqb_spec b6 0x33); [contradiction|].
    destruct (Z.eqb_spec b6 0x34); [contradiction|].
    reflexivity.
Qed.

(** ** The decoder in closed form *)

Lemma signOf_cases (buf : list byte) :
  (at_ buf 0 = 0x2b /\ signOf buf = 1)
  \/ (at_ buf 0 = 0x2d /\ signOf buf = -1)
  \/ (at_ buf 0 <> 0x2b /\ at_ buf 0 <> 0x2d /\ signOf buf = 0).
Proof.
  unfold signOf.
  destruct (Z.eqb_spec (at_ buf 0) 0x2b) as [E1|N1];
    destruct (Z.eqb_spec (at_ buf 0) 0x2d) as [E2|N2]; auto.
Qed.

(** The decoder written over its parts. *)
Lemma decode_unfold (now : timeval) (buf : list byte) (old : Vc830) :
  decodeFS9922Paket now buf old =
  let d := set_receivedAt now Vc830_zero in
  if negb (framingOk buf) then Done (-1, d, None)
  else if signOf buf =? 0 then Done (-2, d, None)
  else
    v <- readValue buf d ;;
    match v with
    | None => Done (-3, d, None)
    | Some (d, value, k) =>
        '(d, mode, prefix, unit, info) <- readStatus buf d ;;
        l <- formatValues buf (signOf buf) value k mode prefix unit info ;;
        d <- copyToOutput l d ;;
        Done (0, d, Some l)
    end.
Proof.
  unfold decodeFS9922Paket, framingOk, signOf.
  destruct (at_ buf 5 =? 32), (at_ buf 12 =? 13), (at_ buf 13 =? 10); reflexivity.
Qed.

Lemma declaredSizes_cleared (now : timeval) (buf : list byte) (b : bool) :
  declaredSizes (statusFlags buf (set_overflow b (set_receivedAt now Vc830_zero))).
Proof. repeat split. Qed.

Local Opaque readStatus formatValues copyToOutput.

Lemma decode_closed_form (now : timeval) (buf : list byte) (old : Vc830) :
  decodeFS9922Paket now buf old =
  let cleared := set_receivedAt now Vc830_zero in
  if negb (framingOk buf) then Done (-1, cleared, None)
  else if signOf buf =? 0 then Done (-2, cleared, None)
  else if negb (isOverflowMark buf || digitsOk buf) then Done (-3, cleared, None)
  else if textsFit buf
       then Done (0, decodedRecord now buf, Some (decodedLocals buf))
       else Undefined.
Proof.
  rewrite decode_unfold. cbv zeta.
  destruct (framingOk buf); cbn [negb]; [|reflexivity].
  destruct (signOf buf =? 0); [reflexivity|].
  rewrite readValue_closed_form.
  destruct (isOverflowMark buf || digitsOk buf); cbn [negb bind]; [|reflexivity].
  rewrite readStatus_total. cbn [bind].
  cbn [overflow set_receivedAt Vc830_zero]. rewrite orb_false_r.
  unfold textsFit.
  destruct (Nat.leb_spec
              (strlen (vWithUnitText (signOf buf) (valueText buf) (prefixText buf)
                         (unitText buf)) + 1) 20) as [F1|F1];
    [ destruct (Nat.leb_spec
                  (strlen (vSiWithUnitText
                             (vSiOf (signOf buf) (valueText buf) (prefixText buf))
                             (unitText buf)) + 1) 20) as [F2|F2] | ];
    cbn [andb].
  - rewrite formatValues_fits by (cbn [text]; assumption).
    cbn [bind text].
    rewrite copyToOutput_fits.
    + reflexivity.
    + apply declaredSizes_cleared.
    + cbn [l_value text]. pose proof (valueText_length buf). lia.
    + cbn [l_mode text]. pose proof (modeText_length buf). unfold BUFFER_LEN. lia.
    + cbn [l_info text]. pose proof (infoText_length buf). unfold BUFFER_LEN. lia.
    + cbn [l_prefix l_unit text]. pose proof (prefixText_length buf).
      pose proof (unitText_length buf). unfold BUFFER_LEN. lia.
    + cbn [l_vWithUnit text]. unfold BUFFER_LEN. lia.
    + cbn [l_vSiWithUnit text]. unfold BUFFER_LEN. lia.
  - destruct (formatValues _ _ _ _ _ _ _ _) as [l|] eqn:E; [|reflexivity].
    apply formatValues_Done in E. cbn [text] in E. exfalso. lia.
  - destruct (formatValues _ _ _ _ _ _ _ _) as [l|] eqn:E; [|reflexivity].
    apply formatValues_Done in E. cbn [text] in E. exfalso. lia.
Qed.

Local Transparent readStatus formatValues copyToOutput.

(** A frame that passes the three checks and whose formatted texts fit is
    decoded to [decodedRecord]. *)
Lemma decode_fits (now : timeval) (buf : list byte) (old : Vc830) :
  framingOk buf = true -> signOf buf <> 0 ->
  isOverflowMark buf || digitsOk buf = true -> textsFit buf = true ->
  decodeFS9922Paket now buf old
  = Done (0, decodedRecord now buf, Some (decodedLocals buf)).
Proof.
  intros Hf Hs Hv Hfit.
  rewrite decode_closed_form. cbv zeta.
  rewrite Hf, Hv, Hfit. cbn [negb].
  destruct (Z.eqb_spec (signOf buf) 0) as [E|_]; [contradiction | reflexivity].
Qed.

(** ** The multiplier *)

(** The multiplier the chain of assignments ends with, prefix by prefix. *)
Lemma multToSi_table (p : string) :
  multToSi "" = 1%float
  /\ multToSi "n" = 0.000000001%float
  /\ multToSi "µ" = 0.000001%float
  /\ multToSi "m" = 0.001%float
  /\ multToSi "k" = 1000000%float
  /\ (p <> "n" -> p <> "µ" -> p <> "m" -> p <> "k" -> multToSi p = 1%float).
Proof.
  repeat split; try reflexivity.
  intros Nn Nu Nm Nk. unfold multToSi, strequal.
  destruct (String.eqb_spec p "n"); [contradiction|].
  destruct (String.eqb_spec p "µ"); [contradiction|].
  destruct (String.eqb_spec p "m"); [contradiction|].
  destruct (String.eqb_spec p "k"); [contradiction|].
  reflexivity.
Qed.

(** ** The bar graph byte *)

Lemma at_upd_other (i j : nat) (b : byte) (buf : list byte) :
  i <> j -> at_ (upd j b buf) i = at_ buf i.
Proof.
  unfold at_. revert i j; induction buf as [|h t IH]; intros i j Hij.
  - destruct j; reflexivity.
  - destruct j as [|j], i as [|i]; cbn [upd nth]; try reflexivity.
    + contradiction.
    + apply IH. congruence.
Qed.

Lemma at_upd_same (j : nat) (b : byte) (buf : list byte) :
  (j < List.length buf)%nat -> at_ (upd j b buf) j = b.
Proof.
  unfold at_. revert j; induction buf as [|h t IH]; intros j Hj; cbn in Hj.
  - lia.
  - destruct j as [|j]; cbn [upd nth]; [reflexivity | apply IH; lia].
Qed.

Lemma at_in_range (i : nat) (buf : list byte) :
  at_ buf i <> 0 -> (i < List.length buf)%nat.
Proof.
  unfold at_. intros H.
  destruct (Nat.lt_ge_cases i (List.length buf)) as [Hlt|Hge]; [assumption|].
  rewrite nth_overflow in H by assumption. contradiction.
Qed.

(** Nothing but the bar graph value depends on byte 11. *)
Lemma bar_byte_only_in_bar_graph (b : byte) (buf : list byte) :
  framingOk (upd 11 b buf) = framingOk buf
  /\ signOf (upd 11 b buf) = signOf buf
  /\ isOverflowMark (upd 11 b buf) = isOverflowMark buf
  /\ digitsOk (upd 11 b buf) = digitsOk buf
  /\ textsFit (upd 11 b buf) = textsFit buf.
Proof.
  unfold textsFit, vWithUnitText, vSiWithUnitText, vSiOf, valueText, framingOk,
    signOf, isOverflowMark, digitsOk, digitChars, prefixText, unitText,
    statusBitSet.
  cbn [Z.add Z.sub Z.opp Z.pos_sub Z.to_nat Pos.add Pos.succ Pos.to_nat
       Pos.iter_op Nat.add Pos.pred_double Pos.double_mask Pos.sub_mask
       Z.succ_double Z.pred_double Z.double Init.Nat.add].
  repeat rewrite at_upd_other by discriminate.
  repeat split.
Qed.

(** ** Overflow frames *)

(** The SI value of an overflow frame: [atof "OVF"] is 0.0, so the product
    is a zero that carries the sign. *)
Lemma vSiOf_overflow (p : string) :
  vSiOf 1 "OVF" p = 0%float /\ vSiOf (-1) "OVF" p = (-0)%float.
Proof.
  unfold vSiOf, multToSi.
  destruct (strequal p "n"), (strequal p "µ"), (strequal p "m"), (strequal p "k");
    split; vm_compute; reflexivity.
Qed.

Lemma vSiText_zero : vSiText 0%float = "0.0" /\ vSiText (-0)%float = "-0.0".
Proof. split; vm_compute; reflexivity. Qed.

(** An overflow frame that passes the framing and sign checks, when the
    formatted texts fit their arrays: the status bytes and the bar graph are
    decoded as for any frame, and the SI fields are those of a signed zero. *)
Lemma overflow_frame_decoded (now : timeval) (buf : list byte) (old : Vc830) :
  framingOk buf = true -> signOf buf <> 0 -> isOverflowMark buf = true ->
  textsFit buf = true ->
  exists r l,
    decodeFS9922Paket now buf old = Done (0, r, Some l)
    /\ overflow r = true /\ text (rawRisplay r) = "OVF"
    /\ text (mode r) = modeText buf /\ text (prefix r) = prefixText buf
    /\ text (unit r) = unitText buf /\ text (info r) = infoText buf
    /\ barGraph r = Z.land (at_ buf 11) 0x7f
    /\ l_vSi l = (if signOf buf =? -1 then (-0)%float else 0%float)
    /\ text (formatedSiValue r)
       = (if signOf buf =? -1 then "-0.0 " else "0.0 ") ++ unitText buf.
Proof.
  intros Hf Hs Hm Hfit.
  exists (decodedRecord now buf), (decodedLocals buf).
  split; [apply decode_fits; auto; rewrite Hm; reflexivity|].
  assert (Hv : valueText buf = "OVF") by (unfold valueText; rewrite Hm; reflexivity).
  change (overflow (decodedRecord now buf)) with (isOverflowMark buf).
  change (text (rawRisplay (decodedRecord now buf))) with (valueText buf).
  change (text (mode (decodedRecord now buf))) with (modeText buf).
  change (text (prefix (decodedRecord now buf))) with (prefixText buf).
  change (text (unit (decodedRecord now buf))) with (unitText buf).
  change (text (info (decodedRecord now buf))) with (infoText buf).
  change (barGraph (decodedRecord now buf)) with (Z.land (at_ buf 11) 0x7f).
  change (l_vSi (decodedLocals buf))
    with (vSiOf (signOf buf) (valueText buf) (prefixText buf)).
  change (text (formatedSiValue (decodedRecord now buf)))
    with (vSiText (vSiOf (signOf buf) (valueText buf) (prefixText buf))
          ++ " " ++ unitText buf).
  rewrite Hv.
  destruct (vSiOf_overflow (prefixText buf)) as [Vp Vn].
  destruct vSiText_zero as [Tp Tn].
  destruct (signOf_cases buf) as [[_ S]|[[_ S]|[_ [_ S]]]]; rewrite S;
    [ rewrite Vp, Tp | rewrite Vn, Tn | contradiction ];
    repeat split; assumption.
Qed.

(** On an overflow frame the texts fit whenever the prefix and unit labels
    together take at most 14 bytes, as they do when at most one bit of each
    kind is set. *)
Lemma overflow_frame_fits (buf : list byte) :
  signOf buf <> 0 -> isOverflowMark buf = true ->
  (strlen (prefixText buf) + strlen (unitText buf) <= 14)%nat ->
  textsFit buf = true.
Proof.
  intros Hs Hm Hlen.
  unfold textsFit, valueText. rewrite Hm.
  destruct (vSiOf_overflow (prefixText buf)) as [Vp Vn].
  destruct vSiText_zero as [Tp Tn].
  unfold vWithUnitText, vSiWithUnitText.
  destruct (signOf_cases buf) as [[_ S]|[[_ S]|[_ [_ S]]]]; [| |contradiction];
    rewrite S; [rewrite Vp, Tp | rewrite Vn, Tn];
    cbn [Z.eqb Pos.eqb skipZeros Ascii.eqb Bool.eqb];
    repeat rewrite append_length;
    change (strlen "OVF") with 3%nat; change (strlen " ") with 1%nat;
    change (strlen "") with 0%nat; change (strlen "-") with 1%nat;
    change (strlen "0.0") with 3%nat; change (strlen "-0.0") with 4%nat;
    apply andb_true_intro; split; apply Nat.leb_le; lia.
Qed.

(** The same frame when a formatted text does not fit: a [strcat] writes
    past the end of [vWithUnit] or [vSiWithUnit]. *)
Lemma overflow_frame_overrun (now : timeval) (buf : list byte) (old : Vc830) :
  framingOk buf = true -> signOf buf <> 0 -> isOverflowMark buf = true ->
  textsFit buf = false ->
  decodeFS9922Paket now buf old = Undefined.
Proof.
  intros Hf Hs Hm Hfit.
  rewrite decode_closed_form. cbv zeta.
  rewrite Hf, Hm, Hfit. cbn [negb orb].
  destruct (Z.eqb_spec (signOf buf) 0) as [E|_]; [contradiction | reflexivity].
Qed.

(** ** The display text *)

Lemma display_text_decoded (now : timeval) (buf : list byte) (old r : Vc830)
  (ol : option locals) :
  decodeFS9922Paket now buf old = Done (0, r, ol) ->
  text (formatedValue r)
  = (if Ascii.eqb (sign r) "-" then "-" else "")
    ++ skipZeros (text (rawRisplay r)) ++ " " ++ text (prefix r) ++ text (unit r).
Proof.
  rewrite decode_closed_form. cbv zeta.
  destruct (framingOk buf); cbn [negb]; [|discriminate].
  destruct (Z.eqb_spec (signOf buf) 0) as [E|NE]; [discriminate|].
  destruct (isOverflowMark buf || digitsOk buf); cbn [negb]; [|discriminate].
  destruct (textsFit buf); [|discriminate].
  intros H. inversion H; subst; clear H.
  change (text (formatedValue (decodedRecord now buf)))
    with (vWithUnitText (signOf buf) (valueText buf) (prefixText buf) (unitText buf)).
  change (sign (decodedRecord now buf))
    with (if signOf buf =? 1 then "+"%char else "-"%char).
  change (text (rawRisplay (decodedRecord now buf))) with (valueText buf).
  change (text (prefix (decodedRecord now buf))) with (prefixText buf).
  change (text (unit (decodedRecord now buf))) with (unitText buf).
  unfold vWithUnitText.
  destruct (signOf_cases buf) as [[_ S]|[[_ S]|[_ [_ S]]]]; rewrite S;
    [reflexivity | reflexivity | contradiction].
Qed.

(** One step of the loop over leading zeros. *)
Lemma skipZeros_cons (a : ascii) (rest : string) :
  skipZeros (String a rest)
  = if Ascii.eqb a "0"
    then (if startsWithPoint rest then String a rest else skipZeros rest)
    else String a rest.
Proof.
  cbn [skipZeros]. destruct (Ascii.eqb a "0"); [|reflexivity].
  destruct rest as [|b rest']; [reflexivity|].
  destruct b as [[] [] [] [] [] [] [] []]; reflexivity.
Qed.

(** Stripping never leaves the point in front: a zero before the point is
    kept. *)
Lemma skipZeros_no_leading_point (s : string) :
  startsWithPoint s = false -> startsWithPoint (skipZeros s) = false.
Proof.
  induction s as [|a rest IH]; intros H; [reflexivity|].
  rewrite skipZeros_cons.
  destruct (Ascii.eqb a "0"); [|assumption].
  destruct (startsWithPoint rest) eqn:E; [assumption|].
  apply IH. reflexivity.
Qed.

(** With a point in the text, stripping leaves at least the digit in front
    of it ... *)
Lemma skipZeros_keeps_point (s1 s2 : string) :
  exists s, skipZeros (s1 ++ String "." s2) = s ++ String "." s2.
Proof.
  induction s1 as [|a s1 IH].
  - exists "". reflexivity.
  - cbn [append]. rewrite skipZeros_cons.
    destruct (Ascii.eqb a "0").
    + destruct (startsWithPoint (s1 ++ String "." s2)).
      * exists (String a s1). reflexivity.
      * exact IH.
    + exists (String a s1). reflexivity.
Qed.

(** ... but without a point it strips every character of "0000". *)
Lemma skipZeros_all_zero : skipZeros "0000" = "".
Proof. reflexivity. Qed.

(** * The claims of the specification *)

(** C1: the example frame ('+', "1234", byte 6 = 0x33, SB1 = DC and AUTO,
    SB4 = V, everything else zero) decodes successfully, with sign '+',
    mode "DC", info "AUTO", unit "V", empty prefix, display text "123.4 V",
    SI value 123.4 and SI text "123.4 V". *)
Theorem c1_example_frame :
  forall (now : timeval) (old : Vc830), exists r l,
    decodeFS9922Paket now frame_example old = Done (0, r, Some l)
    /\ sign r = "+"%char
    /\ text (mode r) = "DC"
    /\ text (info r) = "AUTO"
    /\ text (unit r) = "V"
    /\ text (prefix r) = ""
    /\ text (formatedValue r) = "123.4 V"
    /\ l_vSi l = 123.4%float
    /\ text (formatedSiValue r) = "123.4 V".
Proof.
  intros now old.
  exists (decodedRecord now frame_example), (decodedLocals frame_example).
  split.
  - apply decode_fits; vm_compute; congruence.
  - repeat split; vm_compute; reflexivity.
Qed.

(** C2, at the input where the code departs from it: with k as the only
    prefix bit the decoder multiplies by 1000000, the value of the second
    assignment guarded by [strequal(prefix, "k")], and not by 1000; the
    reading 1234 k becomes 1234000000 where the table gives 1234000. *)
Theorem c2_prefix_k_multiplier :
  forall (now : timeval) (old : Vc830), exists r l,
    decodeFS9922Paket now frame_k old = Done (0, r, Some l)
    /\ text (prefix r) = "k"
    /\ text (rawRisplay r) = "1234"
    /\ multToSi "k" = 1000000%float
    /\ l_vSi l = 1234000000%float
    /\ text (formatedSiValue r) = "1234000000.0 V"
    /\ (atof "1234" * 1000 * double_of_Z 1)%float = 1234000%float.
Proof.
  intros now old.
  exists (decodedRecord now frame_k), (decodedLocals frame_k).
  split.
  - apply decode_fits; vm_compute; congruence.
  - repeat split; vm_compute; reflexivity.
Qed.

(** C3 as stated fails: on the stream of the bytes 1 to 20, one timeout, the
    bytes 101 to 114 and the end of the capture, the synchroniser does not
    yield the single frame made of the last fourteen bytes; the first frame
    it returns is built from bytes of the first burst. *)
Lemma c3_not_a_single_frame :
  sampleFrames 5 (stalled_stream c3_pre c3_post 1 [ReadEof]) c3_buffer
  <> [c3_post]
  /\ hd [] (sampleFrames 5 (stalled_stream c3_pre c3_post 1 [ReadEof]) c3_buffer)
     = firstn 14 c3_pre.
Proof.
  split.
  - vm_compute. discriminate.
  - vm_compute. reflexivity.
Qed.

(** C3, amended: a stream that delivers 20 bytes, stalls for at least one
    timeout, delivers 14 more bytes and is then exhausted yields exactly two
    frames: the first 14 of the 20 bytes, then the last 14 bytes.  The
    timeout discards only bytes 15 to 20 of the first burst, and no frame
    mixes bytes from before and after the stall. *)
Theorem c3_stalled_stream_two_frames :
  forall (pre post : list byte) (stall count : nat) (ending : list io_event)
         (readBuffer : list byte),
    List.length pre = 20%nat -> List.length post = 14%nat ->
    (1 <= stall)%nat -> (2 <= count)%nat -> exhausted ending ->
    List.length readBuffer = BUFFER_LEN ->
    sampleFrames count (stalled_stream pre post stall ending) readBuffer
    = [firstn 14 pre; post].
Proof.
  intros pre post stall count ending readBuffer Hpre Hpost Hstall Hcount Hend Hbuf.
  unfold BUFFER_LEN in Hbuf.
  destruct count as [|[|count]]; try lia.
  destruct stall as [|stall]; try lia.
  unfold stalled_stream.
  rewrite <- (firstn_skipn 14 pre) at 1.
  rewrite map_app, <- app_assoc.
  set (head14 := firstn 14 pre).
  set (tail6 := skipn 14 pre).
  assert (Hh : List.length head14 = 14%nat)
    by (unfold head14; rewrite firstn_length_le; lia).
  assert (Ht : List.length tail6 = 6%nat)
    by (unfold tail6; rewrite length_skipn; lia).
  (* first call: the first fourteen bytes *)
  cbn [sampleFrames]. unfold read14BytesPaket at 1.
  rewrite loop_bytes_full by (try lia; intro E; rewrite E in Hh; discriminate).
  cbn [Z.eqb END_OF_CAPTURE_FILE negb].
  f_equal.
  { replace 14%nat with (0 + List.length head14)%nat at 1 by lia.
    rewrite firstn_store by lia. reflexivity. }
  (* second call: six bytes, the pause, then fourteen bytes *)
  unfold read14BytesPaket at 1.
  rewrite loop_bytes by lia.
  rewrite loop_timeouts.
  rewrite loop_bytes_full by (try lia; intro E; rewrite E in Hpost; discriminate).
  cbn [Z.eqb END_OF_CAPTURE_FILE negb].
  f_equal.
  { replace 14%nat with (0 + List.length post)%nat at 1 by lia.
    rewrite firstn_store by (rewrite !store_length; lia). reflexivity. }
  (* further calls: the stream is exhausted *)
  apply exhausted_no_frame. assumption.
Qed.

Lemma c3_stalled_stream_two_frames_witness :
  sampleFrames 5 (stalled_stream c3_pre c3_post 1 [ReadEof]) c3_buffer
  = [firstn 14 c3_pre; c3_post].
Proof.
  apply (c3_stalled_stream_two_frames c3_pre c3_post 1 5 [ReadEof] c3_buffer);
    solve [reflexivity | vm_compute; lia | left; reflexivity].
Defined.

(** C4 as stated fails: after the decode of a frame with a bad space byte
    fails with -1, the caller's record is not what it was before the call. *)
Lemma c4_previous_record_overwritten :
  decodeFS9922Paket t1 frame_bad_space previous_record
  = Done (-1, set_receivedAt t1 Vc830_zero, None)
  /\ set_receivedAt t1 Vc830_zero <> previous_record.
Proof.
  split.
  - vm_compute. reflexivity.
  - intros H. apply (f_equal (fun r => text (formatedValue r))) in H.
    vm_compute in H. discriminate.
Qed.

(** C4, amended: when decode fails (it returns -1 for a framing byte, -2
    for the sign byte, -3 for a digit byte), no partly built record is
    visible: the caller's record has been overwritten by the cleared
    structure (every field zero, every text empty) carrying only the new time
    stamp, whatever the frame and whatever the record held before; the
    earlier contents are not kept. *)
Theorem c4_failed_decode_leaves_cleared_record :
  forall (now : timeval) (buf : list byte) (old r : Vc830) (ret : Z)
         (ol : option locals),
    decodeFS9922Paket now buf old = Done (ret, r, ol) -> ret <> 0 ->
    r = set_receivedAt now Vc830_zero
    /\ ol = None
    /\ ((ret = -1 /\ framingOk buf = false)
        \/ (ret = -2 /\ framingOk buf = true /\ signOf buf = 0)
        \/ (ret = -3 /\ framingOk buf = true /\ signOf buf <> 0
            /\ isOverflowMark buf = false /\ digitsOk buf = false)).
Proof.
  intros now buf old r ret ol. rewrite decode_closed_form. cbv zeta.
  destruct (framingOk buf); cbn [negb].
  - destruct (Z.eqb_spec (signOf buf) 0) as [Hs|Hs].
    + intros H _. inversion H; subst.
      split; [reflexivity|]. split; [reflexivity|]. right; left. auto.
    + destruct (isOverflowMark buf) eqn:Hm, (digitsOk buf) eqn:Hd;
        cbn [orb negb];
        try (destruct (textsFit buf); [|discriminate];
             intros H Hret; inversion H; subst; contradiction).
      intros H _. inversion H; subst.
      split; [reflexivity|]. split; [reflexivity|]. right; right. auto.
  - intros H _. inversion H; subst.
    split; [reflexivity|]. split; [reflexivity|]. left. auto.
Qed.

Lemma c4_failed_decode_leaves_cleared_record_witness :
  decodeFS9922Paket t1 frame_bad_space previous_record
  = Done (-1, set_receivedAt t1 Vc830_zero, None)
  /\ (set_receivedAt t1 Vc830_zero = set_receivedAt t1 Vc830_zero
      /\ @None locals = None
      /\ ((-1 = -1 /\ framingOk frame_bad_space = false)
          \/ (-1 = -2 /\ framingOk frame_bad_space = true
              /\ signOf frame_bad_space = 0)
          \/ (-1 = -3 /\ framingOk frame_bad_space = true
              /\ signOf frame_bad_space <> 0
              /\ isOverflowMark frame_bad_space = false
              /\ digitsOk frame_bad_space = false))).
Proof.
  split.
  - vm_compute. reflexivity.
  - apply (c4_failed_decode_leaves_cleared_record t1 frame_bad_space
             previous_record (set_receivedAt t1 Vc830_zero) (-1) None).
    + vm_compute. reflexivity.
    + lia.
Defined.

(** C5, at an input where the code departs from it: an overflow frame that
    passes the framing and sign checks and has all eight unit bits set makes
    the decoder append 27 characters to the 20-byte array [vWithUnit]; the
    call runs into undefined behaviour instead of returning a record. *)
Theorem c5_overflow_frame_overruns :
  forall (now : timeval) (old : Vc830),
    framingOk frame_ovf_units = true
    /\ signOf frame_ovf_units = 1
    /\ isOverflowMark frame_ovf_units = true
    /\ strlen (vWithUnitText 1 "OVF" (prefixText frame_ovf_units)
                 (unitText frame_ovf_units)) = 27%nat
    /\ decodeFS9922Paket now frame_ovf_units old = Undefined.
Proof.
  intros now old. repeat split; vm_compute; reflexivity.
Qed.

(** C6, at the input where the code departs from it: the reading "0000"
    without a decimal point decodes successfully, and the loop that strips
    leading zeros strips all four digits; the display text is " V", with an
    empty digit portion. *)
Theorem c6_all_zero_display_has_no_digit :
  forall (now : timeval) (old : Vc830), exists r l,
    decodeFS9922Paket now frame_zero old = Done (0, r, Some l)
    /\ overflow r = false
    /\ sign r = "+"%char
    /\ text (rawRisplay r) = "0000"
    /\ text (prefix r) = ""
    /\ text (unit r) = "V"
    /\ text (formatedValue r) = " V".
Proof.
  intros now old.
  exists (decodedRecord now frame_zero), (decodedLocals frame_zero).
  split.
  - apply decode_fits; vm_compute; congruence.
  - repeat split; vm_compute; reflexivity.
Qed.

(** C7: for a frame without the overflow mark whose four digit bytes are
    decimal digits, the text left in [value] is the four digit characters
    with the point placed by byte 6 alone: after digit 1 for 0x31, after
    digit 2 for 0x32, after digit 3 for 0x33 and for 0x34, and no point for
    any other code; no later step can change it, and when the call returns 0
    this text is the record's digits, with the overflow flag clear. *)
Theorem c7_decimal_point_from_byte6 :
  forall (buf : list byte),
    isOverflowMark buf = false -> digitsOk buf = true ->
    (forall d : Vc830,
        readValue buf d
        = Done (Some (d, mkChars 6 (spec_insertPoint (at_ buf 6) (digitChars buf)),
                      kOf buf)))
    /\ (forall (now : timeval) (old r : Vc830) (ol : option locals),
           decodeFS9922Paket now buf old = Done (0, r, ol) ->
           text (rawRisplay r) = spec_insertPoint (at_ buf 6) (digitChars buf)
           /\ overflow r = false).
Proof.
  intros buf Hm Hd. split.
  - intros d. rewrite readValue_digits by assumption. rewrite Hd.
    unfold kOf. rewrite Hm. reflexivity.
  - intros now old r ol. rewrite decode_closed_form. cbv zeta.
    destruct (framingOk buf); cbn [negb]; [|discriminate].
    destruct (signOf buf =? 0); [discriminate|].
    destruct (isOverflowMark buf || digitsOk buf); cbn [negb]; [|discriminate].
    destruct (textsFit buf); [|discriminate].
    intros H. inversion H; subst; clear H.
    change (text (rawRisplay (decodedRecord now buf))) with (valueText buf).
    change (overflow (decodedRecord now buf)) with (isOverflowMark buf).
    unfold valueText. rewrite Hm. auto.
Qed.

Lemma c7_decimal_point_from_byte6_witness :
  (forall d : Vc830,
      readValue frame_bar d = Done (Some (d, mkChars 6 "123.4", 3)))
  /\ (forall (now : timeval) (old r : Vc830) (ol : option locals),
         decodeFS9922Paket now frame_bar old = Done (0, r, ol) ->
         text (rawRisplay r) = "123.4" /\ overflow r = false).
Proof.
  apply (c7_decimal_point_from_byte6 frame_bar); reflexivity.
Defined.

(** C8: on every frame that decodes successfully, the bar graph is byte 11
    with bit 7 masked off: the low seven bits, hence a value from 0 to 127;
    nothing clamps it to 60, so a frame carrying 75 there gives 75; and no
    value of byte 11 is an error: with any other byte in its place the frame
    still decodes, to that byte's low seven bits. *)
Theorem c8_bar_graph_low_seven_bits :
  forall (now : timeval) (buf : list byte) (old r : Vc830) (ol : option locals),
    decodeFS9922Paket now buf old = Done (0, r, ol) ->
    barGraph r = Z.land (at_ buf 11) 0x7f
    /\ barGraph r = at_ buf 11 mod 128
    /\ 0 <= barGraph r <= 127
    /\ (at_ buf 11 mod 128 = 75 -> barGraph r = 75)
    /\ (forall b : byte, exists r' ol',
           decodeFS9922Paket now (upd 11 b buf) old = Done (0, r', ol')
           /\ barGraph r' = b mod 128).
Proof.
  intros now buf old r ol. rewrite decode_closed_form. cbv zeta.
  destruct (framingOk buf) eqn:Hf; cbn [negb]; [|discriminate].
  destruct (Z.eqb_spec (signOf buf) 0) as [Hs|Hs]; [discriminate|].
  destruct (isOverflowMark buf || digitsOk buf) eqn:Hv; cbn [negb]; [|discriminate].
  destruct (textsFit buf) eqn:Hfit; [|discriminate].
  intros H. inversion H; subst; clear H.
  change (barGraph (decodedRecord now buf)) with (Z.land (at_ buf 11) 0x7f).
  assert (E : forall x, Z.land x 0x7f = x mod 128).
  { intros x. change 0x7f with (Z.ones 7). rewrite Z.land_ones by lia. reflexivity. }
  rewrite E.
  pose proof (Z.mod_pos_bound (at_ buf 11) 128 ltac:(lia)).
  repeat split; auto; try lia.
  intros b.
  destruct (bar_byte_only_in_bar_graph b buf) as (Bf & Bs & Bm & Bd & Bt).
  exists (decodedRecord now (upd 11 b buf)), (Some (decodedLocals (upd 11 b buf))).
  split.
  - apply decode_fits.
    + rewrite Bf. assumption.
    + rewrite Bs. assumption.
    + rewrite Bm, Bd. assumption.
    + rewrite Bt. assumption.
  - change (barGraph (decodedRecord now (upd 11 b buf)))
      with (Z.land (at_ (upd 11 b buf) 11) 0x7f).
    rewrite E, at_upd_same; [reflexivity|].
    unfold framingOk in Hf.
    apply andb_prop in Hf. destruct Hf as [Hf _].
    apply andb_prop in Hf. destruct Hf as [_ Hf].
    apply Z.eqb_eq in Hf.
    assert (H12 : (12 < List.length buf)%nat)
      by (apply at_in_range; rewrite Hf; discriminate).
    lia.
Qed.

Lemma c8_bar_graph_low_seven_bits_witness :
  decodeFS9922Paket t0 frame_bar Vc830_zero
  = Done (0, decodedRecord t0 frame_bar, Some (decodedLocals frame_bar))
  /\ at_ frame_bar 11 = 0xcb
  /\ barGraph (decodedRecord t0 frame_bar) = 75.
Proof.
  assert (H : decodeFS9922Paket t0 frame_bar Vc830_zero
              = Done (0, decodedRecord t0 frame_bar, Some (decodedLocals frame_bar)))
    by (vm_compute; reflexivity).
  split; [exact H|]. split; [reflexivity|].
  apply (c8_bar_graph_low_seven_bits t0 frame_bar Vc830_zero
           (decodedRecord t0 frame_bar) (Some (decodedLocals frame_bar)) H).
  reflexivity.
Defined.

(** Where a call returns at all, it is determined by the frame bytes: any
    other call on the same bytes, at another time and on another output
    structure, returns the same code and the same record, the time stamp
    apart. *)
Lemma decode_same_bytes_same_result (now1 now2 : timeval) (old1 old2 : Vc830)
  (buf : list byte) (ret : Z) (r : Vc830) (ol : option locals) :
  decodeFS9922Paket now1 buf old1 = Done (ret, r, ol) ->
  decodeFS9922Paket now2 buf old2 = Done (ret, set_receivedAt now2 r, ol).
Proof.
  rewrite !decode_closed_form. cbv zeta.
  destruct (framingOk buf); cbn [negb];
    [|intros H; inversion H; reflexivity].
  destruct (signOf buf =? 0); [intros H; inversion H; reflexivity|].
  destruct (isOverflowMark buf || digitsOk buf); cbn [negb];
    [|intros H; inversion H; reflexivity].
  destruct (textsFit buf); [|discriminate].
  intros H; inversion H; reflexivity.
Qed.

(** C9, at an input where the code departs from it: the reading "+1234"
    with all eight unit bits set passes the framing, sign and digit checks,
    but its display text needs 28 characters and its SI text 30, more than
    the 20-byte arrays [vWithUnit] and [vSiWithUnit] hold.  Whatever the
    time and the output structure, a call on these bytes runs into
    undefined behaviour: neither of two calls succeeds with a record, and
    neither fails with an error code. *)
Theorem c9_frame_with_all_units_has_no_result :
  forall (now1 now2 : timeval) (old1 old2 : Vc830),
    framingOk frame_units = true
    /\ signOf frame_units = 1
    /\ isOverflowMark frame_units = false
    /\ digitsOk frame_units = true
    /\ strlen (vWithUnitText 1 "1234" (prefixText frame_units)
                 (unitText frame_units)) = 28%nat
    /\ strlen (vSiWithUnitText (vSiOf 1 "1234" (prefixText frame_units))
                 (unitText frame_units)) = 30%nat
    /\ decodeFS9922Paket now1 frame_units old1 = Undefined
    /\ decodeFS9922Paket now2 frame_units old2 = Undefined.
Proof.
  intros now1 now2 old1 old2. repeat split; vm_compute; reflexivity.
Qed.

(** C10, at an input where the code departs from it: a negative overflow
    frame with prefix k and six unit bits set passes the framing and sign
    checks, but its display text needs 25 characters and its SI text 24, more
    than the 20-byte arrays [vWithUnit] and [vSiWithUnit] hold; the call runs
    into undefined behaviour and produces no SI fields. *)
Theorem c10_overflow_frame_si_text_overruns :
  forall (now : timeval) (old : Vc830),
    framingOk frame_ovf_neg = true
    /\ signOf frame_ovf_neg = -1
    /\ isOverflowMark frame_ovf_neg = true
    /\ vSiOf (-1) "OVF" (prefixText frame_ovf_neg) = (-0)%float
    /\ strlen (vWithUnitText (-1) "OVF" (prefixText frame_ovf_neg)
                 (unitText frame_ovf_neg)) = 25%nat
    /\ strlen (vSiWithUnitText (-0)%float (unitText frame_ovf_neg)) = 24%nat
    /\ decodeFS9922Paket now frame_ovf_neg old = Undefined.
Proof.
  intros now old. repeat split; vm_compute; reflexivity.
Qed.

(** * Further properties of the code *)

(** ** The frame synchroniser on whole streams *)

Section SynchroniserStreams.
Local Open Scope list_scope.

Lemma skipn_upd (n i : nat) (b : byte) (l : list byte) :
  (i < n)%nat -> skipn n (upd i b l) = skipn n l.
Proof.
  revert n i; induction l as [|h t IH]; intros [|n] [|i] H; simpl; try lia; auto.
  apply IH. lia.
Qed.

(** While fewer than fourteen bytes are held, the loop writes below offset
    14 only. *)
Lemma loop_buffer (evs : list io_event) (buf : list byte) (idx : nat) :
  (idx < 14)%nat ->
  List.length (bufferOf (read14BytesPaket_loop evs buf idx)) = List.length buf
  /\ skipn 14 (bufferOf (read14BytesPaket_loop evs buf idx)) = skipn 14 buf.
Proof.
  revert buf idx; induction evs as [|e evs IH]; intros buf idx Hidx.
  - split; reflexivity.
  - destruct e; cbn [read14BytesPaket_loop].
    + split; reflexivity.
    + apply IH. lia.
    + destruct (Nat.eqb_spec (idx + 1) 14) as [E|NE].
      * cbn [bufferOf]. split; [apply upd_length | apply skipn_upd; lia].
      * destruct (IH (upd idx b buf) (idx + 1)%nat ltac:(lia)) as [L S].
        rewrite L, S. split; [apply upd_length | apply skipn_upd; lia].
    + split; reflexivity.
    + destruct (Nat.eqb_spec idx 14) as [E|NE]; [exfalso; lia|].
      apply IH. assumption.
Qed.

(** Two runs of the loop on the same events agree as soon as the buffers
    agree on the bytes already held. *)
Lemma loop_indep (evs : list io_event) (b1 b2 : list byte) (idx : nat) :
  (idx < 14)%nat -> (14 <= List.length b1)%nat -> (14 <= List.length b2)%nat ->
  firstn idx b1 = firstn idx b2 ->
  match read14BytesPaket_loop evs b1 idx, read14BytesPaket_loop evs b2 idx with
  | Returned r1 c1 e1, Returned r2 c2 e2 =>
      r1 = r2 /\ e1 = e2 /\ (r1 = 0 -> firstn 14 c1 = firstn 14 c2)
  | Waiting _ i1, Waiting _ i2 => i1 = i2
  | _, _ => False
  end.
Proof.
  revert b1 b2 idx; induction evs as [|e evs IH]; intros b1 b2 idx Hidx L1 L2 Hf.
  - reflexivity.
  - destruct e; cbn [read14BytesPaket_loop].
    + repeat split. discriminate.
    + apply IH; auto; lia.
    + assert (Hf' : firstn (idx + 1) (upd idx b b1) = firstn (idx + 1) (upd idx b b2)).
      { rewrite Nat.add_1_r, !firstn_upd by lia. rewrite Hf. reflexivity. }
      destruct (Nat.eqb_spec (idx + 1) 14) as [E|NE].
      * repeat split. intros _. rewrite <- E. exact Hf'.
      * apply IH; auto; try lia; rewrite upd_length; assumption.
    + repeat split. discriminate.
    + destruct (Nat.eqb_spec idx 14) as [E|NE]; [exfalso; lia|].
      apply IH; assumption.
Qed.


(** A frame is an unbroken run: the shape of the events a successful call
    has consumed. *)
Lemma loop_run (evs : list io_event) (buf : list byte) (idx : nat)
  (buf' : list byte) (rest : list io_event) :
  (idx < 14)%nat -> (14 <= List.length buf)%nat ->
  read14BytesPaket_loop evs buf idx = Returned 0 buf' rest ->
  exists before run,
    evs = before ++ run ++ rest
    /\ forallb readAttempt run = true
    /\ ((before = [] /\ firstn 14 buf' = firstn idx buf ++ bytesOf run)
        \/ ((exists b0, before = b0 ++ [SelectTimeout])
            /\ firstn 14 buf' = bytesOf run)).
Proof.
  revert buf idx; induction evs as [|e evs IH]; intros buf idx Hidx Hlen H.
  - discriminate.
  - destruct e; cbn [read14BytesPaket_loop] in H.
    + discriminate.
    + destruct (IH buf 0%nat ltac:(lia) Hlen H) as (before & run & E & Hr & Hc).
      exists (SelectTimeout :: before), run. split; [rewrite E; reflexivity|].
      split; [assumption|]. right.
      destruct Hc as [[-> Hb] | [[b0 ->] Hb]].
      * split; [exists []; reflexivity | exact Hb].
      * split; [exists (SelectTimeout :: b0); reflexivity | exact Hb].
    + destruct (Nat.eqb_spec (idx + 1) 14) as [E|NE].
      * inversion H; subst buf' rest; clear H.
        exists [], [ReadByte b]. split; [reflexivity|]. split; [reflexivity|].
        left. split; [reflexivity|].
        rewrite <- E, Nat.add_1_r. apply firstn_upd. lia.
      * destruct (IH (upd idx b buf) (idx + 1)%nat ltac:(lia)
                    ltac:(rewrite upd_length; lia) H)
          as (before & run & E & Hr & Hc).
        destruct Hc as [[-> Hb] | [[b0 ->] Hb]].
        -- exists [], (ReadByte b :: run). split; [rewrite E; reflexivity|].
           split; [exact Hr|]. left. split; [reflexivity|].
           rewrite Hb, Nat.add_1_r, firstn_upd by lia.
           rewrite <- app_assoc. reflexivity.
        -- exists (ReadByte b :: b0 ++ [SelectTimeout]), run.
           split; [rewrite E; reflexivity|]. split; [exact Hr|].
           right. split; [exists (ReadByte b :: b0); reflexivity | exact Hb].
    + discriminate.
    + destruct (Nat.eqb_spec idx 14) as [E|NE]; [exfalso; lia|].
      destruct (IH buf idx Hidx Hlen H) as (before & run & E & Hr & Hc).
      destruct Hc as [[-> Hb] | [[b0 ->] Hb]].
      * exists [], (ReadFailed :: run). split; [rewrite E; reflexivity|].
        split; [exact Hr|]. left. split; [reflexivity | exact Hb].
      * exists (ReadFailed :: b0 ++ [SelectTimeout]), run.
        split; [rewrite E; reflexivity|]. split; [exact Hr|].
        right. split; [exists (ReadFailed :: b0); reflexivity | exact Hb].
Qed.

End SynchroniserStreams.

Lemma store_app_skipn (bs buf : list byte) (idx : nat) :
  (idx + List.length bs <= List.length buf)%nat ->
  store idx bs buf
  = (firstn idx buf ++ bs ++ skipn (idx + List.length bs) buf)%list.
Proof.
  revert buf idx; induction bs as [|b bs IH]; intros buf idx Hlen.
  - cbn [store List.length app]. rewrite Nat.add_0_r, firstn_skipn. reflexivity.
  - cbn [store List.length] in *.
    rewrite IH by (rewrite upd_length; lia).
    rewrite firstn_upd by lia.
    replace (S idx + List.length bs)%nat with (idx + S (List.length bs))%nat by lia.
    rewrite skipn_upd by lia.
    rewrite <- app_assoc. reflexivity.
Qed.

(** X1: on a capture file one call of [read14BytesPaket] takes the next
    fourteen bytes and no more.  With fourteen bytes or more in the file it
    returns 0, the first fourteen bytes of the file are the first fourteen
    of the buffer, the buffer is otherwise as it was, and the rest of the
    file is left for the next call.  With fewer bytes in the file it returns
    END_OF_CAPTURE_FILE after storing them all. *)
Theorem x1_read_takes_the_next_fourteen_bytes_of_a_capture :
  forall (bs readBuffer : list byte),
    (14 <= List.length readBuffer)%nat ->
    read14BytesPaket (capture bs) readBuffer
    = if (14 <=? List.length bs)%nat
      then Returned 0 (firstn 14 bs ++ skipn 14 readBuffer)%list
             (capture (skipn 14 bs))
      else Returned END_OF_CAPTURE_FILE
             (bs ++ skipn (List.length bs) readBuffer)%list [].
Proof.
  intros bs buf Hbuf. unfold read14BytesPaket, capture.
  destruct (Nat.leb_spec 14 (List.length bs)) as [Hle|Hlt].
  - rewrite <- (firstn_skipn 14 bs) at 1.
    rewrite map_app, <- app_assoc.
    assert (Hh : List.length (firstn 14 bs) = 14%nat)
      by (rewrite firstn_length_le; lia).
    rewrite loop_bytes_full
      by (try lia; intro E; rewrite E in Hh; discriminate).
    rewrite store_app_skipn by lia. rewrite Hh. reflexivity.
  - rewrite loop_bytes by lia. cbn [read14BytesPaket_loop app].
    rewrite store_app_skipn by lia. reflexivity.
Qed.

Lemma x1_read_takes_the_next_fourteen_bytes_of_a_capture_witness :
  read14BytesPaket (capture (c3_pre ++ [1; 2; 3])%list) c3_buffer
  = Returned 0 (firstn 14 c3_pre ++ skipn 14 c3_buffer)%list
      (capture (skipn 14 c3_pre ++ [1; 2; 3])%list)
  /\ read14BytesPaket (capture [1; 2; 3]) c3_buffer
     = Returned END_OF_CAPTURE_FILE ([1; 2; 3] ++ skipn 3 c3_buffer)%list [].
Proof.
  split.
  - rewrite (x1_read_takes_the_next_fourteen_bytes_of_a_capture
               (c3_pre ++ [1; 2; 3])%list c3_buffer).
    + reflexivity.
    + vm_compute. lia.
  - rewrite (x1_read_takes_the_next_fourteen_bytes_of_a_capture [1; 2; 3] c3_buffer).
    + reflexivity.
    + vm_compute. lia.
Defined.

(** X3: whatever the line delivers, and however the call ends, a call of
    [read14BytesPaket] leaves the buffer with its length and never writes at
    offset 14 or beyond: the index is reset or the call returns before it
    could reach 14. *)
Theorem x3_read_writes_first_fourteen_bytes_only :
  forall (evs : list io_event) (readBuffer : list byte),
    List.length (bufferOf (read14BytesPaket evs readBuffer)) = List.length readBuffer
    /\ skipn 14 (bufferOf (read14BytesPaket evs readBuffer)) = skipn 14 readBuffer.
Proof.
  intros evs buf. unfold read14BytesPaket. apply loop_buffer. lia.
Qed.

(** X4: when [read14BytesPaket] returns 0, the frame in the first fourteen
    bytes of the buffer is an unbroken run: the events the call consumed end
    with a run of read attempts, free of timeouts, that delivered exactly
    these fourteen bytes in order, and that run starts with the call or
    right after a timeout; failed reads inside the run are skipped. *)
Theorem x4_frame_is_unbroken_run_of_fourteen_bytes :
  forall (evs rest : list io_event) (readBuffer readBuffer' : list byte),
    (14 <= List.length readBuffer)%nat ->
    read14BytesPaket evs readBuffer = Returned 0 readBuffer' rest ->
    exists before run,
      evs = (before ++ run ++ rest)%list
      /\ forallb readAttempt run = true
      /\ bytesOf run = firstn 14 readBuffer'
      /\ List.length (bytesOf run) = 14%nat
      /\ (before = [] \/ exists b0, before = (b0 ++ [SelectTimeout])%list).
Proof.
  intros evs rest buf buf' Hlen H. unfold read14BytesPaket in H.
  pose proof (loop_buffer evs buf 0 ltac:(lia)) as [L _].
  rewrite H in L. cbn [bufferOf] in L.
  destruct (loop_run evs buf 0 buf' rest ltac:(lia) Hlen H)
    as (before & run & E & Hr & Hc).
  exists before, run.
  assert (Hb : bytesOf run = firstn 14 buf').
  { destruct Hc as [[_ Hb] | [_ Hb]]; rewrite Hb; reflexivity. }
  split; [exact E|]. split; [exact Hr|]. split; [exact Hb|].
  split; [rewrite Hb, firstn_length_le; lia|].
  destruct Hc as [[-> _] | [Hx _]]; [left; reflexivity | right; exact Hx].
Qed.

Lemma x4_frame_is_unbroken_run_of_fourteen_bytes_witness :
  exists before run,
    stalled_stream (firstn 6 c3_pre) c3_post 1 [ReadEof]
    = (before ++ run ++ [ReadEof])%list
    /\ forallb readAttempt run = true
    /\ bytesOf run = firstn 14 (store 0 c3_post (store 0 (firstn 6 c3_pre) c3_buffer))
    /\ List.length (bytesOf run) = 14%nat
    /\ (before = [] \/ exists b0, before = (b0 ++ [SelectTimeout])%list).
Proof.
  apply (x4_frame_is_unbroken_run_of_fourteen_bytes
           (stalled_stream (firstn 6 c3_pre) c3_post 1 [ReadEof]) [ReadEof]
           c3_buffer (store 0 c3_post (store 0 (firstn 6 c3_pre) c3_buffer))).
  - vm_compute. lia.
  - vm_compute. reflexivity.
Defined.

(** ** The decoder reads fourteen bytes *)

Local Transparent appendLabel.

Lemma at_firstn (n i : nat) (buf : list byte) :
  (i < n)%nat -> at_ (firstn n buf) i = at_ buf i.
Proof.
  unfold at_. revert i buf; induction n as [|n IH]; intros i buf Hi; [lia|].
  destruct buf as [|h t]; [destruct i; reflexivity|].
  destruct i as [|i]; cbn [firstn nth]; [reflexivity | apply IH; lia].
Qed.

Lemma at_agree (b1 b2 : list byte) (i : nat) :
  firstn 14 b1 = firstn 14 b2 -> (i < 14)%nat -> at_ b1 i = at_ b2 i.
Proof.
  intros H Hi. rewrite <- (at_firstn 14 i b1), <- (at_firstn 14 i b2) by assumption.
  rewrite H. reflexivity.
Qed.

Ltac status_index :=
  cbn [Z.add Z.sub Z.opp Z.pos_sub Z.to_nat Pos.add Pos.succ Pos.to_nat
       Pos.iter_op Nat.add Pos.pred_double Pos.double_mask Pos.sub_mask
       Z.succ_double Z.pred_double Z.double Init.Nat.add].

Lemma parts_agree (b1 b2 : list byte) :
  firstn 14 b1 = firstn 14 b2 ->
  framingOk b1 = framingOk b2 /\ signOf b1 = signOf b2
  /\ isOverflowMark b1 = isOverflowMark b2 /\ digitsOk b1 = digitsOk b2
  /\ valueText b1 = valueText b2 /\ kOf b1 = kOf b2
  /\ modeText b1 = modeText b2 /\ prefixText b1 = prefixText b2
  /\ unitText b1 = unitText b2 /\ infoText b1 = infoText b2
  /\ (forall d, statusFlags b1 d = statusFlags b2 d)
  /\ at_ b1 11 = at_ b2 11.
Proof.
  intros H.
  unfold framingOk, signOf, valueText, kOf, isOverflowMark, digitsOk, digitChars,
    modeText, prefixText, unitText, infoText, statusFlags, statusBitSet.
  status_index.
  repeat rewrite (at_agree b1 b2 _ H) by lia.
  repeat split.
Qed.

Lemma decoded_agree (now : timeval) (b1 b2 : list byte) :
  firstn 14 b1 = firstn 14 b2 ->
  decodedLocals b1 = decodedLocals b2 /\ decodedRecord now b1 = decodedRecord now b2
  /\ textsFit b1 = textsFit b2.
Proof.
  intros H.
  destruct (parts_agree b1 b2 H)
    as (_ & Es & Em & _ & Ev & Ek & Emo & Ep & Eu & Ei & Ef & Eb).
  assert (El : decodedLocals b1 = decodedLocals b2).
  { unfold decodedLocals. rewrite Es, Ev, Ek, Emo, Ep, Eu, Ei, Eb. reflexivity. }
  split; [exact El|]. split.
  - unfold decodedRecord. rewrite El, Ef, Em. reflexivity.
  - unfold textsFit. rewrite Es, Ev, Ep, Eu. reflexivity.
Qed.

Lemma decode_agree (now : timeval) (b1 b2 : list byte) (old1 old2 : Vc830) :
  firstn 14 b1 = firstn 14 b2 ->
  decodeFS9922Paket now b1 old1 = decodeFS9922Paket now b2 old2.
Proof.
  intros H. rewrite !decode_closed_form. cbv zeta.
  destruct (parts_agree b1 b2 H) as (Ef & Es & Em & Ed & _).
  destruct (decoded_agree now b1 b2 H) as (El & Er & Et).
  rewrite Ef, Es, Em, Ed, El, Er, Et. reflexivity.
Qed.

(** X5: the decoder looks at the first fourteen bytes of the buffer it is
    given and at nothing else: two buffers that agree there decode alike,
    so bytes left further up in the 100-byte [readBuffer] never reach a
    record. *)
Theorem x5_decode_reads_first_fourteen_bytes_only :
  forall (now : timeval) (b1 b2 : list byte) (old : Vc830),
    firstn 14 b1 = firstn 14 b2 ->
    decodeFS9922Paket now b1 old = decodeFS9922Paket now b2 old.
Proof.
  intros now b1 b2 old H. apply decode_agree. exact H.
Qed.

Lemma x5_decode_reads_first_fourteen_bytes_only_witness :
  decodeFS9922Paket t1 (frame_example ++ repeat 0x2d 86)%list Vc830_zero
  = decodeFS9922Paket t1 frame_example Vc830_zero.
Proof.
  apply (x5_decode_reads_first_fourteen_bytes_only t1
           (frame_example ++ repeat 0x2d 86)%list frame_example Vc830_zero).
  reflexivity.
Defined.

(** ** The three checks *)

(** X6: a frame that fails a check is rejected with the code of the first
    check it fails, in the order framing (-1), sign (-2), digits (-3), and
    the call is then always defined: no text has been built yet.  The value
    returned is never anything but 0, -1, -2 or -3. *)
Theorem x6_first_failing_check_decides_the_code :
  forall (now : timeval) (buf : list byte) (old : Vc830),
    (framingOk buf = false ->
     decodeFS9922Paket now buf old = Done (-1, set_receivedAt now Vc830_zero, None))
    /\ (framingOk buf = true -> signOf buf = 0 ->
        decodeFS9922Paket now buf old = Done (-2, set_receivedAt now Vc830_zero, None))
    /\ (framingOk buf = true -> signOf buf <> 0 ->
        isOverflowMark buf = false -> digitsOk buf = false ->
        decodeFS9922Paket now buf old = Done (-3, set_receivedAt now Vc830_zero, None))
    /\ (forall ret r ol,
           decodeFS9922Paket now buf old = Done (ret, r, ol) ->
           ret = 0 \/ ret = -1 \/ ret = -2 \/ ret = -3).
Proof.
  intros now buf old. rewrite decode_closed_form. cbv zeta.
  repeat split.
  - intros ->. reflexivity.
  - intros -> ->. reflexivity.
  - intros -> Hs -> ->.
    destruct (Z.eqb_spec (signOf buf) 0) as [E|_]; [contradiction | reflexivity].
  - intros ret r ol.
    destruct (framingOk buf); cbn [negb]; [|intros H; inversion H; auto].
    destruct (signOf buf =? 0); [intros H; inversion H; auto|].
    destruct (isOverflowMark buf || digitsOk buf); cbn [negb];
      [|intros H; inversion H; auto].
    destruct (textsFit buf); [intros H; inversion H; auto | discriminate].
Qed.

Lemma x6_first_failing_check_decides_the_code_witness :
  decodeFS9922Paket t1 frame_bad_space previous_record
  = Done (-1, set_receivedAt t1 Vc830_zero, None).
Proof.
  apply (x6_first_failing_check_decides_the_code t1 frame_bad_space previous_record).
  reflexivity.
Defined.

(** ** The label texts *)

Lemma joined_cons (a b : string) (l : list string) :
  joined (a :: b :: l) = a ++ " " ++ joined (b :: l).
Proof. reflexivity. Qed.

Lemma joined_nonempty (a : string) (l : list string) :
  nonempty a -> nonempty (joined (a :: l)).
Proof.
  unfold nonempty. intros Ha. destruct l as [|b l].
  - exact Ha.
  - rewrite joined_cons, append_length. lia.
Qed.

Lemma joined_snoc (l : list string) (x : string) :
  Forall nonempty l ->
  appendLabel true x (joined l) = joined (l ++ [x])%list.
Proof.
  unfold appendLabel.
  induction l as [|a l IH]; intros Hl; [reflexivity|].
  inversion Hl as [|a' l' Ha Hl']; subst.
  pose proof (joined_nonempty a l Ha) as Hn. unfold nonempty in Hn.
  destruct (Nat.eqb_spec (strlen (joined (a :: l))) 0) as [E|_]; [contradiction|].
  destruct l as [|b l].
  - cbn [app]. rewrite joined_cons.
    change (joined [a]) with a. change (joined [x]) with x. apply append_assoc.
  - specialize (IH Hl'). inversion Hl' as [|b' l'' Hb _]; subst.
    pose proof (joined_nonempty b l Hb) as Hn'. unfold nonempty in Hn'.
    destruct (Nat.eqb_spec (strlen (joined (b :: l))) 0) as [E|_]; [contradiction|].
    change ((a :: b :: l) ++ [x])%list with (a :: b :: (l ++ [x]))%list.
    rewrite !joined_cons.
    change (b :: (l ++ [x]))%list with ((b :: l) ++ [x])%list.
    rewrite <- IH. rewrite !append_assoc. reflexivity.
Qed.

(** One array after the calls of its table, started from the labels [l0]. *)
Lemma fold_labels (buf : list byte) (table : list (Z * Z * string))
  (l0 : list string) :
  Forall nonempty l0 -> Forall nonempty (map snd table) ->
  fold_left (fun s e => appendLabel (statusBitSet buf (fst (fst e)) (snd (fst e)))
                          (snd e) s) table (joined l0)
  = joined (l0 ++ labelsOf table buf)%list.
Proof.
  revert l0; induction table as [|e table IH]; intros l0 H0 Ht.
  - cbn. rewrite app_nil_r. reflexivity.
  - inversion Ht as [|x xs Hx Hxs]; subst.
    cbn [fold_left]. unfold labelsOf. cbn [filter].
    destruct (statusBitSet buf (fst (fst e)) (snd (fst e))).
    + rewrite joined_snoc by assumption.
      rewrite IH; [| apply Forall_app; split; [assumption | repeat constructor; assumption]
                   | assumption ].
      unfold labelsOf. cbn [map]. rewrite <- app_assoc. reflexivity.
    + cbn [appendLabel]. unfold appendLabel at 1. apply IH; assumption.
Qed.

Ltac table_nonempty :=
  repeat constructor; unfold nonempty; cbn; discriminate.

Ltac table_joined t :=
  match goal with
  | |- _ = joined (labelsOf t ?buf) =>
      let E := fresh "E" in
      assert (E : joined ([] ++ labelsOf t buf)%list = joined (labelsOf t buf))
        by reflexivity;
      rewrite <- E, <- fold_labels; [reflexivity | constructor | table_nonempty]
  end.

Lemma modeText_joined (buf : list byte) :
  modeText buf = joined (labelsOf modeTable buf).
Proof.
  table_joined modeTable.
Qed.

Lemma prefixText_joined (buf : list byte) :
  prefixText buf = joined (labelsOf prefixTable buf).
Proof.
  table_joined prefixTable.
Qed.

Lemma unitText_joined (buf : list byte) :
  unitText buf = joined (labelsOf unitTable buf).
Proof.
  table_joined unitTable.
Qed.

Lemma infoText_joined (buf : list byte) :
  infoText buf = joined (labelsOf infoTable buf).
Proof.
  table_joined infoTable.
Qed.

(** What a call that returns 0 has decoded. *)
Lemma decode_Done_0 (now : timeval) (buf : list byte) (old r : Vc830)
  (ol : option locals) :
  decodeFS9922Paket now buf old = Done (0, r, ol) ->
  framingOk buf = true /\ signOf buf <> 0
  /\ isOverflowMark buf || digitsOk buf = true /\ textsFit buf = true
  /\ r = decodedRecord now buf /\ ol = Some (decodedLocals buf).
Proof.
  rewrite decode_closed_form. cbv zeta.
  destruct (framingOk buf); cbn [negb]; [|discriminate].
  destruct (Z.eqb_spec (signOf buf) 0) as [E|NE]; [discriminate|].
  destruct (isOverflowMark buf || digitsOk buf); cbn [negb]; [|discriminate].
  destruct (textsFit buf); [|discriminate].
  intros H. inversion H; subst. auto 10.
Qed.

(** X7: in every record decoded with 0, each of the texts [mode], [prefix],
    [unit] and [info] is the list of the labels whose status bit is set, in
    the order of the calls of [checkInfo], separated by single spaces, with
    no space in front or behind; [fullUnit] is [prefix] followed directly by
    [unit]. *)
Theorem x7_label_texts_are_space_joined_tables :
  forall (now : timeval) (buf : list byte) (old r : Vc830) (ol : option locals),
    decodeFS9922Paket now buf old = Done (0, r, ol) ->
    text (mode r) = joined (labelsOf modeTable buf)
    /\ text (prefix r) = joined (labelsOf prefixTable buf)
    /\ text (unit r) = joined (labelsOf unitTable buf)
    /\ text (info r) = joined (labelsOf infoTable buf)
    /\ text (fullUnit r) = text (prefix r) ++ text (unit r).
Proof.
  intros now buf old r ol H.
  apply decode_Done_0 in H. destruct H as (_ & _ & _ & _ & -> & _).
  change (text (mode (decodedRecord now buf))) with (modeText buf).
  change (text (prefix (decodedRecord now buf))) with (prefixText buf).
  change (text (unit (decodedRecord now buf))) with (unitText buf).
  change (text (info (decodedRecord now buf))) with (infoText buf).
  change (text (fullUnit (decodedRecord now buf)))
    with (prefixText buf ++ unitText buf).
  rewrite <- modeText_joined, <- prefixText_joined, <- unitText_joined,
    <- infoText_joined.
  repeat split.
Qed.

Lemma x7_label_texts_are_space_joined_tables_witness :
  text (mode (decodedRecord t0 frame_hold)) = joined ["DC"; "HOLD"]
  /\ text (prefix (decodedRecord t0 frame_hold)) = joined ["m"]
  /\ text (unit (decodedRecord t0 frame_hold)) = joined ["V"]
  /\ text (info (decodedRecord t0 frame_hold)) = joined ["AUTO"; "Bat"]
  /\ text (fullUnit (decodedRecord t0 frame_hold))
     = text (prefix (decodedRecord t0 frame_hold))
       ++ text (unit (decodedRecord t0 frame_hold)).
Proof.
  apply (x7_label_texts_are_space_joined_tables t0 frame_hold Vc830_zero
           (decodedRecord t0 frame_hold) (Some (decodedLocals frame_hold))).
  vm_compute. reflexivity.
Defined.

(** ** Every reading of a frame of digits *)

(** *** Texts and lists of characters *)

Lemma string_of_list_ascii_app (l1 l2 : list ascii) :
  string_of_list_ascii (l1 ++ l2)%list
  = string_of_list_ascii l1 ++ string_of_list_ascii l2.
Proof.
  induction l1 as [|a l1 IH]; cbn; [reflexivity | now rewrite IH].
Qed.

Lemma list_ascii_of_string_app (s1 s2 : string) :
  list_ascii_of_string (s1 ++ s2)
  = (list_ascii_of_string s1 ++ list_ascii_of_string s2)%list.
Proof.
  induction s1 as [|a s1 IH]; cbn; [reflexivity | now rewrite IH].
Qed.

Lemma string_of_list_ascii_length (l : list ascii) :
  strlen (string_of_list_ascii l) = List.length l.
Proof.
  unfold strlen. induction l as [|a l IH]; cbn; [reflexivity | now rewrite IH].
Qed.

Lemma allDigits_list (s : string) :
  allDigits s = forallb isDigitChar (list_ascii_of_string s).
Proof.
  induction s as [|c s IH]; cbn; [reflexivity | now rewrite IH].
Qed.

Lemma allDigits_of_list (l : list ascii) :
  allDigits (string_of_list_ascii l) = forallb isDigitChar l.
Proof.
  rewrite allDigits_list, list_ascii_of_string_of_list_ascii. reflexivity.
Qed.

Lemma jsonSafe_app (a b : string) : jsonSafe (a ++ b) = jsonSafe a && jsonSafe b.
Proof.
  induction a as [|c a IH]; cbn [append jsonSafe]; [reflexivity|].
  rewrite IH, andb_assoc. reflexivity.
Qed.

Lemma digit_char (c : ascii) :
  isDigitChar c = true ->
  jsonSafeChar c = true /\ Ascii.eqb c "." = false /\ Ascii.eqb c "-" = false.
Proof.
  unfold isDigitChar, isdigit, jsonSafeChar. intros H.
  apply andb_prop in H. destruct H as [H1 H2].
  apply Z.leb_le in H1. apply Z.leb_le in H2.
  split; [|split].
  - cbv zeta.
    destruct (Z.leb_spec 32 (Z.of_N (N_of_ascii c))); [|exfalso; lia].
    destruct (Z.eqb_spec (Z.of_N (N_of_ascii c)) 34); [exfalso; lia|].
    destruct (Z.eqb_spec (Z.of_N (N_of_ascii c)) 92); [exfalso; lia|].
    reflexivity.
  - destruct (Ascii.eqb_spec c "."); [subst c; cbn in H1; lia | reflexivity].
  - destruct (Ascii.eqb_spec c "-"); [subst c; cbn in H1; lia | reflexivity].
Qed.

Lemma allDigits_safe (s : string) : allDigits s = true -> jsonSafe s = true.
Proof.
  induction s as [|c s IH]; cbn [allDigits jsonSafe]; [reflexivity|].
  intros H. apply andb_prop in H. destruct H as [Hc Hs].
  destruct (digit_char c Hc) as [-> _]. rewrite (IH Hs). reflexivity.
Qed.

Lemma substring_short (s : string) (n : nat) :
  (strlen s <= n)%nat -> substring 0 n s = s.
Proof.
  unfold strlen. revert n; induction s as [|c s IH]; intros n Hn.
  - destruct n; reflexivity.
  - destruct n as [|n]; cbn in Hn; [lia|].
    cbn [substring]. rewrite IH by lia. reflexivity.
Qed.

Lemma trimZeros_rev_cons (c : ascii) (rest : list ascii) :
  trimZeros_rev (c :: rest)
  = if negb (Ascii.eqb c "0") then c :: rest
    else match rest with
         | d :: _ => if Ascii.eqb d "." then c :: rest else trimZeros_rev rest
         | [] => []
         end.
Proof.
  cbn [trimZeros_rev]. destruct (Ascii.eqb c "0"); cbn [negb]; [|reflexivity].
  destruct rest as [|d rest']; [reflexivity|].
  destruct d as [[] [] [] [] [] [] [] []]; reflexivity.
Qed.
(** ** Decimal texts *)

Lemma string_of_uint_empty (d : Decimal.uint) :
  allDigits (NilEmpty.string_of_uint d) = true
  /\ strlen (NilEmpty.string_of_uint d) = Decimal.nb_digits d.
Proof.
  unfold strlen. induction d;
    cbn [NilEmpty.string_of_uint allDigits String.length Decimal.nb_digits];
    try (split; reflexivity);
    destruct IHd as [IH1 IH2]; rewrite IH1, IH2; split; reflexivity.
Qed.

Lemma string_of_uint_digits (d : Decimal.uint) :
  d <> Decimal.Nil ->
  allDigits (NilZero.string_of_uint d) = true
  /\ strlen (NilZero.string_of_uint d) = Decimal.nb_digits d.
Proof.
  intros Hd. destruct d; [contradiction| | | | | | | | | |];
    apply string_of_uint_empty.
Qed.

Lemma of_uint_acc_lower (l : Decimal.uint) (acc : positive) :
  Zpos acc * 10 ^ Z.of_nat (Decimal.nb_digits l) <= Zpos (Pos.of_uint_acc l acc).
Proof.
  revert acc; induction l; intros acc;
    cbn [Pos.of_uint_acc Decimal.nb_digits];
    try (rewrite Z.pow_0_r; lia);
    rewrite Nat2Z.inj_succ, Z.pow_succ_r by lia;
    (eapply Z.le_trans; [|apply IHl]);
    assert (0 < 10 ^ Z.of_nat (Decimal.nb_digits l)) by (apply Z.pow_pos_nonneg; lia);
    nia.
Qed.

Lemma to_uint_normal (p : positive) :
  Decimal.nzhead (Pos.to_uint p) = Pos.to_uint p.
Proof.
  pose proof (DecimalPos.Unsigned.to_of (Pos.to_uint p)) as H.
  rewrite DecimalPos.Unsigned.of_to in H. cbn [N.to_uint] in H.
  pose proof (DecimalPos.Unsigned.to_uint_nonzero p) as Hz.
  unfold Decimal.unorm in H.
  destruct (Decimal.nzhead (Pos.to_uint p)) eqn:E; try (symmetry; exact H).
  exfalso. apply Hz. exact H.
Qed.

(** The decimal digits of a number below 10^k are at most k. *)
Lemma to_uint_digits (n : N) (k : nat) :
  (1 <= k)%nat -> Z.of_N n < 10 ^ Z.of_nat k ->
  (1 <= Decimal.nb_digits (N.to_uint n) <= k)%nat.
Proof.
  intros Hk Hn. destruct n as [|p]; [cbn; lia|].
  cbn [N.to_uint].
  pose proof (to_uint_normal p) as Hnz.
  pose proof (DecimalPos.Unsigned.of_to p) as Hof.
  pose proof (DecimalPos.Unsigned.to_uint_nonnil p) as Hnil.
  destruct (Pos.to_uint p) as [|l|l|l|l|l|l|l|l|l|l] eqn:E; [contradiction| | | | | | | | | |];
    cbn [Decimal.nb_digits];
    try (cbn [Pos.of_uint] in Hof; injection Hof as Hof;
         match goal with
         | Hof : Pos.of_uint_acc l ?a = p |- _ =>
             pose proof (of_uint_acc_lower l a) as Hl; rewrite Hof in Hl
         end;
         assert (Hlt : 10 ^ Z.of_nat (Decimal.nb_digits l) < 10 ^ Z.of_nat k)
           by (change (Z.of_N (N.pos p)) with (Zpos p) in Hn; lia);
         apply Z.pow_lt_mono_r_iff in Hlt; lia).
  (* a leading zero is not normal *)
  exfalso. cbn [Decimal.nzhead] in Hnz.
  pose proof (DecimalFacts.nb_digits_nzhead l) as Hd. rewrite Hnz in Hd.
  cbn [Decimal.nb_digits] in Hd. lia.
Qed.

Lemma dec_digits (n : Z) (k : nat) :
  (1 <= k)%nat -> 0 <= n < 10 ^ Z.of_nat k ->
  allDigits (dec n) = true /\ (1 <= strlen (dec n) <= k)%nat.
Proof.
  intros Hk Hn. unfold dec.
  assert (Hb : (1 <= Decimal.nb_digits (N.to_uint (Z.to_N n)) <= k)%nat)
    by (apply to_uint_digits; [exact Hk | rewrite Z2N.id by lia; lia]).
  destruct (string_of_uint_digits (N.to_uint (Z.to_N n))) as [H1 H2].
  { intros E. rewrite E in Hb. cbn in Hb. lia. }
  split; [exact H1|]. rewrite H2. exact Hb.
Qed.

Lemma zeros_digits (n : nat) : allDigits (zeros n) = true /\ strlen (zeros n) = n.
Proof.
  unfold strlen. induction n as [|n [IH1 IH2]]; [split; reflexivity|].
  cbn [zeros allDigits String.length]. rewrite IH1, IH2. split; reflexivity.
Qed.

Lemma allDigits_app (a b : string) :
  allDigits (a ++ b) = allDigits a && allDigits b.
Proof.
  induction a as [|c a IH]; cbn [append allDigits]; [reflexivity|].
  rewrite IH, andb_assoc. reflexivity.
Qed.

(** The six decimals [printf_f] prints. *)
Lemma pad6_digits (n : Z) :
  0 <= n < 10 ^ 6 -> allDigits (pad6 n) = true /\ strlen (pad6 n) = 6%nat.
Proof.
  intros Hn. unfold pad6. cbv zeta.
  destruct (dec_digits n 6 ltac:(lia) Hn) as [H1 H2].
  destruct (zeros_digits (6 - strlen (dec n))) as [Z1 Z2].
  rewrite allDigits_app, append_length, H1, Z1, Z2. split; [reflexivity | lia].
Qed.

(** ** Rounding to millionths *)

Lemma round_near (a d T : Z) :
  0 < d -> 2 * Z.abs (a - T * d) < d -> round_half_even a d = T.
Proof.
  intros Hd H. unfold round_half_even.
  destruct (Z_le_gt_dec (T * d) a) as [Hle|Hgt].
  - assert (Eq : a / d = T)
      by (symmetry; apply (Z.div_unique a d T (a - T * d)); lia).
    assert (Er : a mod d = a - T * d)
      by (symmetry; apply (Z.mod_unique a d T (a - T * d)); lia).
    rewrite Eq, Er.
    destruct (Z.ltb_spec (2 * (a - T * d)) d); [reflexivity | exfalso; lia].
  - assert (Eq : a / d = T - 1)
      by (symmetry; apply (Z.div_unique a d (T - 1) (a - (T - 1) * d)); lia).
    assert (Er : a mod d = a - (T - 1) * d)
      by (symmetry; apply (Z.mod_unique a d (T - 1) (a - (T - 1) * d)); lia).
    rewrite Eq, Er.
    destruct (Z.ltb_spec (2 * (a - (T - 1) * d)) d); [exfalso; lia|].
    destruct (Z.ltb_spec d (2 * (a - (T - 1) * d))); [lia | exfalso; lia].
Qed.

Lemma round_bound (a d B : Z) :
  0 < d -> 0 <= a <= B * d -> 0 <= round_half_even a d <= B.
Proof.
  intros Hd Ha. unfold round_half_even.
  pose proof (Z.div_mod a d ltac:(lia)) as E.
  pose proof (Z.mod_pos_bound a d Hd) as Hr.
  assert (Hq : 0 <= a / d) by (apply Z.div_pos; lia).
  assert (Hq' : a / d <= B) by (apply Z.div_le_upper_bound; lia).
  destruct (Z.ltb_spec (2 * (a mod d)) d); [lia|].
  assert (a / d < B) by nia.
  destruct (Z.ltb_spec d (2 * (a mod d))); [lia|].
  destruct (Z.even (a / d)); lia.
Qed.

Lemma roundsTo_spec (m : positive) (k N : Z) :
  0 <= k -> roundsTo m k N = true ->
  round_half_even (Zpos m * 10 ^ 6) (2 ^ k) = N * 1000000.
Proof.
  intros Hk H. unfold roundsTo in H.
  rewrite Z.shiftl_mul_pow2, Z.shiftl_1_l in H by assumption.
  apply Z.ltb_lt in H.
  apply round_near; [apply Z.pow_pos_nonneg; lia|].
  change (10 ^ 6) with 1000000.
  replace (Z.pos m * 1000000 - N * 1000000 * 2 ^ k)
    with ((Z.pos m - N * 2 ^ k) * 1000000) by ring.
  rewrite Z.abs_mul. change (Z.abs 1000000) with 1000000. lia.
Qed.

(** The text [printf_f] prints for a finite double. *)
Lemma printf_f_finite (x : float) (s : bool) (m : positive) (e : Z) :
  Prim2SF x = S754_finite s m e ->
  printf_f x
  = (if s then "-" else "") ++ dec (millionths m e / 10 ^ 6) ++ "."
    ++ pad6 (millionths m e mod 10 ^ 6).
Proof.
  intros H. unfold printf_f, millionths. rewrite H. reflexivity.
Qed.

Lemma printf_f_zero (x : float) (s : bool) :
  Prim2SF x = S754_zero s ->
  printf_f x = (if s then "-" else "") ++ dec (0 / 10 ^ 6) ++ "." ++ pad6 (0 mod 10 ^ 6).
Proof.
  intros H. unfold printf_f. rewrite H. reflexivity.
Qed.

(** ** Comparisons of doubles *)

Lemma digits2_pos_bound (m : positive) : Zpos m < 2 ^ Zpos (digits2_pos m).
Proof.
  induction m as [m IH|m IH|]; cbn [digits2_pos];
    try (rewrite Pos2Z.inj_succ, Z.pow_succ_r by lia; lia).
  reflexivity.
Qed.

(** The mantissa of a double has at most 53 bits. *)
Lemma mantissa_bound (x : float) (s : bool) (m : positive) (e : Z) :
  Prim2SF x = S754_finite s m e -> Zpos m < 2 ^ 53.
Proof.
  intros H. pose proof (FloatAxioms.Prim2SF_valid x) as V. rewrite H in V.
  unfold SpecFloat.valid_binary, bounded, canonical_mantissa, fexp in V.
  apply andb_prop in V. destruct V as [V _]. apply Z.eqb_eq in V.
  assert (Hd : Zpos (digits2_pos m) <= 53) by (unfold prec in V; lia).
  pose proof (digits2_pos_bound m) as Hm.
  eapply Z.lt_le_trans; [exact Hm|]. apply Z.pow_le_mono_r; lia.
Qed.

(** [abs x <= c] for a positive normal double [c]: [x] is a zero, or finite
    with an exponent not above that of [c] and a mantissa bounded by the
    mantissa of [c], shifted to the exponent of [x]. *)
Lemma abs_leb_bound (x c : float) (mc : positive) (ec : Z) :
  Prim2SF c = S754_finite false mc ec -> 2 ^ 52 <= Zpos mc ->
  (abs x <=? c)%float = true ->
  match Prim2SF x with
  | S754_zero _ => True
  | S754_finite _ m e => e <= ec /\ Zpos m <= Zpos mc * 2 ^ (ec - e)
  | _ => False
  end.
Proof.
  intros Hc Hn H. rewrite FloatAxioms.leb_spec, FloatAxioms.abs_spec, Hc in H.
  destruct (Prim2SF x) as [s|s| |s m e] eqn:E; cbn [SFabs SFleb SFcompare] in H;
    try discriminate H; [exact I|].
  pose proof (mantissa_bound x s m e E) as Hm.
  change (PosDef.Pos.compare_cont Eq m mc) with (Pos.compare m mc) in H.
  destruct (Z.compare_spec e ec) as [He|He|He]; try discriminate H.
  - subst ec. rewrite Z.sub_diag, Z.pow_0_r.
    destruct (Pos.compare_spec m mc) as [Hp|Hp|Hp]; try discriminate H;
      split; lia.
  - split; [lia|].
    assert (Hp : 2 ^ 1 <= 2 ^ (ec - e)) by (apply Z.pow_le_mono_r; lia).
    change (2 ^ 53) with (2 * 2 ^ 52) in Hm. change (2 ^ 1) with 2 in Hp. nia.
Qed.

(** ** The doubles of the readings *)

Lemma isdigit_digitBytes (b : byte) : isdigit b = true -> In b digitBytes.
Proof.
  unfold isdigit. intros H. apply andb_prop in H. destruct H as [H1 H2].
  apply Z.leb_le in H1. apply Z.leb_le in H2.
  assert (E : b = 48 \/ b = 49 \/ b = 50 \/ b = 51 \/ b = 52 \/ b = 53 \/ b = 54
              \/ b = 55 \/ b = 56 \/ b = 57) by lia.
  unfold digitBytes. cbn [In].
  repeat (destruct E as [E|E]; [subst b; auto 12|]). subst b; auto 12.
Qed.

Lemma digit_val_byte (b : byte) :
  In b digitBytes -> digit_val (char_of_byte b) = Some (b - 48) /\ 48 <= b <= 57.
Proof.
  unfold digitBytes. cbn [In]. intros H.
  repeat (destruct H as [H|H]; [subst b; split; [reflexivity | lia]|]).
  contradiction.
Qed.

Lemma atof_int_digit (c : ascii) (r : string) (m d : Z) :
  digit_val c = Some d -> atof_int (String c r) m = atof_int r (10 * m + d).
Proof. intros H. cbn [atof_int]. rewrite H. reflexivity. Qed.

Lemma atof_frac_digit (c : ascii) (r : string) (m sc d : Z) :
  digit_val c = Some d ->
  atof_frac (String c r) m sc = atof_frac r (10 * m + d) (10 * sc).
Proof. intros H. cbn [atof_frac]. rewrite H. reflexivity. Qed.

Lemma atof_int_point (r : string) (m : Z) :
  atof_int (String "." r) m = atof_frac r m 1.
Proof. reflexivity. Qed.

(** [atof] on the digits with their point. *)
Lemma atof_digits (b1 b2 b3 b4 b6 : byte) :
  In b1 digitBytes -> In b2 digitBytes -> In b3 digitBytes -> In b4 digitBytes ->
  atof (spec_insertPoint b6 (digitsText b1 b2 b3 b4))
  = (double_of_Z (mantissaOf b1 b2 b3 b4) / double_of_Z (scaleOf b6))%float.
Proof.
  intros D1 D2 D3 D4.
  destruct (digit_val_byte b1 D1) as [V1 _]. destruct (digit_val_byte b2 D2) as [V2 _].
  destruct (digit_val_byte b3 D3) as [V3 _]. destruct (digit_val_byte b4 D4) as [V4 _].
  unfold atof, spec_insertPoint, spec_pointPosition, scaleOf, mantissaOf, digitsText.
  destruct (b6 =? 49);
    [|destruct (b6 =? 50); [|destruct ((b6 =? 51) || (b6 =? 52))]];
    cbn [substring append Nat.sub];
    repeat first [ rewrite (atof_int_digit _ _ _ _ V1)
                 | rewrite (atof_int_digit _ _ _ _ V2)
                 | rewrite (atof_int_digit _ _ _ _ V3)
                 | rewrite (atof_int_digit _ _ _ _ V4)
                 | rewrite atof_int_point
                 | rewrite (atof_frac_digit _ _ _ _ _ V1)
                 | rewrite (atof_frac_digit _ _ _ _ _ V2)
                 | rewrite (atof_frac_digit _ _ _ _ _ V3)
                 | rewrite (atof_frac_digit _ _ _ _ _ V4) ];
    reflexivity.
Qed.

Lemma vSiOf_reading (s : Z) (b1 b2 b3 b4 b6 : byte) (p : string) :
  In b1 digitBytes -> In b2 digitBytes -> In b3 digitBytes -> In b4 digitBytes ->
  vSiOf s (spec_insertPoint b6 (digitsText b1 b2 b3 b4)) p
  = reading s (mantissaOf b1 b2 b3 b4) (scaleOf b6) (multToSi p).
Proof.
  intros D1 D2 D3 D4. unfold vSiOf, reading.
  rewrite atof_digits by assumption. reflexivity.
Qed.

Lemma pointRep_spec (b6 : byte) (digits : string) :
  In (pointRep b6) [0x30; 0x31; 0x32; 0x33]
  /\ spec_insertPoint (pointRep b6) digits = spec_insertPoint b6 digits
  /\ (b6 = 0x31 \/ b6 = 0x32 -> pointRep b6 = b6).
Proof.
  unfold pointRep, spec_insertPoint, spec_pointPosition.
  destruct (Z.eqb_spec b6 0x31) as [->|N1];
    [split; [cbn; auto | split; [reflexivity | reflexivity]]|].
  destruct (Z.eqb_spec b6 0x32) as [->|N2];
    [split; [cbn; auto | split; [reflexivity | reflexivity]]|].
  destruct ((b6 =? 0x33) || (b6 =? 0x34));
    (split; [cbn; auto | split; [reflexivity | intros [E|E]; contradiction]]).
Qed.

Lemma prefixRep_spec (p : string) :
  In (prefixRep p) [""; "n"; "µ"; "m"; "k"]
  /\ multToSi (prefixRep p) = multToSi p
  /\ (p = "n" -> prefixRep p = "n")
  /\ (prefixRep p = "k" -> multToSi p = 1000000%float).
Proof.
  unfold prefixRep, multToSi, strequal.
  destruct (String.eqb_spec p "n") as [->|Nn];
    [split; [cbn; auto | repeat split; try reflexivity; discriminate]|].
  destruct (String.eqb_spec p "µ") as [->|Nu];
    [split; [cbn; auto | repeat split; try reflexivity; discriminate]|].
  destruct (String.eqb_spec p "m") as [->|Nm];
    [split; [cbn; auto | repeat split; try reflexivity; discriminate]|].
  destruct (String.eqb_spec p "k") as [->|Nk];
    [split; [cbn; auto 6 | repeat split; try reflexivity; discriminate]|].
  split; [cbn; auto | repeat split; try reflexivity; try discriminate].
  intros E. contradiction.
Qed.

Lemma vSiOf_prefixRep (s : Z) (v p : string) :
  vSiOf s v (prefixRep p) = vSiOf s v p.
Proof.
  unfold vSiOf. destruct (prefixRep_spec p) as (_ & -> & _). reflexivity.
Qed.

Lemma allReadingsOf_spec (P : byte -> string -> Z -> Z -> float -> bool) :
  allReadingsOf P = true ->
  forall b1 b2 b3 b4 b6 p s,
    In b1 digitBytes -> In b2 digitBytes -> In b3 digitBytes -> In b4 digitBytes ->
    In b6 [0x30; 0x31; 0x32; 0x33] -> In p [""; "n"; "µ"; "m"; "k"] ->
    In s [1; -1] ->
    P b6 p (mantissaOf b1 b2 b3 b4) (scaleOf b6)
      (reading s (mantissaOf b1 b2 b3 b4) (scaleOf b6) (multToSi p)) = true.
Proof.
  unfold allReadingsOf. intros H b1 b2 b3 b4 b6 p s D1 D2 D3 D4 Pin Qin Sin.
  rewrite forallb_forall in H. specialize (H _ D1).
  rewrite forallb_forall in H. specialize (H _ D2).
  rewrite forallb_forall in H. specialize (H _ D3).
  rewrite forallb_forall in H. specialize (H _ D4).
  rewrite forallb_forall in H. specialize (H _ Pin).
  rewrite forallb_forall in H. specialize (H _ Qin).
  rewrite forallb_forall in H. exact (H _ Sin).
Qed.

Lemma allReadings_true : allReadingsOf readingOk = true.
Proof.
  vm_cast_no_check (eq_refl true).
Qed.

(** What the check tells about the number a reading is printed as: [n]
    millionths, at most 9999 units, or a multiple of a million up to
    9999000000 units, and nothing at all in nano with fewer than three
    digits before the point. *)
Lemma readingOk_number (b6 : byte) (p : string) (b1 b2 b3 b4 : byte) (x : float) :
  In b1 digitBytes -> In b2 digitBytes -> In b3 digitBytes -> In b4 digitBytes ->
  readingOk b6 p (mantissaOf b1 b2 b3 b4) (scaleOf b6) x = true ->
  exists n,
    printedAs x n
    /\ (0 <= n <= 9999 * 10 ^ 6
        \/ (n mod 10 ^ 6 = 0 /\ 0 <= n / 10 ^ 6 <= 9999000000))
    /\ (p = "n" -> b6 = 0x31 \/ b6 = 0x32 -> n = 0).
Proof.
  intros D1 D2 D3 D4.
  destruct (digit_val_byte b1 D1) as [_ R1]. destruct (digit_val_byte b2 D2) as [_ R2].
  destruct (digit_val_byte b3 D3) as [_ R3]. destruct (digit_val_byte b4 D4) as [_ R4].
  unfold readingOk.
  destruct (strequal p "k") eqn:Ek.
  - (* prefix k: a whole number *)
    unfold kiloOk. intros H.
    assert (Np : p = "n" -> False)
      by (intros ->; discriminate Ek).
    destruct (Prim2SF x) as [s|s| |s m e] eqn:E; try discriminate H.
    + exists 0. split; [exists s; apply printf_f_zero; exact E|].
      split; [left; lia | reflexivity].
    + apply andb_prop in H. destruct H as [He H]. apply Z.ltb_lt in He.
      apply roundsTo_spec in H; [|lia].
      exists (millionths m e). split; [exists s; apply printf_f_finite; exact E|].
      assert (Em : millionths m e
                   = mantissaOf b1 b2 b3 b4 * (1000000 / scaleOf b6) * 1000000).
      { unfold millionths. destruct (Z.leb_spec 0 e); [exfalso; lia | exact H]. }
      rewrite Em. change (10 ^ 6) with 1000000.
      rewrite Z.mod_mul, Z.div_mul by lia.
      split; [|intros Hp; contradiction (Np Hp)].
      right. split; [reflexivity|].
      unfold mantissaOf, scaleOf.
      destruct (b6 =? 49); [|destruct (b6 =? 50); [|destruct ((b6 =? 51) || (b6 =? 52))]];
        match goal with
        | |- context [1000000 / ?sc] =>
            let v := eval vm_compute in (1000000 / sc) in
            change (1000000 / sc) with v
        end; lia.
  - destruct (strequal p "n" && ((b6 =? 49) || (b6 =? 50))) eqn:En.
    + (* nano with one or two digits before the point: below tiny *)
      intros H.
      pose proof (abs_leb_bound x tiny 4503599627370496 (-74) eq_refl
                    ltac:(vm_compute; discriminate) H) as B.
      destruct (Prim2SF x) as [s|s| |s m e] eqn:E; try contradiction.
      * exists 0. split; [exists s; apply printf_f_zero; exact E|].
        split; [left; lia | reflexivity].
      * destruct B as [He Hm].
        exists 0. split.
        -- exists s. rewrite (printf_f_finite x s m e E).
           assert (Em : millionths m e = 0).
           { unfold millionths. destruct (Z.leb_spec 0 e); [exfalso; lia|].
             apply round_near; [apply Z.pow_pos_nonneg; lia|].
             rewrite Z.mul_0_l, Z.sub_0_r, Z.abs_eq by lia.
             replace (- e) with (74 + (-74 - e)) by lia.
             rewrite Z.pow_add_r by lia.
             assert (0 < 2 ^ (-74 - e)) by (apply Z.pow_pos_nonneg; lia).
             change (10 ^ 6) with 1000000.
             change (2 ^ 74) with 18889465931478580854784.
             set (P := 2 ^ (-74 - e)) in *. lia. }
           rewrite Em. reflexivity.
        -- split; [left; lia | reflexivity].
    + (* any other reading: at most 9999 *)
      intros H.
      pose proof (abs_leb_bound x 9999%float 5497008383066112 (-39) eq_refl
                    ltac:(vm_compute; discriminate) H) as B.
      destruct (Prim2SF x) as [s|s| |s m e] eqn:E; try contradiction.
      * exists 0. split; [exists s; apply printf_f_zero; exact E|].
        split; [left; lia|].
        intros Hp Hb. exfalso. subst p.
        destruct Hb as [-> | ->]; discriminate En.
      * destruct B as [He Hm].
        exists (millionths m e). split; [exists s; apply printf_f_finite; exact E|].
        split.
        -- left. unfold millionths. destruct (Z.leb_spec 0 e); [exfalso; lia|].
           apply round_bound; [apply Z.pow_pos_nonneg; lia|].
           replace (- e) with (39 + (-39 - e)) by lia.
           rewrite Z.pow_add_r by lia.
           assert (0 < 2 ^ (-39 - e)) by (apply Z.pow_pos_nonneg; lia).
           change (10 ^ 6) with 1000000. change (2 ^ 39) with 549755813888.
           set (P := 2 ^ (-39 - e)) in *. lia.
        -- intros Hp Hb. exfalso. subst p.
           destruct Hb as [-> | ->]; discriminate En.
Qed.

(** ** The trimmed text of a printed number *)

Section TrimmedNumber.
Local Open Scope list_scope.

(** [trimZeros], seen from the end of the text, on decimals that follow a
    point: it stops at the first digit other than 0, or keeps the last
    zero in front of the point. *)
Lemma trimZeros_rev_fraction (RF RA : list ascii) :
  RF <> [] -> forallb isDigitChar RF = true ->
  exists (j : nat) (RF' : list ascii),
    RF = repeat "0"%char j ++ RF' /\ RF' <> []
    /\ trimZeros_rev (RF ++ "."%char :: RA) = RF' ++ "."%char :: RA
    /\ (RF' = ["0"%char] \/ exists c t, RF' = c :: t /\ Ascii.eqb c "0" = false).
Proof.
  induction RF as [|c RF IH]; [contradiction|]. intros _ Hd.
  cbn [forallb] in Hd. apply andb_prop in Hd. destruct Hd as [Hc Hd].
  cbn [app]. rewrite trimZeros_rev_cons.
  destruct (Ascii.eqb_spec c "0") as [->|Nc]; cbn [negb].
  - destruct RF as [|c2 RF2].
    + exists 0%nat, ["0"%char]. cbn [app repeat].
      repeat split; try discriminate; auto.
    + cbn [app]. cbn [forallb] in Hd.
      assert (Hc2 : isDigitChar c2 = true)
        by (apply andb_prop in Hd; tauto).
      destruct (digit_char c2 Hc2) as (_ & -> & _).
      destruct (IH ltac:(discriminate) Hd) as (j & RF' & E & Hne & Ht & Hz).
      exists (S j), RF'. cbn [repeat app]. rewrite <- E.
      repeat split; assumption.
  - exists 0%nat, (c :: RF). cbn [app repeat].
    repeat split; try discriminate.
    right. exists c, RF. split; [reflexivity|].
    destruct (Ascii.eqb_spec c "0"); [contradiction | reflexivity].
Qed.

Lemma endsWithZero_snoc (l : list ascii) (c : ascii) :
  endsWithZero (string_of_list_ascii (l ++ [c])) = Ascii.eqb c "0".
Proof.
  induction l as [|a l IH]; [reflexivity|].
  cbn [app string_of_list_ascii]. cbn [app string_of_list_ascii] in IH.
  destruct l as [|b l]; cbn [app string_of_list_ascii endsWithZero] in *; exact IH.
Qed.

Lemma forallb_rev_digits (l : list ascii) :
  forallb isDigitChar (rev l) = forallb isDigitChar l.
Proof.
  induction l as [|a l IH]; [reflexivity|].
  cbn [rev forallb]. rewrite forallb_app, IH. cbn [forallb].
  rewrite andb_true_r. apply andb_comm.
Qed.

End TrimmedNumber.

(** Decimals behind a point, trimmed. *)
Lemma trimmed_fraction (A F : string) :
  (1 <= strlen F <= 6)%nat -> allDigits F = true ->
  exists F',
    trimmed (A ++ "." ++ F) = A ++ "." ++ F'
    /\ (strlen F' <= strlen F)%nat /\ decimalsOk F' = true.
Proof.
  intros Hlen Hd.
  set (RF := rev (list_ascii_of_string F)).
  assert (HRF : RF <> []).
  { unfold RF. intros E. apply (f_equal (@List.length ascii)) in E.
    rewrite length_rev in E.
    rewrite <- string_of_list_ascii_length, string_of_list_ascii_of_string in E.
    cbn in E. lia. }
  assert (HdRF : forallb isDigitChar RF = true).
  { unfold RF. rewrite forallb_rev_digits, <- allDigits_list. exact Hd. }
  destruct (trimZeros_rev_fraction RF (rev (list_ascii_of_string A)) HRF HdRF)
    as (j & RF' & E & Hne & Ht & Hz).
  exists (string_of_list_ascii (rev RF')).
  assert (Hl : List.length RF = (j + List.length RF')%nat)
    by (rewrite E, length_app, repeat_length; reflexivity).
  assert (HlF : List.length RF = strlen F).
  { unfold RF. rewrite length_rev.
    rewrite <- string_of_list_ascii_length, string_of_list_ascii_of_string.
    reflexivity. }
  assert (HdRF' : forallb isDigitChar RF' = true).
  { rewrite E, forallb_app in HdRF. apply andb_prop in HdRF. tauto. }
  split; [|split].
  - unfold trimmed.
    rewrite !list_ascii_of_string_app, !rev_app_distr.
    cbn [list_ascii_of_string rev app]. fold RF.
    rewrite <- app_assoc. cbn [app]. rewrite Ht.
    rewrite rev_app_distr. cbn [rev]. rewrite rev_involutive, <- app_assoc.
    cbn [app]. rewrite !string_of_list_ascii_app.
    rewrite string_of_list_ascii_of_string. reflexivity.
  - rewrite string_of_list_ascii_length, length_rev. lia.
  - unfold decimalsOk.
    rewrite string_of_list_ascii_length, length_rev.
    rewrite allDigits_of_list, forallb_rev_digits, HdRF'.
    assert (H1 : (1 <=? List.length RF')%nat = true)
      by (apply Nat.leb_le; destruct RF'; [contradiction | cbn; lia]).
    assert (H6 : (List.length RF' <=? 6)%nat = true) by (apply Nat.leb_le; lia).
    rewrite H1, H6. cbn [andb].
    destruct Hz as [-> | (c & t & -> & Hc)]; [reflexivity|].
    cbn [rev]. rewrite endsWithZero_snoc, Hc. cbn [negb]. apply orb_true_r.
Qed.

Lemma trimmed_zero_fraction (A : string) :
  trimmed (A ++ "." ++ "000000") = A ++ "." ++ "0".
Proof.
  unfold trimmed.
  rewrite list_ascii_of_string_app, rev_app_distr.
  cbn [list_ascii_of_string rev app append].
  repeat (rewrite trimZeros_rev_cons; cbn [Ascii.eqb Bool.eqb negb andb]).
  cbn [rev]. rewrite rev_involutive, <- !app_assoc. cbn [app].
  rewrite string_of_list_ascii_app, string_of_list_ascii_of_string. reflexivity.
Qed.

Lemma siNumber_digit (c : ascii) (r : string) :
  isDigitChar c = true -> siNumber (String c r) = unsignedDecimal (String c r).
Proof.
  intros H. destruct (digit_char c H) as (_ & _ & Hm).
  destruct c as [[] [] [] [] [] [] [] []]; try reflexivity; discriminate Hm.
Qed.

Lemma dropDigits_point (I f : string) :
  allDigits I = true -> dropDigits (I ++ String "." f) = String "." f.
Proof.
  induction I as [|c I IH]; cbn [append allDigits dropDigits]; [reflexivity|].
  intros H. apply andb_prop in H. destruct H as [Hc HI].
  rewrite Hc. apply IH. exact HI.
Qed.

(** A sign, digits, a point and decimals make a number. *)
Lemma siNumber_build (sg : bool) (I F' : string) :
  (1 <= strlen I)%nat -> allDigits I = true -> decimalsOk F' = true ->
  siNumber ((if sg then "-" else "") ++ I ++ "." ++ F') = true.
Proof.
  intros Hl Hd Hf.
  destruct I as [|c I]; [cbn in Hl; lia|].
  cbn [allDigits] in Hd. apply andb_prop in Hd. destruct Hd as [Hc HI].
  assert (U : unsignedDecimal (String c I ++ "." ++ F') = true).
  { cbn [append unsignedDecimal]. rewrite Hc.
    change (I ++ String "." F') with (I ++ String "." F').
    rewrite (dropDigits_point I F' HI). exact Hf. }
  destruct sg.
  - exact U.
  - cbn [append]. rewrite siNumber_digit by exact Hc. exact U.
Qed.

(** What is printed for [n] millionths, trimmed: the text of the SI
    number. *)
Lemma number_text (x : float) (n : Z) :
  printedAs x n ->
  0 <= n <= 9999 * 10 ^ 6 \/ (n mod 10 ^ 6 = 0 /\ 0 <= n / 10 ^ 6 <= 9999000000) ->
  (strlen (printf_f x) <= 19)%nat
  /\ siNumber (vSiText x) = true /\ (strlen (vSiText x) <= 13)%nat
  /\ jsonSafe (vSiText x) = true
  /\ (n = 0 -> vSiText x = "0.0" \/ vSiText x = "-0.0").
Proof.
  intros [sg E] Hn.
  assert (HF : 0 <= n mod 10 ^ 6 < 10 ^ 6) by (apply Z.mod_pos_bound; lia).
  assert (HI : 0 <= n / 10 ^ 6 < 10 ^ 10).
  { destruct Hn as [Hn|[_ Hn]]; [|lia].
    split; [apply Z.div_pos; lia|].
    apply Z.div_lt_upper_bound; lia. }
  destruct (dec_digits (n / 10 ^ 6) 10 ltac:(lia) HI) as [DI LI].
  destruct (pad6_digits (n mod 10 ^ 6) HF) as [DF LF].
  set (I := dec (n / 10 ^ 6)) in *. set (F := pad6 (n mod 10 ^ 6)) in *.
  set (sgn := if sg then "-" else "") in *.
  assert (Ls : (strlen sgn <= 1)%nat) by (unfold sgn; destruct sg; cbn; lia).
  assert (Lp : (strlen (printf_f x) <= 18)%nat).
  { rewrite E, !append_length. change (strlen ".") with 1%nat. lia. }
  assert (Ev : vSiText x = trimmed ((sgn ++ I) ++ "." ++ F)).
  { change (vSiText x) with (trimmed (substring 0 19 (printf_f x))).
    rewrite substring_short by lia. rewrite E, append_assoc. reflexivity. }
  assert (T : exists F', vSiText x = sgn ++ I ++ "." ++ F' /\ decimalsOk F' = true
                         /\ (strlen I + strlen F' <= 11)%nat
                         /\ (n = 0 -> I = "0" /\ F' = "0")).
  { destruct (Z.eq_dec (n mod 10 ^ 6) 0) as [Z0|NZ].
    - exists "0". rewrite Ev. unfold F. rewrite Z0.
      change (pad6 0) with "000000".
      rewrite trimmed_zero_fraction, append_assoc.
      split; [reflexivity|]. split; [reflexivity|].
      split; [change (strlen "0") with 1%nat; lia|].
      intros ->. split; reflexivity.
    - destruct Hn as [Hn|[Hn _]]; [|contradiction].
      assert (HI4 : 0 <= n / 10 ^ 6 < 10 ^ 4).
      { split; [apply Z.div_pos; lia|].
        apply Z.div_lt_upper_bound; lia. }
      destruct (dec_digits (n / 10 ^ 6) 4 ltac:(lia) HI4) as [_ LI4].
      destruct (trimmed_fraction (sgn ++ I) F ltac:(lia) DF) as (F' & Et & Lf & Df).
      exists F'. rewrite Ev, Et, append_assoc.
      split; [reflexivity|]. split; [exact Df|].
      split; [fold I in LI4; lia|].
      intros ->. exfalso. apply NZ. reflexivity. }
  destruct T as (F' & Et & Df & Lt & Hz).
  split; [lia|]. split; [|split; [|split]].
  - rewrite Et. apply siNumber_build; [lia | exact DI | exact Df].
  - rewrite Et, !append_length. change (strlen ".") with 1%nat. lia.
  - rewrite Et, !jsonSafe_app.
    assert (Sf : jsonSafe F' = true).
    { apply allDigits_safe. unfold decimalsOk in Df.
      apply andb_prop in Df. destruct Df as [Df _].
      apply andb_prop in Df. destruct Df as [_ Df]. exact Df. }
    rewrite (allDigits_safe I DI), Sf. unfold sgn. destruct sg; reflexivity.
  - intros Hz0. destruct (Hz Hz0) as [EI EF]. rewrite Et, EI, EF.
    unfold sgn. destruct sg; [right | left]; reflexivity.
Qed.

(** What the check tells about the SI number of a frame of digits. *)
Lemma digits_reading (buf : list byte) :
  digitsOk buf = true -> isOverflowMark buf = false -> signOf buf <> 0 ->
  let v := vSiText (vSiOf (signOf buf) (valueText buf) (prefixText buf)) in
  (strlen (printf_f (vSiOf (signOf buf) (valueText buf) (prefixText buf))) <= 19)%nat
  /\ siNumber v = true /\ (strlen v <= 13)%nat /\ jsonSafe v = true
  /\ (prefixText buf = "n" -> at_ buf 6 = 0x31 \/ at_ buf 6 = 0x32 ->
      v = "0.0" \/ v = "-0.0").
Proof.
  intros Hd Hm Hs. cbv zeta.
  unfold digitsOk in Hd.
  apply andb_prop in Hd. destruct Hd as [Hd D4].
  apply andb_prop in Hd. destruct Hd as [Hd D3].
  apply andb_prop in Hd. destruct Hd as [D1 D2].
  apply isdigit_digitBytes in D1, D2, D3, D4.
  destruct (pointRep_spec (at_ buf 6) (digitChars buf)) as (Pin & Peq & Psame).
  destruct (prefixRep_spec (prefixText buf)) as (Qin & _ & Qn & _).
  assert (Sin : In (signOf buf) [1; -1]).
  { destruct (signOf_cases buf) as [[_ S]|[[_ S]|[_ [_ S]]]]; [| |contradiction];
      rewrite S; cbn; auto. }
  unfold valueText. rewrite Hm.
  pose proof (allReadingsOf_spec readingOk allReadings_true
                (at_ buf 1) (at_ buf 2) (at_ buf 3) (at_ buf 4)
                (pointRep (at_ buf 6)) (prefixRep (prefixText buf)) (signOf buf)
                D1 D2 D3 D4 Pin Qin Sin) as H.
  rewrite <- vSiOf_reading in H by assumption.
  change (digitsText (at_ buf 1) (at_ buf 2) (at_ buf 3) (at_ buf 4))
    with (digitChars buf) in H.
  rewrite Peq, vSiOf_prefixRep in H.
  set (x := vSiOf (signOf buf) (spec_insertPoint (at_ buf 6) (digitChars buf))
              (prefixText buf)) in *.
  destruct (readingOk_number _ _ _ _ _ _ x D1 D2 D3 D4 H) as (n & Hp & Hn & Hz).
  destruct (number_text x n Hp Hn) as (T1 & T2 & T3 & T4 & T5).
  repeat split; try assumption.
  intros Hpn Hb. apply T5. apply Hz.
  - apply Qn. exact Hpn.
  - rewrite Psame by exact Hb. exact Hb.
Qed.

(** The SI number of any frame that passes the three checks. *)
Lemma si_number (buf : list byte) :
  isOverflowMark buf || digitsOk buf = true -> signOf buf <> 0 ->
  siNumber (vSiText (vSiOf (signOf buf) (valueText buf) (prefixText buf))) = true
  /\ (strlen (vSiText (vSiOf (signOf buf) (valueText buf) (prefixText buf))) <= 13)%nat
  /\ jsonSafe (vSiText (vSiOf (signOf buf) (valueText buf) (prefixText buf))) = true.
Proof.
  intros Hv Hs.
  destruct (isOverflowMark buf) eqn:Hm.
  - unfold valueText. rewrite Hm.
    destruct (vSiOf_overflow (prefixText buf)) as [Vp Vn].
    destruct vSiText_zero as [Tp Tn].
    destruct (signOf_cases buf) as [[_ S]|[[_ S]|[_ [_ S]]]]; [| |contradiction];
      rewrite S; [rewrite Vp, Tp | rewrite Vn, Tn];
      (split; [reflexivity | split; [cbn; lia | reflexivity]]).
  - cbn [orb] in Hv.
    destruct (digits_reading buf Hv Hm Hs) as (_ & H2 & H3 & H4 & _). auto.
Qed.

Lemma skipZeros_length (s : string) : (strlen (skipZeros s) <= strlen s)%nat.
Proof.
  unfold strlen. induction s as [|a rest IH]; [reflexivity|].
  rewrite skipZeros_cons.
  destruct (Ascii.eqb a "0"); [|lia].
  destruct (startsWithPoint rest); [lia|]. cbn [String.length]. lia.
Qed.

(** The two formatted texts fit their 20-byte arrays when the labels are
    short. *)
Lemma short_labels_fit (buf : list byte) :
  isOverflowMark buf || digitsOk buf = true -> signOf buf <> 0 ->
  (strlen (unitText buf) <= 5)%nat ->
  (strlen (prefixText buf) + strlen (unitText buf) <= 12)%nat ->
  textsFit buf = true.
Proof.
  intros Hv Hs Hu Hpu.
  destruct (si_number buf Hv Hs) as (_ & Hn & _).
  pose proof (valueText_length buf) as Hval.
  pose proof (skipZeros_length (valueText buf)) as Hsk.
  unfold textsFit, vWithUnitText, vSiWithUnitText.
  repeat rewrite append_length.
  change (strlen " ") with 1%nat.
  assert (Hsg : (strlen (if (signOf buf =? -1)%Z then "-" else "") <= 1)%nat)
    by (destruct (signOf buf =? -1); cbn; lia).
  apply andb_true_intro; split; apply Nat.leb_le; lia.
Qed.

(** X8: a frame that passes the three checks, be it a reading or the
    overflow mark, is decoded with 0 and without any overrun whenever its
    unit text has at most 5 bytes and prefix and unit text together at most
    12: the display text then needs at most 20 bytes with its terminator,
    and the SI number never has more than 13 characters. *)
Theorem x8_short_labels_decode_without_overrun :
  forall (now : timeval) (buf : list byte) (old : Vc830),
    framingOk buf = true -> signOf buf <> 0 ->
    isOverflowMark buf || digitsOk buf = true ->
    (strlen (unitText buf) <= 5)%nat ->
    (strlen (prefixText buf) + strlen (unitText buf) <= 12)%nat ->
    decodeFS9922Paket now buf old
    = Done (0, decodedRecord now buf, Some (decodedLocals buf)).
Proof.
  intros now buf old Hf Hs Hv Hu Hpu.
  apply decode_fits; try assumption.
  apply short_labels_fit; assumption.
Qed.

Lemma x8_short_labels_decode_without_overrun_witness :
  decodeFS9922Paket t1 frame_hold previous_record
  = Done (0, decodedRecord t1 frame_hold, Some (decodedLocals frame_hold)).
Proof.
  apply (x8_short_labels_decode_without_overrun t1 frame_hold previous_record);
    vm_compute; solve [reflexivity | discriminate | lia].
Defined.

Lemma labelsOf_Forall (P : string -> Prop) (table : list (Z * Z * string))
  (buf : list byte) :
  Forall P (map snd table) -> Forall P (labelsOf table buf).
Proof.
  unfold labelsOf. induction table as [|e table IH]; intros H; [constructor|].
  inversion H; subst. cbn [filter].
  destruct (statusBitSet buf (fst (fst e)) (snd (fst e))); cbn [map]; auto.
Qed.

Lemma single_label_length (n : nat) (l : list string) :
  Forall (fun x => (strlen x <= n)%nat) l -> (List.length l <= 1)%nat ->
  (strlen (joined l) <= n)%nat.
Proof.
  intros H Hl. destruct l as [|a [|b l]]; cbn in Hl; try lia.
  - cbn. lia.
  - inversion H; subst. assumption.
Qed.

(** X9: a frame that passes the three checks and has at most one prefix bit
    and at most one unit bit set, as the frames of a meter have, is always
    decoded with 0: none of the two 20-byte arrays can overrun. *)
Theorem x9_single_prefix_and_unit_always_decode :
  forall (now : timeval) (buf : list byte) (old : Vc830),
    framingOk buf = true -> signOf buf <> 0 ->
    isOverflowMark buf || digitsOk buf = true ->
    (List.length (labelsOf prefixTable buf) <= 1)%nat ->
    (List.length (labelsOf unitTable buf) <= 1)%nat ->
    exists r l, decodeFS9922Paket now buf old = Done (0, r, Some l).
Proof.
  intros now buf old Hf Hs Hv Hp Hu.
  exists (decodedRecord now buf), (decodedLocals buf).
  assert (Lp : (strlen (prefixText buf) <= 2)%nat).
  { rewrite prefixText_joined. apply single_label_length; [|assumption].
    apply labelsOf_Forall. repeat constructor; cbn; lia. }
  assert (Lu : (strlen (unitText buf) <= 3)%nat).
  { rewrite unitText_joined. apply single_label_length; [|assumption].
    apply labelsOf_Forall. repeat constructor; cbn; lia. }
  apply decode_fits; try assumption.
  apply short_labels_fit; try assumption; lia.
Qed.

Lemma x9_single_prefix_and_unit_always_decode_witness :
  exists r l, decodeFS9922Paket t1 frame_hold previous_record = Done (0, r, Some l).
Proof.
  apply (x9_single_prefix_and_unit_always_decode t1 frame_hold previous_record);
    vm_compute; solve [reflexivity | discriminate | lia].
Defined.

(** X10: in every record decoded with 0 the SI text is a plain decimal
    number, a space and the unit text, without the prefix.  The number is an
    optional minus sign, one or more digits, a point, and one to six
    decimals with trailing zeros removed down to one; it has at most 13
    characters, so [snprintf] never cuts it, and it is never "inf", "nan"
    or in exponent form. *)
Theorem x10_si_text_is_decimal_number_and_unit :
  forall (now : timeval) (buf : list byte) (old r : Vc830) (l : locals),
    decodeFS9922Paket now buf old = Done (0, r, Some l) ->
    text (formatedSiValue r) = vSiText (l_vSi l) ++ " " ++ text (unit r)
    /\ siNumber (vSiText (l_vSi l)) = true
    /\ (strlen (vSiText (l_vSi l)) <= 13)%nat.
Proof.
  intros now buf old r l H.
  apply decode_Done_0 in H. destruct H as (_ & Hs & Hv & _ & -> & E).
  inversion E; subst l; clear E.
  change (text (formatedSiValue (decodedRecord now buf)))
    with (vSiText (vSiOf (signOf buf) (valueText buf) (prefixText buf))
          ++ " " ++ unitText buf).
  change (text (unit (decodedRecord now buf))) with (unitText buf).
  change (l_vSi (decodedLocals buf))
    with (vSiOf (signOf buf) (valueText buf) (prefixText buf)).
  destruct (si_number buf Hv Hs) as (H1 & H2 & _).
  repeat split; assumption.
Qed.

Lemma x10_si_text_is_decimal_number_and_unit_witness :
  text (formatedSiValue (decodedRecord t1 frame_hold))
  = vSiText (l_vSi (decodedLocals frame_hold)) ++ " "
    ++ text (unit (decodedRecord t1 frame_hold))
  /\ siNumber (vSiText (l_vSi (decodedLocals frame_hold))) = true
  /\ (strlen (vSiText (l_vSi (decodedLocals frame_hold))) <= 13)%nat.
Proof.
  apply (x10_si_text_is_decimal_number_and_unit t1 frame_hold previous_record).
  vm_compute. reflexivity.
Defined.

(** X11: the SI text keeps six decimals and no more.  A reading in nano
    (prefix text "n") with one or two digits before the point is below
    0.0000005 in the base unit, and its SI text is "0.0" or "-0.0" followed
    by the unit: no digit of the reading is left in it. *)
Theorem x11_nano_readings_below_100_print_as_zero :
  forall (now : timeval) (buf : list byte) (old r : Vc830) (ol : option locals),
    decodeFS9922Paket now buf old = Done (0, r, ol) ->
    overflow r = false -> text (prefix r) = "n" ->
    at_ buf 6 = 0x31 \/ at_ buf 6 = 0x32 ->
    text (formatedSiValue r) = "0.0 " ++ text (unit r)
    \/ text (formatedSiValue r) = "-0.0 " ++ text (unit r).
Proof.
  intros now buf old r ol H.
  apply decode_Done_0 in H. destruct H as (_ & Hs & Hv & _ & -> & _).
  change (overflow (decodedRecord now buf)) with (isOverflowMark buf).
  change (text (prefix (decodedRecord now buf))) with (prefixText buf).
  change (text (unit (decodedRecord now buf))) with (unitText buf).
  change (text (formatedSiValue (decodedRecord now buf)))
    with (vSiText (vSiOf (signOf buf) (valueText buf) (prefixText buf))
          ++ " " ++ unitText buf).
  intros Hm Hp Hb. rewrite Hm in Hv. cbn [orb] in Hv.
  destruct (digits_reading buf Hv Hm Hs) as (_ & _ & _ & _ & Hn).
  destruct (Hn Hp Hb) as [E|E]; rewrite E; [left | right]; reflexivity.
Qed.

Lemma x11_nano_readings_below_100_print_as_zero_witness :
  text (rawRisplay (decodedRecord t1 frame_nano)) = "12.34"
  /\ text (formatedSiValue (decodedRecord t1 frame_nano)) = "0.0 F".
Proof.
  split; [reflexivity|].
  destruct (x11_nano_readings_below_100_print_as_zero t1 frame_nano Vc830_zero
              (decodedRecord t1 frame_nano) (Some (decodedLocals frame_nano)))
    as [E|E].
  - vm_compute. reflexivity.
  - reflexivity.
  - reflexivity.
  - right. reflexivity.
  - exact E.
  - vm_compute in E. discriminate E.
Defined.

(** ** The two loops over zeros *)

(** What the loop over leading zeros skips is zeros. *)
Lemma skipZeros_suffix (s : string) : exists n, s = zeros n ++ skipZeros s.
Proof.
  induction s as [|a rest [n E]]; [exists 0%nat; reflexivity|].
  rewrite skipZeros_cons.
  destruct (Ascii.eqb_spec a "0") as [->|Na]; [|exists 0%nat; reflexivity].
  destruct (startsWithPoint rest); [exists 0%nat; reflexivity|].
  exists (S n). cbn [zeros append]. rewrite <- E. reflexivity.
Qed.

(** Once a zero has been skipped, the loop does not stop in front of the
    point. *)
Lemma skipZeros_count (s : string) :
  exists n, s = zeros n ++ skipZeros s
            /\ ((0 < n)%nat -> startsWithPoint (skipZeros s) = false).
Proof.
  induction s as [|a rest (n & E & Hp)].
  - exists 0%nat. split; [reflexivity | intros H; inversion H].
  - rewrite skipZeros_cons.
    destruct (Ascii.eqb_spec a "0") as [->|Na];
      [|exists 0%nat; split; [reflexivity | intros H; inversion H]].
    destruct (startsWithPoint rest) eqn:Ep;
      [exists 0%nat; split; [reflexivity | intros H; inversion H]|].
    exists (S n). split.
    + cbn [zeros append]. rewrite <- E. reflexivity.
    + intros _. apply skipZeros_no_leading_point. exact Ep.
Qed.

(** Zeros in front of "0." are skipped, the zero before the point is not. *)
Lemma skipZeros_zero_point (n : nat) (r : string) :
  skipZeros (zeros n ++ String "0" (String "." r)) = String "0" (String "." r).
Proof.
  induction n as [|n IH].
  - reflexivity.
  - cbn [zeros append]. rewrite skipZeros_cons. cbn [Ascii.eqb Bool.eqb].
    replace (startsWithPoint (zeros n ++ String "0" (String "." r))) with false
      by (destruct n; reflexivity).
    exact IH.
Qed.

(** X12: the loop that skips leading zeros removes characters "0" from the
    front and nothing else: the text is some number of zeros followed by the
    result.  It skips every leading zero but one that is directly followed
    by the point: the result starts with "0" only when "0." follows, and
    once a zero has been skipped the result does not start with the point,
    so from "000.5" the text "0.5" is left and never ".5".  Running the loop
    on its own result changes nothing. *)
Theorem x12_skipZeros_removes_leading_zeros_only :
  forall s : string,
    (exists n, s = zeros n ++ skipZeros s
               /\ ((0 < n)%nat -> startsWithPoint (skipZeros s) = false))
    /\ (forall r, skipZeros s = String "0" r -> startsWithPoint r = true)
    /\ (forall n r, skipZeros (zeros n ++ String "0" (String "." r))
                    = String "0" (String "." r))
    /\ skipZeros (skipZeros s) = skipZeros s.
Proof.
  intros s. split; [apply skipZeros_count|].
  split; [|split; [apply skipZeros_zero_point|]].
  - induction s as [|a rest IH]; [discriminate|].
    rewrite skipZeros_cons.
    destruct (Ascii.eqb_spec a "0") as [->|Na].
    + destruct (startsWithPoint rest) eqn:Ep; [|assumption].
      intros r E. inversion E; subst. exact Ep.
    + intros r E. inversion E; subst. contradiction.
  - induction s as [|a rest IH]; [reflexivity|].
    rewrite skipZeros_cons.
    destruct (Ascii.eqb_spec a "0") as [->|Na].
    + destruct (startsWithPoint rest) eqn:Ep; [|assumption].
      rewrite skipZeros_cons. cbn [Ascii.eqb Bool.eqb]. rewrite Ep. reflexivity.
    + rewrite skipZeros_cons.
      destruct (Ascii.eqb_spec a "0"); [contradiction | reflexivity].
Qed.

Lemma trimZeros_rev_spec (r : list ascii) :
  (exists n, r = (repeat "0"%char n ++ trimZeros_rev r)%list)
  /\ (forall t, trimZeros_rev r = ("0"%char :: t)%list ->
                exists u, t = ("."%char :: u)%list)
  /\ trimZeros_rev (trimZeros_rev r) = trimZeros_rev r.
Proof.
  induction r as [|c rest (IH1 & IH2 & IH3)].
  - split; [exists 0%nat; reflexivity|]. split; [discriminate | reflexivity].
  - rewrite trimZeros_rev_cons.
    destruct (Ascii.eqb_spec c "0") as [->|Nc]; cbn [negb].
    + destruct rest as [|d rest'].
      * split; [exists 1%nat; reflexivity|]. split; [discriminate | reflexivity].
      * destruct (Ascii.eqb_spec d ".") as [->|Nd].
        -- split; [exists 0%nat; reflexivity|]. split.
           ++ intros t E. inversion E; subst. eauto.
           ++ rewrite trimZeros_rev_cons. reflexivity.
        -- split; [|split; assumption].
           destruct IH1 as [n E]. exists (S n). cbn [repeat app]. rewrite <- E.
           reflexivity.
    + split; [exists 0%nat; reflexivity|]. split.
      * intros t E. inversion E; subst. contradiction.
      * rewrite trimZeros_rev_cons.
        destruct (Ascii.eqb_spec c "0"); [contradiction | reflexivity].
Qed.

Lemma string_of_repeat_zero (n : nat) :
  string_of_list_ascii (repeat "0"%char n) = zeros n.
Proof.
  induction n as [|n IH]; cbn; [reflexivity | now rewrite IH].
Qed.

(** What [trimZeros] cuts off is zeros. *)
Lemma trimZeros_prefix (s : chars) :
  exists n, text s = text (trimZeros s) ++ zeros n.
Proof.
  unfold trimZeros. cbn [text].
  destruct (trimZeros_rev_spec (rev (list_ascii_of_string (text s))))
    as ([n E] & _ & _).
  exists n.
  rewrite <- string_of_repeat_zero, <- string_of_list_ascii_app.
  rewrite <- (rev_repeat n "0"%char), <- rev_app_distr, <- E, rev_involutive.
  rewrite string_of_list_ascii_of_string. reflexivity.
Qed.

Lemma trimZeros_rev_no_leading_point (r : list ascii) :
  startsWithPointL r = false -> startsWithPointL (trimZeros_rev r) = false.
Proof.
  induction r as [|c rest IH]; intros H; [reflexivity|].
  rewrite trimZeros_rev_cons.
  destruct (Ascii.eqb_spec c "0") as [->|Nc]; cbn [negb]; [|assumption].
  destruct rest as [|d rest']; [reflexivity|].
  destruct (Ascii.eqb_spec d ".") as [->|Nd]; [reflexivity|].
  apply IH. cbn [startsWithPointL].
  destruct (Ascii.eqb_spec d "."); [contradiction | reflexivity].
Qed.

(** Once a zero has been cut off, the loop does not stop behind the point. *)
Lemma trimZeros_rev_count (r : list ascii) :
  exists n, r = (repeat "0"%char n ++ trimZeros_rev r)%list
            /\ ((0 < n)%nat -> startsWithPointL (trimZeros_rev r) = false).
Proof.
  induction r as [|c rest (n & E & Hp)].
  - exists 0%nat. split; [reflexivity | intros H; inversion H].
  - rewrite trimZeros_rev_cons.
    destruct (Ascii.eqb_spec c "0") as [->|Nc]; cbn [negb];
      [|exists 0%nat; split; [reflexivity | intros H; inversion H]].
    destruct rest as [|d rest'].
    + exists 1%nat. split; reflexivity.
    + destruct (Ascii.eqb_spec d ".") as [->|Nd];
        [exists 0%nat; split; [reflexivity | intros H; inversion H]|].
      exists (S n). split.
      * cbn [repeat app]. rewrite <- E. reflexivity.
      * intros _. apply trimZeros_rev_no_leading_point. cbn [startsWithPointL].
        destruct (Ascii.eqb_spec d "."); [contradiction | reflexivity].
Qed.

(** Zeros behind ".0" are cut off, the zero after the point is not. *)
Lemma trimZeros_rev_point_zero (n : nat) (r : list ascii) :
  trimZeros_rev (repeat "0"%char n ++ "0"%char :: "."%char :: r)%list
  = ("0"%char :: "."%char :: r)%list.
Proof.
  induction n as [|n IH].
  - reflexivity.
  - cbn [repeat app]. rewrite trimZeros_rev_cons. cbn [Ascii.eqb Bool.eqb negb].
    destruct n; exact IH.
Qed.

Lemma list_ascii_of_zeros (n : nat) :
  list_ascii_of_string (zeros n) = repeat "0"%char n.
Proof.
  induction n as [|n IH]; cbn; [reflexivity | now rewrite IH].
Qed.

Lemma trimZeros_point_zero (sz : nat) (p : string) (n : nat) :
  text (trimZeros (mkChars sz (p ++ ".0" ++ zeros n))) = p ++ ".0".
Proof.
  unfold trimZeros. cbn [text].
  rewrite !list_ascii_of_string_app, list_ascii_of_zeros, !rev_app_distr.
  rewrite rev_repeat. cbn [list_ascii_of_string rev app].
  rewrite <- app_assoc. cbn [app].
  rewrite trimZeros_rev_point_zero.
  cbn [rev]. rewrite <- !app_assoc. cbn [app].
  rewrite rev_involutive, string_of_list_ascii_app, string_of_list_ascii_of_string.
  reflexivity.
Qed.

Lemma trimZeros_count (s : chars) :
  exists n, text s = text (trimZeros s) ++ zeros n
            /\ ((0 < n)%nat -> forall p, text (trimZeros s) <> p ++ ".").
Proof.
  unfold trimZeros. cbn [text].
  destruct (trimZeros_rev_count (rev (list_ascii_of_string (text s))))
    as (n & E & Hp).
  exists n. split.
  - rewrite <- string_of_repeat_zero, <- string_of_list_ascii_app.
    rewrite <- (rev_repeat n "0"%char), <- rev_app_distr, <- E, rev_involutive.
    rewrite string_of_list_ascii_of_string. reflexivity.
  - intros Hn p Hq. specialize (Hp Hn).
    apply (f_equal list_ascii_of_string) in Hq.
    rewrite list_ascii_of_string_of_list_ascii, list_ascii_of_string_app in Hq.
    apply (f_equal (@rev ascii)) in Hq.
    rewrite rev_involutive, rev_app_distr in Hq.
    cbn [list_ascii_of_string rev app] in Hq.
    rewrite Hq in Hp. discriminate Hp.
Qed.

(** X13: [trimZeros] removes characters "0" from the end of the text and
    nothing else, and keeps the array as declared: the text is the result
    followed by some number of zeros.  It cuts off every trailing zero but
    one that stands directly after the point: the result ends with "0" only
    when it ends with ".0", and once a zero has been cut off the result does
    not end with the point, so "1234.000000" becomes "1234.0" and never
    "1234.".  Trimming twice is trimming once. *)
Theorem x13_trimZeros_removes_trailing_zeros_only :
  forall s : chars,
    size (trimZeros s) = size s
    /\ (exists n, text s = text (trimZeros s) ++ zeros n
                  /\ ((0 < n)%nat -> forall p, text (trimZeros s) <> p ++ "."))
    /\ (forall p, text (trimZeros s) = p ++ "0" -> exists q, p = q ++ ".")
    /\ (forall p n, text (trimZeros (mkChars (size s) (p ++ ".0" ++ zeros n)))
                    = p ++ ".0")
    /\ trimZeros (trimZeros s) = trimZeros s.
Proof.
  intros s. split; [reflexivity|]. split; [apply trimZeros_count|].
  split; [|split; [intros p n; apply trimZeros_point_zero|]].
  - unfold trimZeros. cbn [size text].
    destruct (trimZeros_rev_spec (rev (list_ascii_of_string (text s))))
      as (_ & H2 & _).
    intros p Hp.
    apply (f_equal list_ascii_of_string) in Hp.
    rewrite list_ascii_of_string_of_list_ascii, list_ascii_of_string_app in Hp.
    apply (f_equal (@rev ascii)) in Hp.
    rewrite rev_involutive, rev_app_distr in Hp. cbn [list_ascii_of_string rev app] in Hp.
    destruct (H2 _ Hp) as [u Hu].
    exists (string_of_list_ascii (rev u)).
    apply (f_equal (@rev ascii)) in Hu. rewrite rev_involutive in Hu.
    cbn [rev] in Hu.
    rewrite <- (string_of_list_ascii_of_string p), Hu, string_of_list_ascii_app.
    reflexivity.
  - unfold trimZeros. cbn [size text].
    destruct (trimZeros_rev_spec (rev (list_ascii_of_string (text s))))
      as (_ & _ & H3).
    rewrite list_ascii_of_string_of_list_ascii, rev_involutive, H3. reflexivity.
Qed.

(** ** [strinsert] *)

Lemma substring_all (s : string) : substring 0 (String.length s) s = s.
Proof.
  induction s as [|b s IH]; cbn; [reflexivity | now rewrite IH].
Qed.

Lemma substring_split (s : string) (pos : nat) :
  (pos <= strlen s)%nat ->
  s = substring 0 pos s ++ substring pos (strlen s - pos) s
  /\ strlen (substring 0 pos s) = pos.
Proof.
  unfold strlen. revert pos; induction s as [|a s IH]; intros pos Hpos.
  - cbn in Hpos. assert (pos = 0%nat) by lia. subst. split; reflexivity.
  - destruct pos as [|pos].
    + cbn [substring append String.length Nat.sub]. rewrite substring_all.
      split; reflexivity.
    + cbn in Hpos. destruct (IH pos ltac:(lia)) as [E1 E2].
      cbn [substring append String.length Nat.sub]. rewrite E2, <- E1.
      split; reflexivity.
Qed.

(** X14: when [strinsert] completes, the text is cut at [pos] into a front
    part of [pos] characters and a rest, and the array then holds the front
    part, the inserted text and the rest, in this order; nothing is lost or
    repeated, the length grows by the length of the inserted text, and the
    result with its terminator fits the array. *)
Theorem x14_strinsert_splits_at_pos :
  forall (srcAndDest : chars) (pos : nat) (toInsert : string) (c : chars),
    strinsert srcAndDest pos toInsert = Done c ->
    exists front rest,
      text srcAndDest = front ++ rest
      /\ strlen front = pos
      /\ text c = front ++ toInsert ++ rest
      /\ strlen (text c) = (strlen (text srcAndDest) + strlen toInsert)%nat
      /\ (strlen (text c) + 1 <= size c)%nat
      /\ size c = size srcAndDest.
Proof.
  intros dst pos ins c. unfold strinsert. cbv zeta.
  destruct (Nat.leb_spec pos (strlen (text dst))) as [Hpos|Hpos]; [|discriminate].
  destruct (substring_split (text dst) pos Hpos) as [E1 E2].
  set (front := substring 0 pos (text dst)) in *.
  set (rest := substring pos (strlen (text dst) - pos) (text dst)) in *.
  unfold strcpy.
  destruct (Nat.leb_spec (strlen (front ++ ins ++ rest) + 1) (size dst)) as [Hfit|Hfit];
    [|discriminate].
  intros H. inversion H; subst c; clear H. cbn [text size].
  exists front, rest.
  repeat split; try assumption.
  rewrite E1. rewrite !append_length. lia.
Qed.

Lemma x14_strinsert_splits_at_pos_witness :
  exists front rest,
    "1234" = front ++ rest
    /\ strlen front = 3%nat
    /\ "123.4" = front ++ "." ++ rest
    /\ strlen "123.4" = (strlen "1234" + strlen ".")%nat
    /\ (strlen "123.4" + 1 <= 6)%nat
    /\ 6%nat = 6%nat.
Proof.
  apply (x14_strinsert_splits_at_pos (mkChars 6 "1234") 3 "." (mkChars 6 "123.4")).
  reflexivity.
Defined.

(** ** [to_binary] *)

Lemma allBytes_range (x : byte) : 0 <= x < 256 -> In x allBytes.
Proof.
  intros Hx. unfold allBytes.
  rewrite <- (Z2Nat.id x) by lia.
  apply in_map. apply in_seq. lia.
Qed.

Lemma allBytes_binaryOk : forallb binaryOk allBytes = true.
Proof. vm_compute. reflexivity. Qed.

(** X15: for every byte value, [to_binary] gives exactly eight characters,
    each "0" or "1", and they are the binary digits of the byte, the most
    significant bit first: reading them back as a binary number gives the
    byte. *)
Theorem x15_to_binary_is_eight_bits_msb_first :
  forall x : byte,
    0 <= x < 256 ->
    strlen (to_binary x) = 8%nat
    /\ allBits (to_binary x) = true
    /\ binaryValue (to_binary x) = x.
Proof.
  intros x Hx.
  pose proof allBytes_binaryOk as H. rewrite forallb_forall in H.
  specialize (H x (allBytes_range x Hx)). unfold binaryOk in H.
  apply andb_prop in H. destruct H as [H H3].
  apply andb_prop in H. destruct H as [H1 H2].
  apply Nat.eqb_eq in H1. apply Z.eqb_eq in H3. auto.
Qed.

Lemma x15_to_binary_is_eight_bits_msb_first_witness :
  strlen (to_binary 0xcb) = 8%nat
  /\ allBits (to_binary 0xcb) = true
  /\ binaryValue (to_binary 0xcb) = 0xcb.
Proof.
  apply (x15_to_binary_is_eight_bits_msb_first 0xcb). lia.
Defined.

(** ** The display text *)

Lemma digit_char_safe (b : byte) :
  isdigit b = true ->
  jsonSafeChar (char_of_byte b) = true /\ Ascii.eqb (char_of_byte b) "." = false.
Proof.
  intros H. apply isdigit_digitBytes in H. unfold digitBytes in H. cbn [In] in H.
  repeat (destruct H as [H|H]; [subst b; split; reflexivity|]). contradiction.
Qed.

(** The text left in [value]: it never starts with the point, and it can
    stand in a JSON string. *)
Lemma valueText_shape (buf : list byte) :
  isOverflowMark buf || digitsOk buf = true ->
  startsWithPoint (valueText buf) = false /\ jsonSafe (valueText buf) = true.
Proof.
  intros Hv. unfold valueText.
  destruct (isOverflowMark buf); [split; reflexivity|].
  cbn [orb] in Hv. unfold digitsOk in Hv.
  apply andb_prop in Hv. destruct Hv as [Hv D4].
  apply andb_prop in Hv. destruct Hv as [Hv D3].
  apply andb_prop in Hv. destruct Hv as [D1 D2].
  destruct (digit_char_safe _ D1) as [S1 P1].
  destruct (digit_char_safe _ D2) as [S2 _].
  destruct (digit_char_safe _ D3) as [S3 _].
  destruct (digit_char_safe _ D4) as [S4 _].
  unfold spec_insertPoint, spec_pointPosition, digitChars.
  destruct (at_ buf 6 =? 49);
    [|destruct (at_ buf 6 =? 50);
      [|destruct ((at_ buf 6 =? 51) || (at_ buf 6 =? 52))]];
    cbn [substring append startsWithPoint jsonSafe Nat.sub];
    rewrite P1, S1, S2, S3, S4; split; reflexivity.
Qed.

(** X16: in every record decoded with 0 the display text is put together
    from the other fields: a minus sign for a negative reading and nothing
    for a positive one, the digits with their leading zeros skipped, one
    space, and the full unit, which is the prefix directly followed by the
    unit.  The part before the space never starts with the point, and the
    whole text has at most 19 characters. *)
Theorem x16_display_text_is_sign_digits_space_unit :
  forall (now : timeval) (buf : list byte) (old r : Vc830) (ol : option locals),
    decodeFS9922Paket now buf old = Done (0, r, ol) ->
    (sign r = "+"%char \/ sign r = "-"%char)
    /\ text (formatedValue r)
       = (if Ascii.eqb (sign r) "-" then "-" else "")
         ++ skipZeros (text (rawRisplay r)) ++ " " ++ text (fullUnit r)
    /\ startsWithPoint (skipZeros (text (rawRisplay r))) = false
    /\ (strlen (text (formatedValue r)) <= 19)%nat.
Proof.
  intros now buf old r ol H.
  pose proof (display_text_decoded now buf old r ol H) as Hd.
  apply decode_Done_0 in H. destruct H as (_ & Hs & Hv & Hfit & -> & _).
  change (text (fullUnit (decodedRecord now buf)))
    with (text (prefix (decodedRecord now buf)) ++ text (unit (decodedRecord now buf))).
  split; [|split; [exact Hd|split]].
  - change (sign (decodedRecord now buf))
      with (if signOf buf =? 1 then "+"%char else "-"%char).
    destruct (signOf buf =? 1); auto.
  - change (text (rawRisplay (decodedRecord now buf))) with (valueText buf).
    apply skipZeros_no_leading_point.
    destruct (valueText_shape buf Hv) as [Hp _]. exact Hp.
  - change (text (formatedValue (decodedRecord now buf)))
      with (vWithUnitText (signOf buf) (valueText buf) (prefixText buf) (unitText buf)).
    unfold textsFit in Hfit. apply andb_prop in Hfit. destruct Hfit as [Hfit _].
    apply Nat.leb_le in Hfit. lia.
Qed.

Lemma x16_display_text_is_sign_digits_space_unit_witness :
  text (formatedValue (decodedRecord t1 frame_hold)) = "-12.34 mV".
Proof.
  destruct (x16_display_text_is_sign_digits_space_unit t1 frame_hold previous_record
              (decodedRecord t1 frame_hold) (Some (decodedLocals frame_hold)))
    as (_ & E & _).
  - vm_compute. reflexivity.
  - rewrite E. reflexivity.
Defined.

(** ** The texts in JSON output *)

Lemma appendLabel_safe (b : bool) (info s : string) :
  jsonSafe info = true -> jsonSafe s = true -> jsonSafe (appendLabel b info s) = true.
Proof.
  intros Hi Hs. unfold appendLabel. destruct b; [|exact Hs].
  destruct (strlen s =? 0)%nat; rewrite !jsonSafe_app, ?Hi, ?Hs; reflexivity.
Qed.

Ltac labels_safe :=
  repeat (apply appendLabel_safe; [reflexivity|]); reflexivity.

Lemma label_texts_safe (buf : list byte) :
  jsonSafe (modeText buf) = true /\ jsonSafe (prefixText buf) = true
  /\ jsonSafe (unitText buf) = true /\ jsonSafe (infoText buf) = true.
Proof.
  unfold modeText, prefixText, unitText, infoText.
  repeat split; labels_safe.
Qed.

(** X17: the texts of a record decoded with 0 hold no control character, no
    double quote and no backslash, and its sign is "+" or "-"; so
    [showDataJson], which prints them between double quotes without any
    escaping, prints well-formed JSON strings for every such record. *)
Theorem x17_record_texts_need_no_json_escaping :
  forall (now : timeval) (buf : list byte) (old r : Vc830) (ol : option locals),
    decodeFS9922Paket now buf old = Done (0, r, ol) ->
    jsonSafeChar (sign r) = true
    /\ forallb jsonSafe
         [text (rawRisplay r); text (mode r); text (unit r); text (prefix r);
          text (fullUnit r); text (info r); text (formatedValue r);
          text (formatedSiValue r)] = true.
Proof.
  intros now buf old r ol H.
  apply decode_Done_0 in H. destruct H as (_ & Hs & Hv & _ & -> & _).
  change (sign (decodedRecord now buf))
    with (if signOf buf =? 1 then "+"%char else "-"%char).
  change (text (rawRisplay (decodedRecord now buf))) with (valueText buf).
  change (text (mode (decodedRecord now buf))) with (modeText buf).
  change (text (prefix (decodedRecord now buf))) with (prefixText buf).
  change (text (unit (decodedRecord now buf))) with (unitText buf).
  change (text (info (decodedRecord now buf))) with (infoText buf).
  change (text (fullUnit (decodedRecord now buf)))
    with (prefixText buf ++ unitText buf).
  change (text (formatedValue (decodedRecord now buf)))
    with (vWithUnitText (signOf buf) (valueText buf) (prefixText buf) (unitText buf)).
  change (text (formatedSiValue (decodedRecord now buf)))
    with (vSiText (vSiOf (signOf buf) (valueText buf) (prefixText buf))
          ++ " " ++ unitText buf).
  destruct (label_texts_safe buf) as (Sm & Sp & Su & Si).
  destruct (valueText_shape buf Hv) as [_ Sv].
  destruct (si_number buf Hv Hs) as (_ & _ & Sn).
  assert (Sk : jsonSafe (skipZeros (valueText buf)) = true).
  { destruct (skipZeros_suffix (valueText buf)) as [n E].
    rewrite E, jsonSafe_app in Sv. apply andb_prop in Sv. tauto. }
  split; [destruct (signOf buf =? 1); reflexivity|].
  unfold vWithUnitText. cbn [forallb].
  rewrite !jsonSafe_app, Sm, Sp, Su, Si, Sv, Sk, Sn.
  destruct (signOf buf =? -1); reflexivity.
Qed.

Lemma x17_record_texts_need_no_json_escaping_witness :
  jsonSafeChar (sign (decodedRecord t1 frame_hold)) = true
  /\ forallb jsonSafe
       [text (rawRisplay (decodedRecord t1 frame_hold));
        text (mode (decodedRecord t1 frame_hold));
        text (unit (decodedRecord t1 frame_hold));
        text (prefix (decodedRecord t1 frame_hold));
        text (fullUnit (decodedRecord t1 frame_hold));
        text (info (decodedRecord t1 frame_hold));
        text (formatedValue (decodedRecord t1 frame_hold));
        text (formatedSiValue (decodedRecord t1 frame_hold))] = true.
Proof.
  apply (x17_record_texts_need_no_json_escaping t1 frame_hold previous_record
           (decodedRecord t1 frame_hold) (Some (decodedLocals frame_hold))).
  vm_compute. reflexivity.
Defined.

(** ** The multiplier *)

(** X18: the SI value is the displayed number times a multiplier times the
    sign, and the multiplier differs from 1 only when the prefix text is
    exactly "n", "µ", "m" or "k".  With any other prefix text, "M" and "%"
    among them, the SI value is the displayed number unscaled. *)
Theorem x18_other_prefixes_leave_si_value_unscaled :
  forall (now : timeval) (buf : list byte) (old r : Vc830) (l : locals),
    decodeFS9922Paket now buf old = Done (0, r, Some l) ->
    text (prefix r) <> "n" -> text (prefix r) <> "µ" ->
    text (prefix r) <> "m" -> text (prefix r) <> "k" ->
    l_vSi l
    = (atof (text (rawRisplay r)) * 1
       * double_of_Z (if Ascii.eqb (sign r) "-" then -1 else 1))%float.
Proof.
  intros now buf old r l H.
  apply decode_Done_0 in H. destruct H as (_ & Hs & _ & _ & -> & E).
  inversion E; subst l; clear E.
  change (text (prefix (decodedRecord now buf))) with (prefixText buf).
  change (text (rawRisplay (decodedRecord now buf))) with (valueText buf).
  change (sign (decodedRecord now buf))
    with (if signOf buf =? 1 then "+"%char else "-"%char).
  change (l_vSi (decodedLocals buf))
    with (vSiOf (signOf buf) (valueText buf) (prefixText buf)).
  intros Nn Nu Nm Nk.
  destruct (multToSi_table (prefixText buf)) as (_ & _ & _ & _ & _ & M).
  unfold vSiOf. rewrite (M Nn Nu Nm Nk).
  destruct (signOf_cases buf) as [[_ S]|[[_ S]|[_ [_ S]]]]; [| |contradiction];
    rewrite S; reflexivity.
Qed.

Lemma x18_other_prefixes_leave_si_value_unscaled_witness :
  text (formatedValue (decodedRecord t1 frame_mega)) = "1234 MΩ"
  /\ l_vSi (decodedLocals frame_mega) = 1234%float
  /\ text (formatedSiValue (decodedRecord t1 frame_mega)) = "1234.0 Ω".
Proof.
  split; [reflexivity|]. split; [|reflexivity].
  rewrite (x18_other_prefixes_leave_si_value_unscaled t1 frame_mega previous_record
             (decodedRecord t1 frame_mega) (decodedLocals frame_mega)).
  - vm_compute. reflexivity.
  - vm_compute. reflexivity.
  - discriminate.
  - discriminate.
  - discriminate.
  - discriminate.
Defined.

(** ** The status part *)

(** X19: the thirty calls of [checkInfo] never write past the end of the
    four 100-byte arrays, whatever the four status bytes hold: the status
    part always runs to its end, and even with every bit set the texts of
    [mode], [prefix], [unit] and [info] have at most 15, 13, 24 and 47
    bytes. *)
Theorem x19_status_part_never_overruns :
  forall (buf : list byte) (d : Vc830),
    exists d' mode prefix unit info,
      readStatus buf d = Done (d', mode, prefix, unit, info)
      /\ (strlen (text mode) <= 15)%nat /\ (strlen (text prefix) <= 13)%nat
      /\ (strlen (text unit) <= 24)%nat /\ (strlen (text info) <= 47)%nat
      /\ size mode = BUFFER_LEN /\ size prefix = BUFFER_LEN
      /\ size unit = BUFFER_LEN /\ size info = BUFFER_LEN.
Proof.
  intros buf d.
  exists (statusFlags buf d), (mkChars BUFFER_LEN (modeText buf)),
    (mkChars BUFFER_LEN (prefixText buf)), (mkChars BUFFER_LEN (unitText buf)),
    (mkChars BUFFER_LEN (infoText buf)).
  split; [apply readStatus_total|]. cbn [text size].
  pose proof (modeText_length buf). pose proof (prefixText_length buf).
  pose proof (unitText_length buf). pose proof (infoText_length buf).
  repeat split; assumption.
Qed.

(** ** Flags and labels *)

Lemma In_labelsOf (x : string) (table : list (Z * Z * string)) (buf : list byte) :
  In x (labelsOf table buf)
  <-> exists sb bit, In (sb, bit, x) table /\ statusBitSet buf sb bit = true.
Proof.
  unfold labelsOf. rewrite in_map_iff. split.
  - intros [[[sb bit] y] [E H]]. apply filter_In in H. cbn in E, H. subst y.
    exists sb, bit. exact H.
  - intros (sb & bit & H1 & H2). exists (sb, bit, x). split; [reflexivity|].
    apply filter_In. split; assumption.
Qed.

Ltac only_entry H :=
  destruct H as (sb & bit & Hin & Hset); cbn [In modeTable infoTable] in Hin;
  repeat (destruct Hin as [Hin|Hin]; [inversion Hin; subst; try exact Hset|]);
  contradiction.

(** X20: in every record decoded with 0 the flags say what the texts say:
    [autoRangeActive] is set exactly when "AUTO" is among the info labels,
    [batteryWarning] exactly when "Bat" is, [deltaActive] and [holdActive]
    exactly when "REL" and "HOLD" are among the mode labels, and [overflow]
    exactly when the digits text is "OVF"; [barGraphIsShown], which has no
    label, is bit 0 of the first status byte. *)
Theorem x20_flags_agree_with_labels :
  forall (now : timeval) (buf : list byte) (old r : Vc830) (ol : option locals),
    decodeFS9922Paket now buf old = Done (0, r, ol) ->
    (autoRangeActive r = true <-> In "AUTO" (labelsOf infoTable buf))
    /\ (batteryWarning r = true <-> In "Bat" (labelsOf infoTable buf))
    /\ (deltaActive r = true <-> In "REL" (labelsOf modeTable buf))
    /\ (holdActive r = true <-> In "HOLD" (labelsOf modeTable buf))
    /\ (overflow r = true <-> text (rawRisplay r) = "OVF")
    /\ barGraphIsShown r = statusBitSet buf 1 0.
Proof.
  intros now buf old r ol H.
  apply decode_Done_0 in H. destruct H as (_ & _ & _ & _ & -> & _).
  change (autoRangeActive (decodedRecord now buf)) with (statusBitSet buf 1 5).
  change (batteryWarning (decodedRecord now buf)) with (statusBitSet buf 2 2).
  change (deltaActive (decodedRecord now buf)) with (statusBitSet buf 1 2).
  change (holdActive (decodedRecord now buf)) with (statusBitSet buf 1 1).
  change (barGraphIsShown (decodedRecord now buf)) with (statusBitSet buf 1 0).
  change (overflow (decodedRecord now buf)) with (isOverflowMark buf).
  change (text (rawRisplay (decodedRecord now buf))) with (valueText buf).
  rewrite !In_labelsOf.
  repeat split.
  - intros H. exists 1, 5. split; [cbn; auto | exact H].
  - intros H. only_entry H.
  - intros H. exists 2, 2. split; [cbn; auto 10 | exact H].
  - intros H. only_entry H.
  - intros H. exists 1, 2. split; [cbn; auto | exact H].
  - intros H. only_entry H.
  - intros H. exists 1, 1. split; [cbn; auto | exact H].
  - intros H. only_entry H.
  - intros H. unfold valueText. rewrite H. reflexivity.
  - unfold valueText. destruct (isOverflowMark buf); [reflexivity|].
    intros H. apply (f_equal strlen) in H. exfalso. revert H.
    unfold spec_insertPoint, digitChars.
    destruct (spec_pointPosition (at_ buf 6)) as [[|[|[|[|n]]]]|]; cbn; discriminate.
Qed.

Lemma x20_flags_agree_with_labels_witness :
  holdActive (decodedRecord t1 frame_hold) = true
  /\ batteryWarning (decodedRecord t1 frame_hold) = true
  /\ deltaActive (decodedRecord t1 frame_hold) = false.
Proof.
  destruct (x20_flags_agree_with_labels t1 frame_hold previous_record
              (decodedRecord t1 frame_hold) (Some (decodedLocals frame_hold)))
    as (_ & Hb & Hd & Hh & _).
  - vm_compute. reflexivity.
  - split; [apply Hh; vm_compute; auto|].
    split; [apply Hb; vm_compute; auto|].
    reflexivity.
Defined.

(** ** [showData] and the sampling loop *)

Section Showing.

Variables getIso8601Time getLocalDateTime getLocalTime : timeval -> string.

Lemma showData_time_unknown (d : Vc830) (outputFormat timeFormat : string) :
  knownTimeFormat timeFormat = false ->
  showData getIso8601Time getLocalDateTime getLocalTime d outputFormat timeFormat
  = Exited (showUsageAndExit "Unknown time format.").
Proof.
  unfold knownTimeFormat, showData, strequal. cbn [existsb].
  intros H.
  destruct (timeFormat =? "iso")%string; [discriminate|].
  destruct (timeFormat =? "local")%string; [discriminate|].
  destruct (timeFormat =? "human")%string; [discriminate|].
  destruct (timeFormat =? "epochsecms")%string; [discriminate|].
  destruct (timeFormat =? "none")%string; [discriminate|].
  reflexivity.
Qed.

Lemma showData_output_unknown (d : Vc830) (outputFormat timeFormat : string) :
  knownTimeFormat timeFormat = true -> knownOutputFormat outputFormat = false ->
  showData getIso8601Time getLocalDateTime getLocalTime d outputFormat timeFormat
  = Printed "".
Proof.
  unfold knownTimeFormat, knownOutputFormat, showData, strequal. cbn [existsb].
  intros Ht Ho.
  destruct (outputFormat =? "keyvalue")%string; [discriminate|].
  destruct (outputFormat =? "json")%string; [discriminate|].
  destruct (outputFormat =? "human")%string; [discriminate|].
  destruct (outputFormat =? "si")%string; [discriminate|].
  destruct (timeFormat =? "iso")%string;
    destruct (timeFormat =? "local")%string;
    destruct (timeFormat =? "human")%string;
    destruct (timeFormat =? "epochsecms")%string;
    destruct (timeFormat =? "none")%string; try discriminate; reflexivity.
Qed.

End Showing.

(** X21: [showData] checks the time format first: with a time format other
    than iso, local, human, epochsecms and none it ends the program with
    the usage text, headed by "Error: Unknown time format.", and status -1,
    whatever the output format is.  With a known time format and an output
    format other than keyvalue, json, human and si it prints nothing at all
    and reports no error. *)
Theorem x21_unknown_formats :
  forall (getIso8601Time getLocalDateTime getLocalTime : timeval -> string)
         (d : Vc830) (outputFormat timeFormat : string),
    (knownTimeFormat timeFormat = false ->
     showData getIso8601Time getLocalDateTime getLocalTime d outputFormat timeFormat
     = Exited (showUsageAndExit "Unknown time format.")
     /\ exit_status (showUsageAndExit "Unknown time format.") = -1
     /\ substring 0 28 (exit_stderr (showUsageAndExit "Unknown time format."))
        = "Error: Unknown time format." ++ nl)
    /\ (knownTimeFormat timeFormat = true -> knownOutputFormat outputFormat = false ->
        showData getIso8601Time getLocalDateTime getLocalTime d outputFormat timeFormat
        = Printed "").
Proof.
  intros iso ldt lt d outputFormat timeFormat. split.
  - intros H. split; [apply showData_time_unknown; exact H|].
    split; reflexivity.
  - apply showData_output_unknown.
Qed.

Lemma x21_unknown_formats_witness :
  showData (fun _ => "") (fun _ => "") (fun _ => "") previous_record "json" "ISO"
  = Exited (showUsageAndExit "Unknown time format.")
  /\ showData (fun _ => "") (fun _ => "") (fun _ => "") previous_record "JSON" "iso"
     = Printed "".
Proof.
  destruct (x21_unknown_formats (fun _ => "") (fun _ => "") (fun _ => "")
              previous_record "json" "ISO") as [H1 _].
  destruct (x21_unknown_formats (fun _ => "") (fun _ => "") (fun _ => "")
              previous_record "JSON" "iso") as [_ H2].
  split.
  - apply H1. reflexivity.
  - apply H2; reflexivity.
Defined.

Section Sampling.

Variables getIso8601Time getLocalDateTime getLocalTime : timeval -> string.
Variable gettimeofday : Z -> timeval.
Variable perror : string -> string.

Local Open Scope list_scope.


(** The sampling loop never reads what [readBuffer] and [vc830Data] held
    when it was entered. *)
Lemma mainLoop_indep (outputFormat timeFormat : string) (rounds : nat) :
  forall (loop : Z) (evs : list io_event) (b1 b2 : list byte) (d1 d2 : Vc830)
         (out err : string),
    (14 <= List.length b1)%nat -> (14 <= List.length b2)%nat ->
    mainLoop getIso8601Time getLocalDateTime getLocalTime gettimeofday perror
      outputFormat timeFormat rounds loop evs b1 d1 out err
    = mainLoop getIso8601Time getLocalDateTime getLocalTime gettimeofday perror
        outputFormat timeFormat rounds loop evs b2 d2 out err.
Proof.
  induction rounds as [|rounds IH]; intros loop evs b1 b2 d1 d2 out err L1 L2;
    [reflexivity|].
  cbn [mainLoop]. unfold read14BytesPaket.
  pose proof (loop_indep evs b1 b2 0 ltac:(lia) L1 L2 eq_refl) as H.
  pose proof (loop_buffer evs b1 0 ltac:(lia)) as [K1 _].
  pose proof (loop_buffer evs b2 0 ltac:(lia)) as [K2 _].
  destruct (read14BytesPaket_loop evs b1 0) as [r1 c1 e1|w1 i1];
    destruct (read14BytesPaket_loop evs b2 0) as [r2 c2 e2|w2 i2];
    try contradiction; [|reflexivity].
  destruct H as (-> & -> & Hf). cbn [bufferOf] in K1, K2.
  destruct (r2 =? END_OF_CAPTURE_FILE); [reflexivity|].
  destruct (Z.eqb_spec r2 0) as [E|NE]; cbn [negb]; [|reflexivity].
  rewrite (decode_agree (gettimeofday (loop + 1)) c1 c2 d1 d2 (Hf E)).
  destruct (decodeFS9922Paket (gettimeofday (loop + 1)) c2 d2)
    as [[[ret r] ol]|]; cbn [bind]; [|reflexivity].
  destruct (ret =? 0); cbn [negb].
  - destruct (showData _ _ _ r outputFormat timeFormat) as [s|e]; [|reflexivity].
    apply IH; lia.
  - apply IH; lia.
Qed.

End Sampling.



(** X2: [main] declares [readBuffer] and [vc830Data] without initialising
    them.  What the sampling loop writes to stdout and stderr and how the
    program ends does not depend on what the two hold when the loop is
    entered: on the same answers of [select] and [read], two buffers of
    fourteen bytes or more and two records give the same run, be it output
    and exit status, a wait on a silent line, or undefined behaviour in the
    decoder. *)
Theorem x2_sampling_independent_of_uninitialised_locals :
  forall (getIso8601Time getLocalDateTime getLocalTime : timeval -> string)
         (gettimeofday : Z -> timeval) (perror : string -> string)
         (outputFormat timeFormat : string) (count : nat) (loop : Z)
         (evs : list io_event) (b1 b2 : list byte) (d1 d2 : Vc830)
         (stdout stderr : string),
    (14 <= List.length b1)%nat -> (14 <= List.length b2)%nat ->
    mainLoop getIso8601Time getLocalDateTime getLocalTime gettimeofday perror
      outputFormat timeFormat count loop evs b1 d1 stdout stderr
    = mainLoop getIso8601Time getLocalDateTime getLocalTime gettimeofday perror
        outputFormat timeFormat count loop evs b2 d2 stdout stderr.
Proof.
  intros iso ldt lt clock perror outputFormat timeFormat count loop evs b1 b2
    d1 d2 out err L1 L2.
  apply mainLoop_indep; assumption.
Qed.

(** A stalled line that delivers half a frame, the example frame, the
    frame with the bad space and then fails in [select]: the same run from
    a buffer of zeros with an empty record and from a buffer of 255s with
    the record of an earlier frame. *)
Lemma x2_sampling_independent_of_uninitialised_locals_witness :
  mainLoop (fun _ => "") (fun _ => "") (fun _ => "") (fun _ => t1)
    (fun s => s ++ ": Bad file descriptor" ++ nl) "human" "none" 10 0
    (stalled_stream (firstn 7 frame_bar) (frame_example ++ frame_bad_space)%list 1
       [SelectFailed])
    (repeat 255 14) previous_record "" ""
  = Done ("123.4 V" ++ tab ++ tab ++ "DC" ++ tab ++ "AUTO" ++ nl,
          "VC-830 data paket parsing failed with -1" ++ nl
          ++ "select failed: Bad file descriptor" ++ nl
          ++ "Error: Program exit with: Read failed",
          ExitStatus (-1)).
Proof.
  rewrite (x2_sampling_independent_of_uninitialised_locals
             (fun _ => "") (fun _ => "") (fun _ => "") (fun _ => t1)
             (fun s => s ++ ": Bad file descriptor" ++ nl) "human" "none" 10 0
             (stalled_stream (firstn 7 frame_bar)
                (frame_example ++ frame_bad_space)%list 1 [SelectFailed])
             (repeat 255 14) c3_buffer previous_record Vc830_zero "" "").
  - vm_compute. reflexivity.
  - vm_compute. lia.
  - vm_compute. lia.
Defined.

(** ** The argument loop *)

Section ArgumentLoop.

Variable PATH_MAX : nat.
Variable LONG_MAX : Z.
Variable atol : string -> Z.

Local Open Scope list_scope.





End ArgumentLoop.



(** ** Failed reads *)

Lemma loop_quiet (evs : list io_event) (buf : list byte) (idx : nat) :
  forallb quiet evs = true -> (idx < 14)%nat ->
  exists idx', read14BytesPaket_loop evs buf idx = Waiting buf idx'.
Proof.
  revert idx; induction evs as [|e evs IH]; intros idx Hq Hidx.
  - exists idx. reflexivity.
  - cbn [forallb] in Hq. apply andb_prop in Hq. destruct Hq as [He Hq].
    destruct e; try discriminate He; cbn [read14BytesPaket_loop].
    + apply IH; [assumption | lia].
    + destruct (Nat.eqb_spec idx 14) as [E|_]; [exfalso; lia|].
      apply IH; assumption.
Qed.

(** X24: a [read] that fails is never reported: like a timeout it neither
    ends the call of [read14BytesPaket] nor the program.  While the line
    delivers only timeouts and failed reads the sampling loop stays in its
    first call, writes nothing to stdout or stderr and does not exit. *)
Theorem x24_failed_reads_are_ignored :
  forall (getIso8601Time getLocalDateTime getLocalTime : timeval -> string)
         (gettimeofday : Z -> timeval) (perror : string -> string)
         (outputFormat timeFormat : string) (count : nat) (loop : Z)
         (evs : list io_event) (readBuffer : list byte) (vc830Data : Vc830)
         (stdout stderr : string),
    forallb quiet evs = true ->
    mainLoop getIso8601Time getLocalDateTime getLocalTime gettimeofday perror
      outputFormat timeFormat (S count) loop evs readBuffer vc830Data stdout stderr
    = Done (stdout, stderr, Blocked).
Proof.
  intros iso ldt lt clock perror outputFormat timeFormat count loop evs buf d
    out err Hq.
  cbn [mainLoop]. unfold read14BytesPaket.
  destruct (loop_quiet evs buf 0 Hq ltac:(lia)) as [idx' ->]. reflexivity.
Qed.

Lemma x24_failed_reads_are_ignored_witness :
  mainLoop (fun _ => "") (fun _ => "") (fun _ => "") (fun _ => t1) (fun _ => "")
    "human" "none" 3 0 [ReadFailed; ReadFailed; SelectTimeout; ReadFailed]
    c3_buffer Vc830_zero "" ""
  = Done ("", "", Blocked).
Proof.
  apply (x24_failed_reads_are_ignored (fun _ => "") (fun _ => "") (fun _ => "")
           (fun _ => t1) (fun _ => "") "human" "none" 2 0
           [ReadFailed; ReadFailed; SelectTimeout; ReadFailed] c3_buffer Vc830_zero
           "" "").
  reflexivity.
Defined.
